(** * Pagination engine of the TruSTAR Python client

    A shallow embedding of the page models and page generators of

    - [trustar/models/numbered_page.py]  (module [NumberedPage]),
    - [trustar/models/cursor_page.py]    (module [CursorPage]),
    - [trustar/report_client.py]         (module [ReportClient]),
    - [trustar/models/report.py]         (module [Report]),

    followed by the properties of the pagination specification.

    Python values are untyped, so the fields of a page hold values of one
    universe [pyvalue]; every operation the code applies to them (truth
    test, [float], [+], [len], indexing, iteration, attribute access) is
    written out, with the exception it raises on the wrong kind of value.
    Generators are state machines: a state records where the generator is
    suspended and the local variables that are live there, and [next]
    resumes it once. *)

From Stdlib Require Import ZArith QArith Qround String List Sorted Lia.
From stdpp Require Import base gmap strings list fin_maps.

#[local] Open Scope Z_scope.
#[local] Set Warnings "-register-all".

(** ** Python values *)

(** The values that reach the pagination code: what [json] decoding
    produces, plus instances of the model classes.  An instance is its
    class name and its attribute dictionary.  Floating-point numbers are
    not part of the universe; the one place where the code goes through
    [float] is modelled with exact rationals (see [py_float]). *)
Inductive pyvalue : Type :=
  | PyNone
  | PyBool (b : bool)
  | PyInt (z : Z)
  | PyStr (s : string)
  | PyList (l : list pyvalue)
  | PyDict (d : gmap string pyvalue)
  | PyObj (cls : string) (attrs : gmap string pyvalue).

(** Exceptions.  Only the [ValueError] raised by the page constructors
    carries a message in the source; [FetchError] stands for whatever the
    page-fetch function raises (transport and API failures). *)
Inductive exn : Type :=
  | ValueError (msg : string)
  | TypeError
  | AttributeError
  | KeyError
  | IndexError
  | ZeroDivisionError
  | FetchError (msg : string).

Inductive result (A : Type) : Type :=
  | Ok (a : A)
  | Raise (e : exn).
Arguments Ok {A} a.
Arguments Raise {A} e.

#[global] Instance result_ret : MRet result := @Ok.
#[global] Instance result_bind : MBind result :=
  fun A B f r => match r with Ok a => f a | Raise e => Raise e end.
#[global] Instance result_fmap : FMap result :=
  fun A B f r => match r with Ok a => Ok (f a) | Raise e => Raise e end.

(** What the interpreter and the model classes contribute:
    - [env_float s] is [float(s)] for a string [s] (a finite number, or the
      exception for a string that is not one);
    - [env_to_dict cls] is the [to_dict] method of class [cls], if the class
      has one, as a function of [remove_nones] and of the instance's
      attributes.  Built-in values have no [to_dict]. *)
Record pyenv : Type := {
  env_float : string -> result Q;
  env_to_dict : string -> option (bool -> gmap string pyvalue -> result pyvalue)
}.

(** [dict.get(key)]: the value, [None] when the key is absent. *)
Definition dict_get (d : gmap string pyvalue) (key : string) : pyvalue :=
  default PyNone (d !! key).

(** Truth value of [v] in a condition ([if v], [while v], [not v]).  The
    model classes define neither [__bool__] nor [__len__]: their instances
    are true. *)
Definition py_truthy (v : pyvalue) : bool :=
  match v with
  | PyNone => false
  | PyBool b => b
  | PyInt z => negb (z =? 0)
  | PyStr s => negb (Nat.eqb (String.length s) 0)
  | PyList l => negb (Nat.eqb (length l) 0)
  | PyDict d => negb (Nat.eqb (size d) 0)
  | PyObj _ _ => true
  end.

(** [v is None] *)
Definition is_None (v : pyvalue) : bool :=
  match v with PyNone => true | _ => false end.

(** [float(v)].  Integers convert exactly here; a double does so for
    magnitudes below 2^53, which page counts never reach. *)
Definition py_float (E : pyenv) (v : pyvalue) : result Q :=
  match v with
  | PyBool b => Ok (inject_Z (Z.b2z b))
  | PyInt z => Ok (inject_Z z)
  | PyStr s => env_float E s
  | PyNone | PyList _ | PyDict _ | PyObj _ _ => Raise TypeError
  end.

(** The integer [v] stands for as an operand of [v + k] or [v - k] with an
    integer [k]; every other kind of value raises [TypeError]. *)
Definition py_int_operand (v : pyvalue) : result Z :=
  match v with
  | PyBool b => Ok (Z.b2z b)
  | PyInt z => Ok z
  | PyNone | PyStr _ | PyList _ | PyDict _ | PyObj _ _ => Raise TypeError
  end.

Fixpoint chars (s : string) : list pyvalue :=
  match s with
  | EmptyString => []
  | String c s' => PyStr (String c EmptyString) :: chars s'
  end.

(** [for x in v]: the elements visited.  A dictionary yields its keys (in
    the order of the finite map, insertion order is not modelled). *)
Definition py_iter (v : pyvalue) : result (list pyvalue) :=
  match v with
  | PyList l => Ok l
  | PyStr s => Ok (chars s)
  | PyDict d => Ok (PyStr <$> (map_to_list d).*1)
  | PyNone | PyBool _ | PyInt _ | PyObj _ _ => Raise TypeError
  end.

(** [len(v)] *)
Definition py_len (v : pyvalue) : result nat :=
  match v with
  | PyList l => Ok (length l)
  | PyStr s => Ok (String.length s)
  | PyDict d => Ok (size d)
  | PyNone | PyBool _ | PyInt _ | PyObj _ _ => Raise TypeError
  end.

(** [v[-1]] *)
Definition py_last (v : pyvalue) : result pyvalue :=
  match v with
  | PyList l => match last l with Some x => Ok x | None => Raise IndexError end
  | PyStr s => match last (chars s) with Some x => Ok x | None => Raise IndexError end
  | PyDict _ => Raise KeyError
  | PyNone | PyBool _ | PyInt _ | PyObj _ _ => Raise TypeError
  end.

(** [v.name] for a data attribute. *)
Definition py_getattr (v : pyvalue) (name : string) : result pyvalue :=
  match v with
  | PyObj _ attrs =>
      match attrs !! name with Some x => Ok x | None => Raise AttributeError end
  | _ => Raise AttributeError
  end.

(** [hasattr(v, 'to_dict')] and [v.to_dict(remove_nones)] *)
Definition to_dict_method (E : pyenv) (v : pyvalue) : option (bool -> result pyvalue) :=
  match v with
  | PyObj cls attrs =>
      match env_to_dict E cls with
      | Some m => Some (fun remove_nones => m remove_nones attrs)
      | None => None
      end
  | _ => None
  end.

Definition call_to_dict (E : pyenv) (remove_nones : bool) (v : pyvalue) : result pyvalue :=
  match to_dict_method E v with
  | Some m => m remove_nones
  | None => Raise AttributeError
  end.

(** [v.get(key)]: only a dictionary has the method. *)
Definition call_get (v : pyvalue) (key : string) : result pyvalue :=
  match v with
  | PyDict d => Ok (dict_get d key)
  | _ => Raise AttributeError
  end.

(** [mapM]: a list comprehension whose body may raise; the first exception
    ends it. *)
Fixpoint traverse {A B : Type} (f : A -> result B) (l : list A) : result (list B) :=
  match l with
  | [] => Ok []
  | x :: l' => y ← f x; ys ← traverse f l'; Ok (y :: ys)
  end.

(** The class object passed as [content_type].  A caller can pass a value
    that is no class at all; a class has a name, is or is not a subclass of
    [ModelBase], and has (when it is one) the class method [from_dict]. *)
Inductive pytype : Type :=
  | NotAClass (v : pyvalue)
  | PyClass (name : string) (is_model : bool) (cls_from_dict : pyvalue -> result pyvalue).

(** [issubclass(content_type, ModelBase)] *)
Definition issubclass_ModelBase (ct : pytype) : result bool :=
  match ct with
  | NotAClass _ => Raise TypeError
  | PyClass _ is_model _ => Ok is_model
  end.

(** [content_type.from_dict(item)] *)
Definition call_from_dict (ct : pytype) (item : pyvalue) : result pyvalue :=
  match ct with
  | NotAClass _ => Raise AttributeError
  | PyClass _ _ f => f item
  end.

(** ** Generators *)

(** One resumption of a generator: it yields, or it returns (the consumer
    sees [StopIteration]), or an exception escapes. *)
Inductive step (Y : Type) : Type :=
  | Yield (y : Y)
  | StopIteration
  | Raised (e : exn).
Arguments Yield {Y} y.
Arguments StopIteration {Y}.
Arguments Raised {Y} e.

(** How a consumer that pulls at most [fuel] times leaves the generator. *)
Inductive ending : Type :=
  | Exhausted
  | Failed (e : exn)
  | StillRunning.

(** [drain next fuel g w]: the values a [for] loop receives from the
    generator in state [g], pulling at most [fuel] times, in a world [w]
    (the state of whatever the fetch function talks to). *)
Fixpoint drain {G W Y : Type} (next : G -> W -> step Y * G * W)
    (fuel : nat) (g : G) (w : W) : list Y * ending * W :=
  match fuel with
  | O => ([], StillRunning, w)
  | S fuel' =>
      match next g w with
      | (Yield y, g', w') =>
          let '(ys, e, w'') := drain next fuel' g' w' in (y :: ys, e, w'')
      | (StopIteration, _, w') => ([], Exhausted, w')
      | (Raised e, _, w') => ([], Failed e, w')
      end
  end.

(** ** trustar/models/page.py *)

Module Page.

(** Modelled from the spec: [Page.__init__] of trustar/models/page.py,
    which is not among the sources.  A page "holds a list of items", and
    "items is never null after construction (empty sequence allowed)":
    the value stored in [self.items]. *)
Definition __init__ (items : pyvalue) : pyvalue :=
  if is_None items then PyList [] else items.

End Page.

(** ** trustar/models/numbered_page.py *)

Module NumberedPage.

Record t : Type := mk {
  items : pyvalue;
  page_number : pyvalue;
  page_size : pyvalue;
  total_elements : pyvalue;
  has_next : pyvalue
}.

Definition __init__ (items page_number page_size total_elements has_next : pyvalue) : t :=
  mk (Page.__init__ items) page_number page_size total_elements has_next.

Section Methods.
Variable E : pyenv.

(** [None] is Python's [None]; otherwise
    [math.ceil(float(total_elements) / float(page_size))]. *)
Definition get_total_pages (self : t) : result (option Z) :=
  if is_None (total_elements self) || is_None (page_size self) then Ok None
  else
    a ← py_float E (total_elements self);
    b ← py_float E (page_size self);
    if Qeq_bool b 0 then Raise ZeroDivisionError
    else Ok (Some (Qceiling (a / b))).

Definition has_more_pages (self : t) : result pyvalue :=
  if negb (is_None (has_next self)) then Ok (has_next self)
  else
    total_pages ← get_total_pages self;
    match total_pages with
    | Some tp =>
        if is_None (page_number self) then Ok PyNone
        else
          n ← py_int_operand (page_number self);
          Ok (PyBool (n + 1 <? tp))
    | None => Ok PyNone
    end.

Definition from_dict (page : gmap string pyvalue) (content_type : option pytype)
    : result t :=
  let result := __init__ (dict_get page "items")
                         (dict_get page "pageNumber")
                         (dict_get page "pageSize")
                         (dict_get page "totalElements")
                         (dict_get page "hasNext") in
  match content_type with
  | None => Ok result
  | Some ct =>
      sub ← issubclass_ModelBase ct;
      if negb sub then
        Raise (ValueError "'content_type' must be a subclass of ModelBase.")
      else
        its ← py_iter (items result);
        its' ← traverse (call_from_dict ct) its;
        Ok (mk (PyList its') (page_number result) (page_size result)
               (total_elements result) (has_next result))
  end.

(** What the loop of [to_dict] appends for one item: its dictionary
    form if it has a [to_dict], the item itself otherwise. *)
Definition item_to_dict (remove_nones : bool) (item : pyvalue) : result pyvalue :=
  match to_dict_method E item with
  | Some m => m remove_nones
  | None => Ok item
  end.

Definition to_dict (remove_nones : bool) (self : t) : result (gmap string pyvalue) :=
  its ← py_iter (items self);
  items' ← traverse (item_to_dict remove_nones) its;
  Ok (<["items" := PyList items']>
     (<["pageNumber" := page_number self]>
     (<["pageSize" := page_size self]>
     (<["totalElements" := total_elements self]>
     (<["hasNext" := has_next self]> ∅))))).

End Methods.

(** The generator of [get_page_generator(func, start_page, page_size)].
    [func page_number page_size] is the fetch function; it runs in a
    world it may change.  The page it returns is yielded first and asked
    [has_more_pages] at the next resumption; the consumer is taken to
    leave the page object as it received it. *)
Section Generator.
Context {W : Type}.
Variable E : pyenv.
Variable func : Z -> option Z -> W -> result t * W.
Variable page_size : option Z.

Inductive gen : Type :=
  | AtLoopTest (page_number : Z) (more_pages : pyvalue)
  | AtYield (page : t) (page_number : Z)
  | Finished.

(** The generator object before its first resumption:
    [page_number = start_page], [more_pages = True]. *)
Definition get_page_generator (start_page : Z) : gen :=
  AtLoopTest start_page (PyBool true).

(** From [while more_pages:] to the next [yield page]. *)
Definition loop (page_number : Z) (more_pages : pyvalue) (w : W)
    : step t * gen * W :=
  if py_truthy more_pages then
    match func page_number page_size w with
    | (Ok page, w') => (Yield page, AtYield page page_number, w')
    | (Raise e, w') => (Raised e, Finished, w')
    end
  else (StopIteration, Finished, w).

Definition next (g : gen) (w : W) : step t * gen * W :=
  match g with
  | AtLoopTest page_number more_pages => loop page_number more_pages w
  | AtYield page page_number =>
      match has_more_pages E page with
      | Ok more_pages => loop (page_number + 1) more_pages w
      | Raise e => (Raised e, Finished, w)
      end
  | Finished => (StopIteration, Finished, w)
  end.

End Generator.

End NumberedPage.

(** ** trustar/models/cursor_page.py *)

Module CursorPage.

Record t : Type := mk {
  items : pyvalue;
  response_metadata : pyvalue
}.

Definition __init__ (items response_metadata : pyvalue) : t :=
  mk (Page.__init__ items) response_metadata.

Section Methods.
Variable E : pyenv.

Definition from_dict (page : gmap string pyvalue) (content_type : option pytype)
    : result t :=
  let result := __init__ (dict_get page "items")
                         (dict_get page "responseMetadata") in
  match content_type with
  | None => Ok result
  | Some ct =>
      sub ← issubclass_ModelBase ct;
      if negb sub then
        Raise (ValueError "'content_type' must be a subclass of ModelBase.")
      else
        its ← py_iter (items result);
        its' ← traverse (call_from_dict ct) its;
        Ok (mk (PyList its') (response_metadata result))
  end.

Definition to_dict (remove_nones : bool) (self : t) : result (gmap string pyvalue) :=
  its ← py_iter (items self);
  items' ← traverse (call_to_dict E remove_nones) its;
  Ok (<["items" := PyList items']>
     (<["responseMetadata" := response_metadata self]> ∅)).

(** The inner function of [get_cursor_based_page_generator]. *)
Definition get_next_cursor (page : t) : result pyvalue :=
  page_dict ← to_dict false page;
  let response_metadata :=
    if py_truthy (PyDict page_dict) then dict_get page_dict "responseMetadata"
    else PyStr "" in
  if py_truthy response_metadata then call_get response_metadata "nextCursor"
  else Ok (PyStr "").

End Methods.

(** The generator of [get_cursor_based_page_generator(get_page, cursor)].
    Its [yield] is the last statement of the loop body, so it is
    suspended with [cursor] and [finished] already updated and resumes at
    the loop test. *)
Section Generator.
Context {W : Type}.
Variable E : pyenv.
Variable get_page : pyvalue -> W -> result t * W.

Inductive gen : Type :=
  | AtLoopTest (cursor : pyvalue) (finished : bool)
  | Finished.

(** The generator object before its first resumption:
    [finished = False]. *)
Definition get_cursor_based_page_generator (cursor : pyvalue) : gen :=
  AtLoopTest cursor false.

Definition next (g : gen) (w : W) : step t * gen * W :=
  match g with
  | AtLoopTest cursor finished =>
      if negb finished then
        match get_page cursor w with
        | (Ok page, w') =>
            match get_next_cursor E page with
            | Ok cursor' =>
                (Yield page, AtLoopTest cursor' (negb (py_truthy cursor')), w')
            | Raise e => (Raised e, Finished, w')
            end
        | (Raise e, w') => (Raised e, Finished, w')
        end
      else (StopIteration, Finished, w)
  | Finished => (StopIteration, Finished, w)
  end.

End Generator.

End CursorPage.

(** ** trustar/models/report.py *)

Module Report.

(** [self.name] inside a method: [self] is the attribute dictionary of the
    instance. *)
Definition attr (self : gmap string pyvalue) (name : string) : result pyvalue :=
  match self !! name with Some x => Ok x | None => Raise AttributeError end.

Section Methods.
(** The members [ENCLAVE] and [COMMUNITY] of [DistributionType]
    (trustar/models/enum.py) and [ModelBase.to_dict(remove_nones=True)]
    (trustar/models/base.py) are not among the sources. *)
Variables ENCLAVE COMMUNITY : pyvalue.
Variable ModelBase_to_dict : gmap string pyvalue -> result (gmap string pyvalue).

Definition _get_distribution_type (self : gmap string pyvalue) : result pyvalue :=
  is_enclave ← attr self "is_enclave";
  if py_truthy is_enclave then Ok ENCLAVE else Ok COMMUNITY.

Definition to_dict (remove_nones : bool) (self : gmap string pyvalue) : result pyvalue :=
  report_dict ←
    (if remove_nones then ModelBase_to_dict self
     else
       title ← attr self "title";
       body ← attr self "body";
       time_began ← attr self "time_began";
       external_url ← attr self "external_url";
       distribution_type ← _get_distribution_type self;
       external_id ← attr self "external_id";
       enclave_ids ← attr self "enclave_ids";
       created ← attr self "created";
       updated ← attr self "updated";
       Ok (<["title" := title]>
          (<["reportBody" := body]>
          (<["timeBegan" := time_began]>
          (<["externalUrl" := external_url]>
          (<["distributionType" := distribution_type]>
          (<["externalTrackingId" := external_id]>
          (<["enclaveIds" := enclave_ids]>
          (<["created" := created]>
          (<["updated" := updated]> ∅))))))))));
  id ← attr self "id";
  Ok (PyDict (<["id" := if negb (is_None id) then id else PyNone]> report_dict)).

(** [normalize_timestamp] (trustar/utils.py) is not among the sources;
    [upper] is [str.upper]. *)
Variable normalize_timestamp : pyvalue -> result pyvalue.
Variable upper : string -> string.

(** [Report(id=..., ..., updated=...)]: the instance [__init__] leaves. *)
Definition __init__ (id title body time_began external_id external_url
    is_enclave enclave_ids created updated : pyvalue) : result pyvalue :=
  let is_enclave := if is_None is_enclave then PyBool true else is_enclave in
  time_began ← normalize_timestamp time_began;
  let enclave_ids :=
    match enclave_ids with
    | PyStr _ => PyList [enclave_ids]
    | _ => enclave_ids
    end in
  Ok (PyObj "Report"
        (<["id" := id]>
        (<["title" := title]>
        (<["body" := body]>
        (<["external_id" := external_id]>
        (<["external_url" := external_url]>
        (<["is_enclave" := is_enclave]>
        (<["enclave_ids" := enclave_ids]>
        (<["created" := created]>
        (<["updated" := updated]>
        (<["time_began" := time_began]> ∅))))))))))).

(** [s != v] for a string [s]. *)
Definition str_ne (s : string) (v : pyvalue) : bool :=
  match v with
  | PyStr c => negb (String.eqb s c)
  | _ => true
  end.

Definition from_dict (report : pyvalue) : result pyvalue :=
  distribution_type ← call_get report "distributionType";
  is_enclave ←
    (if negb (is_None distribution_type) then
       match distribution_type with
       | PyStr s => Ok (PyBool (str_ne (upper s) COMMUNITY))
       | _ => Raise AttributeError
       end
     else Ok PyNone);
  id ← call_get report "id";
  title ← call_get report "title";
  body ← call_get report "reportBody";
  time_began ← call_get report "timeBegan";
  external_id ← call_get report "externalTrackingId";
  external_url ← call_get report "externalUrl";
  enclave_ids ← call_get report "enclaveIds";
  created ← call_get report "created";
  updated ← call_get report "updated";
  __init__ id title body time_began external_id external_url is_enclave enclave_ids
    created updated.

End Methods.

End Report.

(** ** trustar/utils.py *)

Module Utils.

(** Modelled from the spec: the constant [DAY] of trustar/utils.py, which
    is not among the sources: "one day", with timestamps in "milliseconds
    since Unix epoch, integer". *)
Definition DAY : Z := 24 * 60 * 60 * 1000.

Section Generator.
Context {W : Type}.
Variable get_page : option Z -> Z -> W -> result NumberedPage.t * W.
Variable get_next_to_time : NumberedPage.t -> Z -> result Z.
Variable from_time : option Z.

Inductive gen : Type :=
  | AtLoopTest (to_time : Z)
  | AtYield (page : NumberedPage.t) (to_time : Z)
  | Finished.

(** Modelled from the spec: [get_time_based_page_generator] of
    trustar/utils.py, which is not among the sources.  "Loop while
    [to_time] is still greater than [from_time] (or [from_time] is
    unset): fetch page for current window, yield it, compute
    [new_to_time = advance_window(items, to_time)]"; the advance
    function receives the page, as [get_next_to_time] of
    report_client.py expects.  The generator object before its first
    resumption. *)
Definition get_time_based_page_generator (to_time : Z) : gen :=
  AtLoopTest to_time.

(** Modelled from the spec: the loop test of
    [get_time_based_page_generator], "[to_time] is still greater than
    [from_time] (or [from_time] is unset)". *)
Definition window_open (to_time : Z) : bool :=
  match from_time with
  | None => true
  | Some f => f <? to_time
  end.

(** Modelled from the spec: from the loop test of
    [get_time_based_page_generator] to its next [yield]. *)
Definition loop (to_time : Z) (w : W) : step NumberedPage.t * gen * W :=
  if window_open to_time then
    match get_page from_time to_time w with
    | (Ok page, w') => (Yield page, AtYield page to_time, w')
    | (Raise e, w') => (Raised e, Finished, w')
    end
  else (StopIteration, Finished, w).

(** Modelled from the spec: one resumption of
    [get_time_based_page_generator]. *)
Definition next (g : gen) (w : W) : step NumberedPage.t * gen * W :=
  match g with
  | AtLoopTest to_time => loop to_time w
  | AtYield page to_time =>
      match get_next_to_time page to_time with
      | Ok to_time' => loop to_time' w
      | Raise e => (Raised e, Finished, w)
      end
  | Finished => (StopIteration, Finished, w)
  end.

End Generator.

End Utils.

(** ** trustar/report_client.py *)

Module ReportClient.

(** The inner function of [_get_reports_page_generator]; [res] is its
    parameter [result]. *)
Definition get_next_to_time (res : NumberedPage.t) (to_time : Z) : result Z :=
  n ← py_len (NumberedPage.items res);
  if (0 <? n)%nat then
    item ← py_last (NumberedPage.items res);
    updated ← py_getattr item "updated";
    u ← py_int_operand updated;
    Ok (u - 1)
  else Ok (to_time - Utils.DAY).

(** [_get_reports_page_generator]: the time-based generator over
    [get_reports_page] (here [get_page], already bound to its filters)
    with [get_next_to_time] as the advance function: its initial state and
    its resumption. *)
Definition _get_reports_page_generator (to_time : Z) : Utils.gen :=
  Utils.get_time_based_page_generator to_time.

Definition next {W : Type}
    (get_page : option Z -> Z -> W -> result NumberedPage.t * W)
    (from_time : option Z) : Utils.gen -> W -> step NumberedPage.t * Utils.gen * W :=
  Utils.next get_page get_next_to_time from_time.

End ReportClient.

(** ** Concrete pages and fetch functions *)

Module Examples.

(** An interpreter in which [Report] is the one class with a [to_dict]
    and no string is a number.  [Report.to_dict] runs with
    [remove_nones=False] in everything below, so the stand-in for
    [ModelBase.to_dict] is never reached. *)
Definition env : pyenv := {|
  env_float := fun _ => Raise (ValueError "could not convert string to float");
  env_to_dict := fun cls =>
    if String.eqb cls "Report"
    then Some (Report.to_dict (PyStr "ENCLAVE") (PyStr "COMMUNITY")
                 (fun _ => Raise AttributeError))
    else None
|}.

(** A [Report] instance as [Report.__init__] leaves it, with the given
    [id] and [updated]. *)
Definition report (id : string) (updated : Z) : pyvalue :=
  PyObj "Report"
    (<["id" := PyStr id]>
    (<["title" := PyStr "Phishing Incident"]>
    (<["body" := PyNone]>
    (<["external_id" := PyNone]>
    (<["external_url" := PyNone]>
    (<["is_enclave" := PyBool true]>
    (<["enclave_ids" := PyNone]>
    (<["created" := PyInt updated]>
    (<["updated" := PyInt updated]>
    (<["time_began" := PyNone]> ∅)))))))))).

(** A server holding [total] elements, answering every request for page
    [n] with an (item-less) page that reports [page_size] and [total];
    the world counts the requests. *)
Definition fixed_dataset (total page_size : Z)
    (n : Z) (_ : option Z) (w : nat) : result NumberedPage.t * nat :=
  (Ok (NumberedPage.mk (PyList []) (PyInt n) (PyInt page_size) (PyInt total) PyNone),
   S w).

(** A server of 100 elements in pages of 10 whose pages say
    [hasNext = false]. *)
Definition says_no_next
    (n : Z) (_ : option Z) (w : nat) : result NumberedPage.t * nat :=
  (Ok (NumberedPage.mk (PyList []) (PyInt n) (PyInt 10) (PyInt 100) (PyBool false)),
   S w).

(** A cursor page without items whose metadata carries [next_cursor]. *)
Definition cursor_page (next_cursor : pyvalue) : CursorPage.t :=
  CursorPage.mk (PyList []) (PyDict (<["nextCursor" := next_cursor]> ∅)).

(** A server with two pages: the request without a cursor gets the page
    that points to ["abc"], the request with cursor ["abc"] gets the last
    page; any other cursor is refused. *)
Definition two_pages (cursor : pyvalue) (w : nat) : result CursorPage.t * nat :=
  match cursor with
  | PyNone => (Ok (cursor_page (PyStr "abc")), S w)
  | PyStr "abc" => (Ok (cursor_page (PyStr "")), S w)
  | _ => (Raise (FetchError "unknown cursor"), S w)
  end.

(** A server that numbers its pages and hands out the number of the next
    page as the cursor: the first page points to page 0. *)
Definition numeric_cursors (cursor : pyvalue) (w : nat) : result CursorPage.t * nat :=
  match cursor with
  | PyNone => (Ok (cursor_page (PyInt 0)), S w)
  | PyInt n => (Ok (cursor_page (PyInt (n + 1))), S w)
  | _ => (Raise (FetchError "unknown cursor"), S w)
  end.

(** The built-in class [dict]: a class, not a subclass of [ModelBase], and
    without a [from_dict]. *)
Definition class_dict : pytype :=
  PyClass "dict" false (fun _ => Raise AttributeError).

(** A raw page body, as the JSON of a response decodes. *)
Definition raw_page : gmap string pyvalue :=
  <["items" := PyList [PyDict (<["id" := PyStr "r1"]> ∅)]]>
  (<["pageNumber" := PyInt 0]>
  (<["pageSize" := PyInt 25]>
  (<["totalElements" := PyInt 1]>
  (<["hasNext" := PyBool false]> ∅)))).

(** A numbered page and a cursor page holding one [Report], as the
    endpoints that pass [content_type=Report] build them, and a cursor
    page holding the raw dictionary of one. *)
Definition page_of_reports : NumberedPage.t :=
  NumberedPage.mk (PyList [report "r1" 1000]) (PyInt 0) (PyInt 25) (PyInt 1) PyNone.

Definition cursor_page_of_reports : CursorPage.t :=
  CursorPage.mk (PyList [report "r1" 1000])
    (PyDict (<["nextCursor" := PyStr ""]> ∅)).

Definition cursor_page_of_dicts : CursorPage.t :=
  CursorPage.mk (PyList [PyDict (<["id" := PyStr "r1"]> ∅)])
    (PyDict (<["nextCursor" := PyStr ""]> ∅)).

(** Reports arrive oldest first: a page of two reports updated at 3000
    and 4500, then a page with the first of them, then an empty page. *)
Definition oldest_first_page : NumberedPage.t :=
  NumberedPage.mk (PyList [report "a" 3000; report "b" 4500])
    PyNone PyNone PyNone PyNone.

Definition page_with_a : NumberedPage.t :=
  NumberedPage.mk (PyList [report "a" 3000]) PyNone PyNone PyNone PyNone.

Definition empty_page : NumberedPage.t :=
  NumberedPage.mk (PyList []) PyNone PyNone PyNone PyNone.

(** A server holding the reports [a] (updated at 3000) and [b] (updated
    at 4500): asked for the window up to [to_time], it returns those
    updated before [to_time], oldest first. *)
Definition oldest_first_server (_ : option Z) (to_time : Z) (w : nat)
    : result NumberedPage.t * nat :=
  if 4500 <? to_time then (Ok oldest_first_page, S w)
  else if 3000 <? to_time then (Ok page_with_a, S w)
  else (Ok empty_page, S w).

(** A page in the order of the endpoint, most recently updated report
    first. *)
Definition newest_first_page : NumberedPage.t :=
  NumberedPage.mk (PyList [report "b" 4500; report "a" 4000])
    PyNone PyNone PyNone PyNone.

(** A server holding the reports of [newest_first_page]: asked for the
    window up to [to_time], it returns those updated before [to_time],
    most recent first. *)
Definition newest_first_server (_ : option Z) (to_time : Z) (w : nat)
    : result NumberedPage.t * nat :=
  if 4500 <? to_time then (Ok newest_first_page, S w)
  else if 4000 <? to_time
       then (Ok (NumberedPage.mk (PyList [report "a" 4000])
                   PyNone PyNone PyNone PyNone), S w)
       else (Ok empty_page, S w).

End Examples.

(** ** Vocabulary of the specification *)

(** The [updated] timestamp of an item, as [get_next_to_time] reads it. *)
Definition updated_time (item : pyvalue) : result Z :=
  updated ← py_getattr item "updated";
  py_int_operand updated.

(** The [updated] timestamps of the reports of a page, in page order: defined
    for a page whose items are a list of objects that each carry one. *)
Definition timestamps (page : NumberedPage.t) : option (list Z) :=
  match NumberedPage.items page with
  | PyList l => match traverse updated_time l with Ok ts => Some ts | Raise _ => None end
  | _ => None
  end.

(** Every report of the page was updated before [to_time], the exclusive
    upper bound of the window it was fetched for. *)
Definition in_window (page : NumberedPage.t) (to_time : Z) : Prop :=
  exists ts, timestamps page = Some ts /\ Forall (fun u => u < to_time) ts.

(** The reports of the page are in the order of the endpoint, "sorted by
    updated time", most recent first. *)
Definition newest_first (page : NumberedPage.t) : Prop :=
  exists ts, timestamps page = Some ts /\ StronglySorted Z.ge ts.

(** The earliest of a non-empty list of timestamps. *)
Fixpoint earliest (ts : list Z) : option Z :=
  match ts with
  | [] => None
  | t :: ts' =>
      match earliest ts' with
      | Some e => Some (Z.min t e)
      | None => Some t
      end
  end.

(** The state and world after [n] resumptions of a generator. *)
Fixpoint resume {G W Y : Type} (next : G -> W -> step Y * G * W)
    (n : nat) (g : G) (w : W) : G * W :=
  match n with
  | O => (g, w)
  | S n' => let '(_, g', w') := next g w in resume next n' g' w'
  end.

(** The fetch function serves a fixed data set of [total_elements] elements
    in pages of [page_size]: the page it returns for page number [n] carries
    [n], [page_size] and [total_elements], and no [has_next]. *)
Definition serves_fixed_dataset {W : Type}
    (func : Z -> option Z -> W -> result NumberedPage.t * W)
    (requested_size : option Z) (total_elements page_size : Z) : Prop :=
  forall (n : Z) (w : W), exists (items : pyvalue) (w' : W),
    func n requested_size w
    = (Ok (NumberedPage.mk items (PyInt n) (PyInt page_size) (PyInt total_elements) PyNone),
       w').

(** [ceil(total_elements / page_size)] *)
Definition ceil_div (total_elements page_size : Z) : Z :=
  Qceiling (inject_Z total_elements / inject_Z page_size).

(** The message of the exception mentions [name]. *)
Definition exn_names (e : exn) (name : string) : bool :=
  match e with
  | ValueError msg | FetchError msg =>
      match String.index 0 name msg with Some _ => true | None => false end
  | _ => false
  end.

(** ** trustar/models/redacted_report.py *)

(** [v.get(key, default)] *)
Definition call_get_default (v : pyvalue) (key : string) (default : pyvalue)
    : result pyvalue :=
  match v with
  | PyDict d => Ok (match d !! key with Some x => x | None => default end)
  | _ => Raise AttributeError
  end.

Module RedactedReport.

Definition __init__ (title body : pyvalue) : pyvalue :=
  PyObj "RedactedReport" (<["title" := title]> (<["body" := body]> ∅)).

Section Methods.
(** [ModelBase.to_dict(remove_nones=True)] (trustar/models/base.py) is not
    among the sources. *)
Variable ModelBase_to_dict : gmap string pyvalue -> result (gmap string pyvalue).

Definition to_dict (remove_nones : bool) (self : gmap string pyvalue) : result pyvalue :=
  if remove_nones then
    redacted_report_dict ← ModelBase_to_dict self;
    Ok (PyDict redacted_report_dict)
  else
    title ← Report.attr self "title";
    body ← Report.attr self "body";
    Ok (PyDict (<["title" := title]> (<["reportBody" := body]> ∅))).

End Methods.

Definition from_dict (redacted_report : pyvalue) : result pyvalue :=
  title ← call_get redacted_report "title";
  body ← call_get redacted_report "reportBody";
  Ok (__init__ title body).

End RedactedReport.

(** ** trustar/models/intelligence_source.py *)

Module IntelligenceSource.

Definition __init__ (key name : pyvalue) : pyvalue :=
  PyObj "IntelligenceSource" (<["key" := key]> (<["name" := name]> ∅)).

Definition from_dict (source : pyvalue) : result pyvalue :=
  key ← call_get source "key";
  name ← call_get source "name";
  Ok (__init__ key name).

Definition to_dict (remove_nones : bool) (self : gmap string pyvalue) : result pyvalue :=
  key ← Report.attr self "key";
  name ← Report.attr self "name";
  Ok (PyDict (<["key" := key]> (<["name" := name]> ∅))).

End IntelligenceSource.

(** ** trustar/models/indicator_summary.py *)

Module IndicatorScore.

Definition __init__ (name value : pyvalue) : pyvalue :=
  PyObj "IndicatorScore" (<["name" := name]> (<["value" := value]> ∅)).

Definition from_dict (indicator_score : pyvalue) : result pyvalue :=
  name ← call_get indicator_score "name";
  value ← call_get indicator_score "value";
  Ok (__init__ name value).

Definition to_dict (remove_nones : bool) (self : gmap string pyvalue) : result pyvalue :=
  name ← Report.attr self "name";
  value ← Report.attr self "value";
  Ok (PyDict (<["name" := name]> (<["value" := value]> ∅))).

End IndicatorScore.

Module IndicatorAttribute.

Definition __init__ (name value logical_type description : pyvalue) : pyvalue :=
  PyObj "IndicatorAttribute"
    (<["name" := name]>
    (<["value" := value]>
    (<["logical_type" := logical_type]>
    (<["description" := description]> ∅)))).

Definition from_dict (indicator_attribute : pyvalue) : result pyvalue :=
  name ← call_get indicator_attribute "name";
  value ← call_get indicator_attribute "value";
  logical_type ← call_get indicator_attribute "logicalType";
  description ← call_get indicator_attribute "description";
  Ok (__init__ name value logical_type description).

Definition to_dict (remove_nones : bool) (self : gmap string pyvalue) : result pyvalue :=
  name ← Report.attr self "name";
  value ← Report.attr self "value";
  logical_type ← Report.attr self "logical_type";
  description ← Report.attr self "description";
  Ok (PyDict (<["name" := name]>
             (<["value" := value]>
             (<["logicalType" := logical_type]>
             (<["description" := description]> ∅))))).

End IndicatorAttribute.

Module IndicatorSummary.

Definition __init__ (value indicator_type report_id enclave_id source score
    created updated description attributes severity_level : pyvalue) : pyvalue :=
  PyObj "IndicatorSummary"
    (<["value" := value]>
    (<["indicator_type" := indicator_type]>
    (<["report_id" := report_id]>
    (<["enclave_id" := enclave_id]>
    (<["source" := source]>
    (<["score" := score]>
    (<["created" := created]>
    (<["updated" := updated]>
    (<["description" := description]>
    (<["attributes" := attributes]>
    (<["severity_level" := severity_level]> ∅))))))))))).

Definition from_dict (indicator_summary : pyvalue) : result pyvalue :=
  raw_attributes ← call_get_default indicator_summary "attributes" (PyList []);
  its ← py_iter raw_attributes;
  attributes ← traverse IndicatorAttribute.from_dict its;
  source ← call_get indicator_summary "source";
  source ← (if py_truthy source then
              s ← call_get indicator_summary "source";
              IntelligenceSource.from_dict s
            else Ok source);
  score ← call_get indicator_summary "score";
  score ← (if py_truthy score then
             s ← call_get indicator_summary "score";
             IndicatorScore.from_dict s
           else Ok score);
  value ← call_get indicator_summary "value";
  indicator_type ← call_get indicator_summary "type";
  report_id ← call_get indicator_summary "reportId";
  enclave_id ← call_get indicator_summary "enclaveId";
  created ← call_get indicator_summary "created";
  updated ← call_get indicator_summary "updated";
  description ← call_get indicator_summary "description";
  severity_level ← call_get indicator_summary "severityLevel";
  Ok (__init__ value indicator_type report_id enclave_id source score
        created updated description (PyList attributes) severity_level).

Section Methods.
Variable E : pyenv.
(** [ModelBase.to_dict(remove_nones=True)] (trustar/models/base.py) is not
    among the sources. *)
Variable ModelBase_to_dict : gmap string pyvalue -> result (gmap string pyvalue).

Definition to_dict (remove_nones : bool) (self : gmap string pyvalue) : result pyvalue :=
  if remove_nones then
    d ← ModelBase_to_dict self;
    Ok (PyDict d)
  else
    self_source ← Report.attr self "source";
    source ← (if negb (is_None self_source) then call_to_dict E false self_source
              else Ok PyNone);
    self_score ← Report.attr self "score";
    score ← (if negb (is_None self_score) then call_to_dict E false self_score
             else Ok PyNone);
    self_attributes ← Report.attr self "attributes";
    attributes ← (if negb (is_None self_attributes) then
                    its ← py_iter self_attributes;
                    ds ← traverse (call_to_dict E remove_nones) its;
                    Ok (PyList ds)
                  else Ok PyNone);
    value ← Report.attr self "value";
    indicator_type ← Report.attr self "indicator_type";
    report_id ← Report.attr self "report_id";
    enclave_id ← Report.attr self "enclave_id";
    created ← Report.attr self "created";
    updated ← Report.attr self "updated";
    description ← Report.attr self "description";
    severity_level ← Report.attr self "severity_level";
    Ok (PyDict (<["value" := value]>
               (<["type" := indicator_type]>
               (<["reportId" := report_id]>
               (<["enclaveId" := enclave_id]>
               (<["source" := source]>
               (<["score" := score]>
               (<["created" := created]>
               (<["updated" := updated]>
               (<["description" := description]>
               (<["attributes" := attributes]>
               (<["severityLevel" := severity_level]> ∅)))))))))))).

End Methods.

End IndicatorSummary.

(** ** trustar/report_client.py: the methods that call the API *)

(** A call of [self._client]: [params] is the dictionary passed as
    [params=] ([None] when the call passes none), [data] the string passed
    as [data=] and [timeout] the value passed as [timeout=]. *)
Record request : Type := mk_request {
  method : string;
  path : string;
  params : pyvalue;
  data : option string;
  timeout : option Z
}.

(** What the methods read of a response: [resp.content] (as text) and
    [resp.json()]. *)
Record response : Type := mk_response {
  content : pyvalue;
  json : result pyvalue
}.

(** What a method of the client raises: an [Exception] of its own, with its
    message, or the exception of an operation it performs. *)
Inductive error : Type :=
  | Exception (msg : string)
  | Error (e : exn).

Inductive outcome (A : Type) : Type :=
  | Return (a : A)
  | Throw (e : error).
Arguments Return {A} a.
Arguments Throw {A} e.

Module ReportClientApi.

Section Client.
Context {W : Type}.
(** The members of [DistributionType] and [IdType] (trustar/models/enum.py),
    [ModelBase.to_dict(remove_nones=True)], [normalize_timestamp], the
    built-ins [str.upper], [json.dumps] and [str], the HTTP client
    [self._client], the configured [self.enclave_ids] and the result of
    [normalize_timestamp(datetime.now())] are not among the sources. *)
Variables ENCLAVE COMMUNITY INTERNAL EXTERNAL : pyvalue.
Variable ModelBase_to_dict : gmap string pyvalue -> result (gmap string pyvalue).
Variable normalize_timestamp : pyvalue -> result pyvalue.
Variable upper : string -> string.
Variable dumps : pyvalue -> result string.
Variable str_of : pyvalue -> string.
Variable client : request -> W -> result response * W.
Variable self_enclave_ids : pyvalue.
Variable normalized_now : result pyvalue.

(** The class [Report] as a [content_type]. *)
Definition class_Report : pytype :=
  PyClass "Report" true (Report.from_dict COMMUNITY normalize_timestamp upper).

(** [NumberedPage.from_dict(resp.json(), content_type=Report)] *)
Definition page_of_response (resp : response) : result NumberedPage.t :=
  body ← json resp;
  match body with
  | PyDict d => NumberedPage.from_dict d (Some class_Report)
  | _ => Raise AttributeError
  end.

(** [self._client.<method>(...)] followed by the decoding of the page. *)
Definition fetch_page (req : request) (w : W) : result NumberedPage.t * W :=
  match client req w with
  | (Ok resp, w') => (page_of_response resp, w')
  | (Raise e, w') => (Raise e, w')
  end.

Definition get_reports_page_request
    (is_enclave enclave_ids tag excluded_tags from_time to_time : pyvalue) : request :=
  let distribution_type := PyNone in
  let distribution_type :=
    if py_truthy is_enclave then ENCLAVE
    else if negb (py_truthy is_enclave) then COMMUNITY
    else distribution_type in
  let enclave_ids := if is_None enclave_ids then self_enclave_ids else enclave_ids in
  mk_request "GET" "reports"
    (PyDict (<["from" := from_time]>
            (<["to" := to_time]>
            (<["distributionType" := distribution_type]>
            (<["enclaveIds" := enclave_ids]>
            (<["tags" := tag]>
            (<["excludedTags" := excluded_tags]> ∅)))))))
    None None.

Definition get_reports_page
    (is_enclave enclave_ids tag excluded_tags from_time to_time : pyvalue) (w : W)
    : result NumberedPage.t * W :=
  fetch_page
    (get_reports_page_request is_enclave enclave_ids tag excluded_tags from_time to_time) w.

Definition get_correlated_reports_page_request
    (indicators enclave_ids is_enclave page_size page_number : pyvalue) : request :=
  let distribution_type := if py_truthy is_enclave then ENCLAVE else COMMUNITY in
  mk_request "GET" "reports/correlated"
    (PyDict (<["indicators" := indicators]>
            (<["enclaveIds" := enclave_ids]>
            (<["distributionType" := distribution_type]>
            (<["pageNumber" := page_number]>
            (<["pageSize" := page_size]> ∅))))))
    None None.

Definition get_correlated_reports_page
    (indicators enclave_ids is_enclave page_size page_number : pyvalue) (w : W)
    : result NumberedPage.t * W :=
  fetch_page
    (get_correlated_reports_page_request indicators enclave_ids is_enclave
       page_size page_number) w.

Definition search_reports_page
    (search_term enclave_ids from_time to_time tags excluded_tags
       page_size page_number : pyvalue) (w : W) : result NumberedPage.t * W :=
  let body := PyDict (<["searchTerm" := search_term]> ∅) in
  let params :=
    PyDict (<["enclaveIds" := enclave_ids]>
           (<["from" := from_time]>
           (<["to" := to_time]>
           (<["tags" := tags]>
           (<["excludedTags" := excluded_tags]>
           (<["pageSize" := page_size]>
           (<["pageNumber" := page_number]> ∅))))))) in
  match dumps body with
  | Ok text => fetch_page (mk_request "POST" "reports/search" params (Some text) None) w
  | Raise e => (Raise e, w)
  end.

(** The value a page generator passes as [page_size=]. *)
Definition page_size_arg (page_size : option Z) : pyvalue :=
  match page_size with
  | Some k => PyInt k
  | None => PyNone
  end.

(** [_get_correlated_reports_page_generator]: the fetch function
    [functools.partial] builds, and the generator over it. *)
Definition correlated_get_page (indicators enclave_ids is_enclave : pyvalue)
    (page_number : Z) (page_size : option Z) : W -> result NumberedPage.t * W :=
  get_correlated_reports_page indicators enclave_ids is_enclave
    (page_size_arg page_size) (PyInt page_number).

Definition _get_correlated_reports_page_generator (start_page : Z) : NumberedPage.gen :=
  NumberedPage.get_page_generator start_page.

(** [_search_reports_page_generator]: likewise. *)
Definition search_get_page
    (search_term enclave_ids from_time to_time tags excluded_tags : pyvalue)
    (page_number : Z) (page_size : option Z) : W -> result NumberedPage.t * W :=
  search_reports_page search_term enclave_ids from_time to_time tags excluded_tags
    (page_size_arg page_size) (PyInt page_number).

Definition _search_reports_page_generator (start_page : Z) : NumberedPage.gen :=
  NumberedPage.get_page_generator start_page.

(** *** Methods that change the report they are given *)

(** A method body that reads and assigns the attributes of [report], calls
    the API and may raise: from the attributes and the world before to the
    result, the attributes and the world after. *)
Definition action (A : Type) : Type :=
  gmap string pyvalue -> W -> outcome A * gmap string pyvalue * W.

Definition ret {A : Type} (a : A) : action A := fun r w => (Return a, r, w).

Definition throw {A : Type} (e : error) : action A := fun r w => (Throw e, r, w).

Definition bind {A B : Type} (m : action A) (k : A -> action B) : action B :=
  fun r w =>
    match m r w with
    | (Return a, r', w') => k a r' w'
    | (Throw e, r', w') => (Throw e, r', w')
    end.

Definition lift {A : Type} (x : result A) : action A :=
  match x with
  | Ok a => ret a
  | Raise e => throw (Error e)
  end.

(** [report.name] and [report.name = v] *)
Definition getattr (name : string) : action pyvalue :=
  fun r w => lift (Report.attr r name) r w.

Definition setattr (name : string) (v : pyvalue) : action unit :=
  fun r w => (Return tt, <[name := v]> r, w).

(** [report.to_dict()] *)
Definition report_to_dict : action pyvalue :=
  fun r w => lift (Report.to_dict ENCLAVE COMMUNITY ModelBase_to_dict false r) r w.

Definition call (req : request) : action response :=
  fun r w =>
    match client req w with
    | (Ok resp, w') => (Return resp, r, w')
    | (Raise e, w') => (Throw (Error e), r, w')
    end.

Notation "'do' x <- m ; k" := (bind m (fun x => k))
  (at level 10, x name, m at level 100, k at level 200,
   format "'[v' 'do'  x  <-  m ; '/' k ']'").
Notation "'run' m ; k" := (bind m (fun _ => k))
  (at level 10, m at level 100, k at level 200,
   format "'[v' 'run'  m ; '/' k ']'").

(** The statements of [submit_report] that follow its test of the
    enclaves: default time, serialisation, request, assignment of the id. *)
Definition submit_report_send : action unit :=
  do time_began <- getattr "time_began";
  run (if is_None time_began then
         do now <- lift normalized_now;
         setattr "time_began" now
       else ret tt);
  do report_dict <- report_to_dict;
  do text <- lift (dumps report_dict);
  do resp <- call (mk_request "POST" "reports" PyNone (Some text) (Some 60));
  let report_id := content resp in
  setattr "id" report_id.

(** [submit_report(report)]; the method returns [report] itself. *)
Definition submit_report : action unit :=
  do is_enclave <- getattr "is_enclave";
  run (if is_None is_enclave then setattr "is_enclave" (PyBool true) else ret tt);
  do enclave_ids <- getattr "enclave_ids";
  run (if is_None enclave_ids then
         do is_enclave <- getattr "is_enclave";
         if py_truthy is_enclave then setattr "enclave_ids" self_enclave_ids
         else setattr "enclave_ids" (PyList [])
       else ret tt);
  do is_enclave <- getattr "is_enclave";
  do no_enclave <- (if py_truthy is_enclave then
                      do enclave_ids <- getattr "enclave_ids";
                      do n <- lift (py_len enclave_ids);
                      ret (Nat.eqb n 0)
                    else ret false);
  if no_enclave then
    throw (Exception
      "Cannot submit a report of distribution type 'ENCLAVE' with an empty set of enclaves.")
  else submit_report_send.

(** [update_report(report)]; the method returns [report] itself. *)
Definition update_report : action unit :=
  do id <- getattr "id";
  do target <- (if negb (is_None id) then ret (INTERNAL, id)
                else
                  do external_id <- getattr "external_id";
                  if negb (is_None external_id) then ret (EXTERNAL, external_id)
                  else throw (Exception
                    "Cannot update report without either an ID or an external ID."));
  let '(id_type, report_id) := target in
  do unused_report_dict <- report_to_dict;
  let params := PyDict (<["idType" := id_type]> ∅) in
  do report_dict <- report_to_dict;
  do text <- lift (dumps report_dict);
  run call (mk_request "PUT" ("reports/" ++ str_of report_id) params (Some text) None);
  ret tt.

(** [copy_report(src_report_id, dest_enclave_id, from_provided_submission,
    report, tags)]; [E] resolves [report.to_dict()]. *)
Definition copy_report (E : pyenv)
    (src_report_id dest_enclave_id from_provided_submission report tags : pyvalue)
    (w : W) : outcome pyvalue * W :=
  let params :=
    PyDict (<["destEnclaveId" := dest_enclave_id]>
           (<["copyFromProvidedSubmission" := from_provided_submission]> ∅)) in
  let body :=
    if py_truthy from_provided_submission then
      if negb (py_truthy report) then
        Throw (Exception
          "Cannot copy from provided submission without providing a report object")
      else if negb (py_truthy tags) then
        Throw (Exception
          "Cannot copy from provided submission without providing a list of tags")
      else
        match call_to_dict E false report with
        | Ok (PyDict d) => Return (PyDict (<["tags" := tags]> d))
        | Ok _ => Throw (Error TypeError)
        | Raise e => Throw (Error e)
        end
    else Return PyNone in
  match body with
  | Throw e => (Throw e, w)
  | Return body =>
      match dumps body with
      | Raise e => (Throw (Error e), w)
      | Ok text =>
          match client (mk_request "POST" ("reports/copy/" ++ str_of src_report_id)
                          params (Some text) None) w with
          | (Raise e, w') => (Throw (Error e), w')
          | (Ok resp, w') =>
              (match (j ← json resp; call_get j "id") with
               | Ok id => Return id
               | Raise e => Throw (Error e)
               end, w')
          end
      end
  end.

End Client.

End ReportClientApi.

(** ** Further concrete inputs *)

Module MoreExamples.

(** A server whose first page announces a successor and which refuses the
    request for that successor. *)
Definition fails_at_page_one (n : Z) (_ : option Z) (w : nat)
    : result NumberedPage.t * nat :=
  if n =? 0
  then (Ok (NumberedPage.mk (PyList []) (PyInt 0) PyNone PyNone (PyBool true)), S w)
  else (Raise (FetchError "503 Service Unavailable"), S w).

(** A server whose every page says [hasNext = true]. *)
Definition always_has_next (n : Z) (_ : option Z) (w : nat)
    : result NumberedPage.t * nat :=
  (Ok (NumberedPage.mk (PyList []) (PyInt n) PyNone PyNone (PyBool true)), S w).

(** The class [IntelligenceSource] as a [content_type], and a page body
    with one raw source. *)
Definition class_IntelligenceSource : pytype :=
  PyClass "IntelligenceSource" true IntelligenceSource.from_dict.

Definition raw_source : pyvalue :=
  PyDict (<["key" := PyStr "virustotal"]> (<["name" := PyStr "VirusTotal"]> ∅)).

Definition sources_body : gmap string pyvalue :=
  <["items" := PyList [raw_source]]>
  (<["pageNumber" := PyInt 0]>
  (<["totalElements" := PyInt 1]>
  (<["responseMetadata" := PyDict (<["nextCursor" := PyStr ""]> ∅)]> ∅))).

(** An interpreter that knows the [to_dict] of the classes of
    intelligence_source.py and indicator_summary.py that do not go through
    [ModelBase.to_dict]. *)
Definition models_env : pyenv := {|
  env_float := fun _ => Raise (ValueError "could not convert string to float");
  env_to_dict := fun cls =>
    if String.eqb cls "IntelligenceSource" then Some IntelligenceSource.to_dict
    else if String.eqb cls "IndicatorScore" then Some IndicatorScore.to_dict
    else if String.eqb cls "IndicatorAttribute" then Some IndicatorAttribute.to_dict
    else None
|}.

(** A numbered page and a cursor page of one [IntelligenceSource]. *)
Definition page_of_sources : NumberedPage.t :=
  NumberedPage.mk
    (PyList [IntelligenceSource.__init__ (PyStr "virustotal") (PyStr "VirusTotal")])
    (PyInt 0) (PyInt 25) (PyInt 1) (PyBool false).

Definition cursor_page_of_sources : CursorPage.t :=
  CursorPage.mk
    (PyList [IntelligenceSource.__init__ (PyStr "virustotal") (PyStr "VirusTotal")])
    (PyDict (<["nextCursor" := PyStr ""]> ∅)).

(** A server of cursor pages decoded without a content type. *)
Definition raw_cursor_pages (_ : pyvalue) (w : nat) : result CursorPage.t * nat :=
  (CursorPage.from_dict sources_body None, S w).

(** A summary from one source, with one attribute and no score. *)
Definition summary : pyvalue :=
  IndicatorSummary.__init__ (PyStr "evil.com") (PyStr "URL") (PyStr "r1") (PyStr "e1")
    (IntelligenceSource.__init__ (PyStr "virustotal") (PyStr "VirusTotal"))
    PyNone (PyInt 1000) (PyInt 2000) PyNone
    (PyList [IndicatorAttribute.__init__ (PyStr "Actors") (PyStr "unknown") PyNone PyNone])
    (PyInt 3).

(** [str.upper] on the letters a to z. *)
Definition upper_char (c : Ascii.ascii) : Ascii.ascii :=
  let n := Ascii.nat_of_ascii c in
  if (97 <=? n)%nat && (n <=? 122)%nat then Ascii.ascii_of_nat (n - 32) else c.

Fixpoint ascii_upper (s : string) : string :=
  match s with
  | EmptyString => EmptyString
  | String c s' => String (upper_char c) (ascii_upper s')
  end.

(** The body of a community report whose enclave is given as one string. *)
Definition community_body : gmap string pyvalue :=
  <["id" := PyStr "r1"]>
  (<["distributionType" := PyStr "community"]>
  (<["enclaveIds" := PyStr "e1"]>
  (<["timeBegan" := PyInt 5]> ∅))).

(** A stand-in for [json.dumps] that writes only the [title] of a
    dictionary, and an API that answers every request with the id
    [new-id] and the body of one page of one report. *)
Definition dumps_title (v : pyvalue) : result string :=
  match v with
  | PyDict d => match d !! "title" with Some (PyStr t) => Ok t | _ => Ok "" end
  | PyNone => Ok "null"
  | _ => Raise TypeError
  end.

Definition one_report_body : pyvalue :=
  PyDict (<["items" := PyList [PyDict (<["id" := PyStr "r1"]> ∅)]]>
         (<["pageNumber" := PyInt 0]>
         (<["hasNext" := PyBool false]> ∅))).

Definition api (req : request) (w : list request) : result response * list request :=
  (Ok (mk_response (PyStr "new-id") (Ok one_report_body)), w ++ [req]).

(** A new enclave report without enclaves of its own, as [Report(title=...)]
    leaves it. *)
Definition new_report : gmap string pyvalue :=
  <["id" := PyNone]>
  (<["title" := PyStr "Suspicious Activity"]>
  (<["body" := PyNone]>
  (<["external_id" := PyNone]>
  (<["external_url" := PyNone]>
  (<["is_enclave" := PyBool true]>
  (<["enclave_ids" := PyNone]>
  (<["created" := PyNone]>
  (<["updated" := PyNone]>
  (<["time_began" := PyNone]> ∅))))))))).

(** A stand-in for [str]: a string is itself. *)
Definition str_of_value (v : pyvalue) : string :=
  match v with
  | PyStr s => s
  | _ => "None"
  end.

(** A report that came from the API, with its id and an external id. *)
Definition known_report : gmap string pyvalue :=
  <["id" := PyStr "r1"]> (<["external_id" := PyStr "ticket-7"]> new_report).

(** The page [NumberedPage.from_dict] decodes from [one_report_body] with
    [Report] as the content type. *)
Definition decoded_page : NumberedPage.t :=
  NumberedPage.mk
    (PyList [PyObj "Report"
               (<["id" := PyStr "r1"]>
               (<["title" := PyNone]>
               (<["body" := PyNone]>
               (<["external_id" := PyNone]>
               (<["external_url" := PyNone]>
               (<["is_enclave" := PyBool true]>
               (<["enclave_ids" := PyNone]>
               (<["created" := PyNone]>
               (<["updated" := PyNone]>
               (<["time_began" := PyNone]> ∅))))))))))])
    (PyInt 0) PyNone PyNone (PyBool false).

(** The search request for page [n] in pages of 25, without filters. *)
Definition search_request (n : Z) : request :=
  mk_request "POST" "reports/search"
    (PyDict (<["enclaveIds" := PyNone]>
            (<["from" := PyNone]>
            (<["to" := PyNone]>
            (<["tags" := PyNone]>
            (<["excludedTags" := PyNone]>
            (<["pageSize" := PyInt 25]>
            (<["pageNumber" := PyInt n]> ∅))))))))
    (Some EmptyString) None.

End MoreExamples.

(** The pages reached from [cursor] by following the cursors: each page is
    fetched with the cursor extracted from the page before it, and the
    chain ends with the first page whose extracted cursor is false. *)
Inductive cursor_chain {W : Type} (E : pyenv)
    (get_page : pyvalue -> W -> result CursorPage.t * W)
    : pyvalue -> W -> list CursorPage.t -> W -> Prop :=
  | chain_last (cursor : pyvalue) (w : W) (page : CursorPage.t) (w' : W)
      (cursor' : pyvalue) :
      get_page cursor w = (Ok page, w') ->
      CursorPage.get_next_cursor E page = Ok cursor' ->
      py_truthy cursor' = false ->
      cursor_chain E get_page cursor w [page] w'
  | chain_next (cursor : pyvalue) (w : W) (page : CursorPage.t) (w1 : W)
      (cursor' : pyvalue) (pages : list CursorPage.t) (w' : W) :
      get_page cursor w = (Ok page, w1) ->
      CursorPage.get_next_cursor E page = Ok cursor' ->
      py_truthy cursor' = true ->
      cursor_chain E get_page cursor' w1 pages w' ->
      cursor_chain E get_page cursor w (page :: pages) w'.

(** The attribute dictionary of an instance, which its methods receive as
    [self]. *)
Definition self_of (obj : pyvalue) : gmap string pyvalue :=
  match obj with
  | PyObj _ attrs => attrs
  | _ => ∅
  end.

(** The interpreter resolves [to_dict] on instances of [IntelligenceSource],
    [IndicatorScore] and [IndicatorAttribute] to the methods of these
    classes. *)
Definition knows_indicator_classes (E : pyenv) : Prop :=
  env_to_dict E "IntelligenceSource" = Some IntelligenceSource.to_dict
  /\ env_to_dict E "IndicatorScore" = Some IndicatorScore.to_dict
  /\ env_to_dict E "IndicatorAttribute" = Some IndicatorAttribute.to_dict.

(** * Properties *)

Lemma drain_S {G W Y : Type} (next : G -> W -> step Y * G * W) fuel g w :
  drain next (S fuel) g w =
  match next g w with
  | (Yield y, g', w') =>
      let '(ys, e, w'') := drain next fuel g' w' in (y :: ys, e, w'')
  | (StopIteration, _, w') => ([], Exhausted, w')
  | (Raised e, _, w') => ([], Failed e, w')
  end.
Proof. reflexivity. Qed.

(** ** has_more_pages *)

Lemma has_more_pages_has_next E (p : NumberedPage.t) :
  NumberedPage.has_next p <> PyNone ->
  NumberedPage.has_more_pages E p = Ok (NumberedPage.has_next p).
Proof.
  intros Hn. unfold NumberedPage.has_more_pages.
  destruct (NumberedPage.has_next p); try reflexivity. congruence.
Qed.

(** C9.  [NumberedPage(page_number=0, page_size=None, total_elements=None,
    has_next=None).has_more_pages()] returns, without raising, [None]: the
    indeterminate answer, which a condition treats as false ("no more
    pages"). *)
Theorem C9_has_more_pages_indeterminate (E : pyenv) :
  NumberedPage.has_more_pages E
    (NumberedPage.__init__ PyNone (PyInt 0) PyNone PyNone PyNone) = Ok PyNone
  /\ py_truthy PyNone = false.
Proof. split; reflexivity. Qed.

(** C2.  When [has_next] is not [None], [has_more_pages] returns it
    unchanged, whatever [page_number], [page_size] and [total_elements]
    are; and a generator whose first fetched page carries a false
    [has_next] yields that page and stops, without a second fetch. *)
Theorem C2_has_next_takes_priority (E : pyenv) (p : NumberedPage.t) :
  NumberedPage.has_next p <> PyNone ->
  NumberedPage.has_more_pages E p = Ok (NumberedPage.has_next p)
  /\ forall (W : Type) (func : Z -> option Z -> W -> result NumberedPage.t * W)
       (page_size : option Z) (start_page : Z) (w w' : W) (fuel : nat),
       func start_page page_size w = (Ok p, w') ->
       py_truthy (NumberedPage.has_next p) = false ->
       drain (NumberedPage.next E func page_size) (S (S fuel))
         (NumberedPage.get_page_generator start_page) w
       = ([p], Exhausted, w').
Proof.
  intros Hn. split; [by apply has_more_pages_has_next|].
  intros W func page_size start_page w w' fuel Hf Hfalse.
  rewrite drain_S. cbn [NumberedPage.next NumberedPage.get_page_generator].
  unfold NumberedPage.loop at 1. cbn [py_truthy]. rewrite Hf.
  rewrite drain_S. cbn [NumberedPage.next].
  rewrite (has_more_pages_has_next E p Hn).
  unfold NumberedPage.loop. rewrite Hfalse. reflexivity.
Qed.

(** A page that reports 100 elements in pages of 10, so that nine more
    pages are computed, and says [has_next = False]: the generator stops
    after it. *)
Lemma C2_witness :
  NumberedPage.has_more_pages Examples.env
    (NumberedPage.mk (PyList []) (PyInt 0) (PyInt 10) (PyInt 100) (PyBool false))
  = Ok (PyBool false)
  /\ drain (NumberedPage.next Examples.env Examples.says_no_next None) 5
       (NumberedPage.get_page_generator 0) O
     = ([NumberedPage.mk (PyList []) (PyInt 0) (PyInt 10) (PyInt 100) (PyBool false)],
        Exhausted, 1%nat).
Proof.
  destruct (C2_has_next_takes_priority Examples.env
              (NumberedPage.mk (PyList []) (PyInt 0) (PyInt 10) (PyInt 100) (PyBool false)))
    as [H1 H2]; [discriminate|].
  split; [exact H1|].
  apply (H2 nat Examples.says_no_next None 0 O 1%nat 3%nat); reflexivity.
Defined.

(** ** get_page_generator *)

(** C10.  The first resumption of [get_page_generator] calls the fetch
    function with [page_number = start_page] and yields the page it
    returns; no field of that page is consulted before the yield.  So
    whenever the first fetch returns a page, that page is the first value
    the consumer receives, whatever it reports. *)
Theorem C10_first_page_always_yielded (W : Type) (E : pyenv)
    (func : Z -> option Z -> W -> result NumberedPage.t * W)
    (page_size : option Z) (start_page : Z) (w : W) :
  NumberedPage.next E func page_size (NumberedPage.get_page_generator start_page) w
  = match func start_page page_size w with
    | (Ok page, w') => (Yield page, NumberedPage.AtYield page start_page, w')
    | (Raise e, w') => (Raised e, NumberedPage.Finished, w')
    end
  /\ forall (p : NumberedPage.t) (w' : W) (fuel : nat),
       func start_page page_size w = (Ok p, w') ->
       exists rest e w'',
         drain (NumberedPage.next E func page_size) (S fuel)
           (NumberedPage.get_page_generator start_page) w
         = (p :: rest, e, w'').
Proof.
  split; [reflexivity|].
  intros p w' fuel Hf. rewrite drain_S.
  cbn [NumberedPage.next NumberedPage.get_page_generator].
  unfold NumberedPage.loop at 1. cbn [py_truthy]. rewrite Hf.
  destruct (drain _ fuel _ w') as [[ys e] w''] eqn:Hd.
  by exists ys, e, w''.
Qed.

(** A generator over an empty data set: the page fetched first reports
    [total_elements = 0], and is yielded all the same. *)
Lemma C10_witness :
  exists rest e w'',
    drain (NumberedPage.next Examples.env (Examples.fixed_dataset 0 25) None) 3
      (NumberedPage.get_page_generator 0) O
    = (NumberedPage.mk (PyList []) (PyInt 0) (PyInt 25) (PyInt 0) PyNone :: rest, e, w'').
Proof.
  destruct (C10_first_page_always_yielded nat Examples.env
              (Examples.fixed_dataset 0 25) None 0 O) as [_ H].
  apply (H _ 1%nat 2%nat). reflexivity.
Defined.

Lemma Qeq_bool_inject_Z_0 (z : Z) : z <> 0 -> Qeq_bool (inject_Z z) 0 = false.
Proof.
  intros Hz. unfold Qeq_bool, inject_Z. cbn [Qnum Qden].
  rewrite Z.mul_1_r. cbn. destruct z; try reflexivity. congruence.
Qed.

Lemma has_more_pages_computed E items (n ps te : Z) :
  ps <> 0 ->
  NumberedPage.has_more_pages E
    (NumberedPage.mk items (PyInt n) (PyInt ps) (PyInt te) PyNone)
  = Ok (PyBool (n + 1 <? Qceiling (inject_Z te / inject_Z ps))).
Proof.
  intros Hps. unfold NumberedPage.has_more_pages, NumberedPage.get_total_pages.
  cbn. rewrite (Qeq_bool_inject_Z_0 ps Hps). reflexivity.
Qed.

Section FixedDataset.
Context {W : Type}.
Variable E : pyenv.
Variable func : Z -> option Z -> W -> result NumberedPage.t * W.
Variable requested_size : option Z.
Variables total_elements page_size : Z.
Hypothesis size_nonzero : page_size <> 0.
Hypothesis fixed : serves_fixed_dataset func requested_size total_elements page_size.

(** Suspended after yielding page [n], the generator yields the pages
    [n + 1], ..., [ceil_div total_elements page_size - 1] and returns. *)
Lemma drain_after_page (m : nat) :
  forall (n : Z) (items : pyvalue) (w : W),
    Z.of_nat m = Z.max 0 (ceil_div total_elements page_size - (n + 1)) ->
    exists (pages : list NumberedPage.t) (w' : W),
      length pages = m
      /\ (forall fuel, (m < fuel)%nat ->
            drain (NumberedPage.next E func requested_size) fuel
              (NumberedPage.AtYield
                 (NumberedPage.mk items (PyInt n) (PyInt page_size)
                    (PyInt total_elements) PyNone) n) w
            = (pages, Exhausted, w'))
      /\ (forall (i : nat) (q : NumberedPage.t), pages !! i = Some q ->
            NumberedPage.page_number q = PyInt (n + 1 + Z.of_nat i)).
Proof using size_nonzero fixed.
  induction m as [|m IH]; intros n items w Hm.
  - exists [], w. split; [reflexivity|]. split.
    + intros [|fuel] Hfuel; [lia|]. rewrite drain_S. cbn [NumberedPage.next].
      rewrite has_more_pages_computed by assumption.
      fold (ceil_div total_elements page_size).
      assert ((n + 1 <? ceil_div total_elements page_size) = false) as -> by (apply Z.ltb_ge; lia).
      reflexivity.
    + intros i q Hq. by rewrite lookup_nil in Hq.
  - destruct (fixed (n + 1) w) as (items' & w1 & Hf).
    destruct (IH (n + 1) items' w1) as (pages & w' & Hlen & Hrun & Hnum); [lia|].
    exists (NumberedPage.mk items' (PyInt (n + 1)) (PyInt page_size)
              (PyInt total_elements) PyNone :: pages), w'.
    split; [cbn; by rewrite Hlen|]. split.
    + intros [|fuel] Hfuel; [lia|]. rewrite drain_S. cbn [NumberedPage.next].
      rewrite has_more_pages_computed by assumption.
      fold (ceil_div total_elements page_size).
      assert ((n + 1 <? ceil_div total_elements page_size) = true) as -> by (apply Z.ltb_lt; lia).
      unfold NumberedPage.loop. cbn [py_truthy]. rewrite Hf.
      rewrite Hrun by lia. reflexivity.
    + intros [|i] q Hq.
      * cbn in Hq. injection Hq as <-. cbn. f_equal. lia.
      * cbn in Hq. rewrite (Hnum i q Hq). f_equal. lia.
Qed.

Lemma drain_fixed_dataset (w : W) :
  exists (pages : list NumberedPage.t) (w' : W),
    (forall fuel, (length pages < fuel)%nat ->
       drain (NumberedPage.next E func requested_size) fuel
         (NumberedPage.get_page_generator 0) w
       = (pages, Exhausted, w'))
    /\ Z.of_nat (length pages) = Z.max 1 (ceil_div total_elements page_size)
    /\ (forall (i : nat) (q : NumberedPage.t), pages !! i = Some q ->
          NumberedPage.page_number q = PyInt (Z.of_nat i)).
Proof using size_nonzero fixed.
  destruct (fixed 0 w) as (items & w1 & Hf).
  destruct (drain_after_page (Z.to_nat (ceil_div total_elements page_size - 1)) 0 items w1)
    as (pages & w' & Hlen & Hrun & Hnum); [lia|].
  exists (NumberedPage.mk items (PyInt 0) (PyInt page_size)
            (PyInt total_elements) PyNone :: pages), w'.
  split; [|split].
  - intros [|fuel] Hfuel; [cbn in Hfuel; lia|]. rewrite drain_S.
    cbn [NumberedPage.next NumberedPage.get_page_generator].
    unfold NumberedPage.loop at 1. cbn [py_truthy]. rewrite Hf.
    rewrite Hrun by (cbn in Hfuel; lia). reflexivity.
  - cbn [length]. rewrite Hlen. lia.
  - intros [|i] q Hq.
    + cbn in Hq. by injection Hq as <-.
    + cbn in Hq. rewrite (Hnum i q Hq). f_equal. lia.
Qed.

End FixedDataset.




(** ** get_cursor_based_page_generator *)

(** The values a condition treats as false. *)
Lemma py_truthy_false (v : pyvalue) :
  py_truthy v = false <->
  v = PyNone \/ v = PyBool false \/ v = PyInt 0 \/ v = PyStr ""
  \/ v = PyList [] \/ v = PyDict ∅.
Proof.
  split.
  - destruct v as [|b|z|s|l|d|cls attrs]; cbn; intros H.
    + by left.
    + subst b. right. by left.
    + apply negb_false_iff, Z.eqb_eq in H. subst z. do 2 right. by left.
    + destruct s; [|discriminate]. do 3 right. by left.
    + destruct l; [|discriminate]. do 4 right. by left.
    + apply negb_false_iff, Nat.eqb_eq, map_size_empty_iff in H. subst d.
      do 5 right. reflexivity.
    + discriminate.
  - intros [->|[->|[->|[->|[->| ->]]]]]; reflexivity.
Qed.

Lemma py_truthy_insert (k : string) (v : pyvalue) (d : gmap string pyvalue) :
  py_truthy (PyDict (<[k := v]> d)) = true.
Proof.
  cbn. apply negb_true_iff, Nat.eqb_neq. intros H.
  apply map_size_empty_iff in H. by apply insert_non_empty in H.
Qed.

(** The cursor [get_next_cursor] extracts from a page that [to_dict] can
    serialise. *)
Lemma get_next_cursor_eq E (page : CursorPage.t) (page_dict : gmap string pyvalue) :
  CursorPage.to_dict E false page = Ok page_dict ->
  CursorPage.get_next_cursor E page
  = if py_truthy (CursorPage.response_metadata page)
    then call_get (CursorPage.response_metadata page) "nextCursor"
    else Ok (PyStr "").
Proof.
  intros Hd. unfold CursorPage.get_next_cursor. rewrite Hd. cbn [mbind result_bind].
  unfold CursorPage.to_dict in Hd.
  destruct (py_iter (CursorPage.items page)) as [its|]; [|discriminate].
  cbn [mbind result_bind] in Hd.
  destruct (traverse _ its) as [items'|]; [|discriminate].
  cbn [mbind result_bind] in Hd. injection Hd as <-.
  rewrite py_truthy_insert. unfold dict_get.
  rewrite lookup_insert_ne by discriminate. by rewrite lookup_insert_eq.
Qed.

Lemma get_next_cursor_metadata E (page : CursorPage.t)
    (page_dict d : gmap string pyvalue) (c : pyvalue) :
  CursorPage.to_dict E false page = Ok page_dict ->
  CursorPage.response_metadata page = PyDict d ->
  d !! "nextCursor" = Some c ->
  CursorPage.get_next_cursor E page = Ok c.
Proof.
  intros Hd Hm Hc. rewrite (get_next_cursor_eq E page page_dict Hd), Hm.
  assert (py_truthy (PyDict d) = true) as ->.
  { cbn. apply negb_true_iff, Nat.eqb_neq. intros H.
    apply map_size_empty_iff in H. subst d. by rewrite lookup_empty in Hc. }
  cbn. unfold dict_get. by rewrite Hc.
Qed.



(** C3, as the specification states it, fails for a cursor that is false
    without being the empty string: a page whose [nextCursor] is the number
    0 ends the generation, although the cursor extracted from it is neither
    the empty string nor absent and the server has a page for it. *)
Lemma C3_counterexample :
  CursorPage.get_next_cursor Examples.env (Examples.cursor_page (PyInt 0)) = Ok (PyInt 0)
  /\ PyInt 0 <> PyStr "" /\ PyInt 0 <> PyNone
  /\ Examples.numeric_cursors (PyInt 0) 1%nat = (Ok (Examples.cursor_page (PyInt 1)), 2%nat)
  /\ drain (CursorPage.next Examples.env Examples.numeric_cursors) 5
       (CursorPage.get_cursor_based_page_generator PyNone) O
     = ([Examples.cursor_page (PyInt 0)], Exhausted, 1%nat).
Proof. repeat split; (reflexivity || discriminate). Qed.

(** C3, amended.  After each fetch the generator yields the page and
    decides on the cursor [get_next_cursor] has just extracted from that
    page (the [nextCursor] of its [responseMetadata]; the empty string when
    the metadata is missing or empty), by its truth value ([not cursor]):
    the next resumption returns without fetching exactly when the extracted
    cursor is false, that is [None] (absent), the empty string, or another
    false value ([False], 0, an empty list or dictionary); otherwise it
    fetches with the extracted cursor.  For a string, false means empty. *)
Theorem C3_continuation_on_extracted_cursor (W : Type) (E : pyenv)
    (get_page : pyvalue -> W -> result CursorPage.t * W) (cursor cursor' : pyvalue)
    (w w' : W) (page : CursorPage.t) :
  get_page cursor w = (Ok page, w') ->
  CursorPage.get_next_cursor E page = Ok cursor' ->
  let suspended := CursorPage.AtLoopTest cursor' (negb (py_truthy cursor')) in
  CursorPage.next E get_page (CursorPage.get_cursor_based_page_generator cursor) w
  = (Yield page, suspended, w')
  /\ (forall d : gmap string pyvalue,
        CursorPage.response_metadata page = PyDict d -> d <> ∅ ->
        cursor' = dict_get d "nextCursor")
  /\ (py_truthy (CursorPage.response_metadata page) = false -> cursor' = PyStr "")
  /\ (py_truthy cursor' = false ->
        forall w'', CursorPage.next E get_page suspended w''
                    = (StopIteration, CursorPage.Finished, w''))
  /\ (py_truthy cursor' = true ->
        forall w'', CursorPage.next E get_page suspended w''
                    = CursorPage.next E get_page
                        (CursorPage.get_cursor_based_page_generator cursor') w'')
  /\ (py_truthy cursor' = false <->
        cursor' = PyNone \/ cursor' = PyBool false \/ cursor' = PyInt 0
        \/ cursor' = PyStr "" \/ cursor' = PyList [] \/ cursor' = PyDict ∅)
  /\ (forall s : string, cursor' = PyStr s -> (py_truthy cursor' = false <-> s = "")).
Proof.
  intros Hf Hc suspended. subst suspended.
  assert (exists page_dict, CursorPage.to_dict E false page = Ok page_dict) as [pd Hpd].
  { unfold CursorPage.get_next_cursor in Hc.
    destruct (CursorPage.to_dict E false page) as [pd|]; [by exists pd|discriminate]. }
  rewrite (get_next_cursor_eq E page pd Hpd) in Hc.
  split; [|split; [|split; [|split; [|split; [|split]]]]].
  - cbn [CursorPage.next CursorPage.get_cursor_based_page_generator negb].
    rewrite Hf. rewrite (get_next_cursor_eq E page pd Hpd), Hc. reflexivity.
  - intros d Hm Hne. rewrite Hm in Hc.
    assert (py_truthy (PyDict d) = true) as Ht.
    { cbn. apply negb_true_iff, Nat.eqb_neq. intros H.
      by apply map_size_empty_iff in H. }
    rewrite Ht in Hc. cbn in Hc. congruence.
  - intros Hfalse. rewrite Hfalse in Hc. congruence.
  - intros Hfalse w''. cbn [CursorPage.next]. rewrite Hfalse. reflexivity.
  - intros Htrue w''. cbn [CursorPage.next CursorPage.get_cursor_based_page_generator].
    rewrite Htrue. reflexivity.
  - apply py_truthy_false.
  - intros s ->. rewrite py_truthy_false. split.
    + intros [H|[H|[H|[H|[H|H]]]]]; congruence.
    + intros ->. do 3 right. by left.
Qed.

Lemma C3_witness :
  CursorPage.next Examples.env Examples.two_pages
    (CursorPage.get_cursor_based_page_generator PyNone) O
  = (Yield (Examples.cursor_page (PyStr "abc")),
     CursorPage.AtLoopTest (PyStr "abc") false, 1%nat).
Proof.
  apply (C3_continuation_on_extracted_cursor nat Examples.env Examples.two_pages
           PyNone (PyStr "abc") O 1%nat (Examples.cursor_page (PyStr "abc")));
    reflexivity.
Defined.

(** ** from_dict and to_dict *)

(** C5, as the specification states it, fails on the message: for the
    class [dict] both constructors raise the [ValueError] with the fixed
    text of the source, which does not name the class that was passed. *)
Lemma C5_counterexample :
  NumberedPage.from_dict Examples.raw_page (Some Examples.class_dict)
  = Raise (ValueError "'content_type' must be a subclass of ModelBase.")
  /\ CursorPage.from_dict Examples.raw_page (Some Examples.class_dict)
     = Raise (ValueError "'content_type' must be a subclass of ModelBase.")
  /\ exn_names (ValueError "'content_type' must be a subclass of ModelBase.") "dict"
     = false.
Proof. repeat split. Qed.

(** C5, amended.  For every raw page dictionary and every [content_type]
    that is a class but not a subclass of [ModelBase],
    [NumberedPage.from_dict] and [CursorPage.from_dict] raise [ValueError]
    with the fixed message ['content_type' must be a subclass of
    ModelBase.], the same for every such class, and return no page: the
    message names the parameter, not the class that was passed.  A
    [content_type] that is not a class makes [issubclass] raise
    [TypeError]. *)
Theorem C5_from_dict_rejects_content_type (page : gmap string pyvalue)
    (name : string) (cls_from_dict : pyvalue -> result pyvalue) (v : pyvalue) :
  NumberedPage.from_dict page (Some (PyClass name false cls_from_dict))
  = Raise (ValueError "'content_type' must be a subclass of ModelBase.")
  /\ CursorPage.from_dict page (Some (PyClass name false cls_from_dict))
     = Raise (ValueError "'content_type' must be a subclass of ModelBase.")
  /\ exn_names (ValueError "'content_type' must be a subclass of ModelBase.")
       "content_type" = true
  /\ NumberedPage.from_dict page (Some (NotAClass v)) = Raise TypeError
  /\ CursorPage.from_dict page (Some (NotAClass v)) = Raise TypeError.
Proof. repeat split. Qed.

Lemma traverse_id_on_raw {A : Type} (f : A -> result A) (l : list A) :
  Forall (fun x => f x = Ok x) l -> traverse f l = Ok l.
Proof.
  induction 1 as [|x l Hx _ IH]; [reflexivity|].
  cbn [traverse]. rewrite Hx. cbn [mbind result_bind]. rewrite IH. reflexivity.
Qed.

Lemma numbered_round_trip E (remove_nones : bool) (p : NumberedPage.t)
    (d : gmap string pyvalue) :
  NumberedPage.to_dict E remove_nones p = Ok d ->
  exists (l l' : list pyvalue),
    py_iter (NumberedPage.items p) = Ok l
    /\ traverse (NumberedPage.item_to_dict E remove_nones) l = Ok l'
    /\ NumberedPage.from_dict d None
       = Ok (NumberedPage.mk (PyList l') (NumberedPage.page_number p)
               (NumberedPage.page_size p) (NumberedPage.total_elements p)
               (NumberedPage.has_next p)).
Proof.
  unfold NumberedPage.to_dict. intros Hd.
  destruct (py_iter (NumberedPage.items p)) as [l|]; [|discriminate].
  cbn [mbind result_bind] in Hd.
  destruct (traverse _ l) as [l'|] eqn:Hl'; [|discriminate].
  cbn [mbind result_bind] in Hd. injection Hd as <-.
  exists l, l'. split; [reflexivity|]. split; [exact Hl'|].
  unfold NumberedPage.from_dict, NumberedPage.__init__, dict_get.
  repeat (rewrite ?lookup_insert_eq; rewrite ?lookup_insert_ne by discriminate).
  reflexivity.
Qed.

Lemma cursor_round_trip E (remove_nones : bool) (q : CursorPage.t)
    (d : gmap string pyvalue) :
  CursorPage.to_dict E remove_nones q = Ok d ->
  exists (l l' : list pyvalue),
    py_iter (CursorPage.items q) = Ok l
    /\ traverse (call_to_dict E remove_nones) l = Ok l'
    /\ CursorPage.from_dict d None
       = Ok (CursorPage.mk (PyList l') (CursorPage.response_metadata q)).
Proof.
  unfold CursorPage.to_dict. intros Hd.
  destruct (py_iter (CursorPage.items q)) as [l|]; [|discriminate].
  cbn [mbind result_bind] in Hd.
  destruct (traverse _ l) as [l'|] eqn:Hl'; [|discriminate].
  cbn [mbind result_bind] in Hd. injection Hd as <-.
  exists l, l'. split; [reflexivity|]. split; [exact Hl'|].
  unfold CursorPage.from_dict, CursorPage.__init__, dict_get.
  repeat (rewrite ?lookup_insert_eq; rewrite ?lookup_insert_ne by discriminate).
  reflexivity.
Qed.

(** C8, as the specification states it, fails on the items: [to_dict]
    replaces a model object by its dictionary and [from_dict] without
    [content_type] leaves the dictionary as it is, so a page of [Report]
    objects comes back as a page of dictionaries, for both kinds of page;
    and [CursorPage.to_dict] raises on a page whose items are
    dictionaries. *)
Lemma C8_counterexample :
  (exists d p',
     NumberedPage.to_dict Examples.env false Examples.page_of_reports = Ok d
     /\ NumberedPage.from_dict d None = Ok p'
     /\ NumberedPage.items p' <> NumberedPage.items Examples.page_of_reports)
  /\ (exists d q',
        CursorPage.to_dict Examples.env false Examples.cursor_page_of_reports = Ok d
        /\ CursorPage.from_dict d None = Ok q'
        /\ CursorPage.items q' <> CursorPage.items Examples.cursor_page_of_reports)
  /\ CursorPage.to_dict Examples.env false Examples.cursor_page_of_dicts
     = Raise AttributeError.
Proof.
  split; [|split].
  - eexists _, _. split; [reflexivity|]. split; [reflexivity|]. discriminate.
  - eexists _, _. split; [reflexivity|]. split; [reflexivity|]. discriminate.
  - reflexivity.
Qed.

(** C8, amended.  For every [NumberedPage] and every [CursorPage] that
    [to_dict] serialises, [from_dict(to_dict(p))] without [content_type] is
    a page with the page-specific metadata of [p] ([page_number],
    [page_size], [total_elements], [has_next]; [response_metadata]) and
    with the serialised forms of the items of [p], in order: the
    dictionary [to_dict] gives for an item that has the method; for a
    [NumberedPage], an item without the method unchanged.  A
    [NumberedPage] none of whose items has a [to_dict] comes back
    identical. *)
Theorem C8_round_trip (E : pyenv) (remove_nones : bool)
    (p : NumberedPage.t) (q : CursorPage.t) (dp dq : gmap string pyvalue) :
  NumberedPage.to_dict E remove_nones p = Ok dp ->
  CursorPage.to_dict E remove_nones q = Ok dq ->
  (exists (l l' : list pyvalue),
     py_iter (NumberedPage.items p) = Ok l
     /\ traverse (NumberedPage.item_to_dict E remove_nones) l = Ok l'
     /\ NumberedPage.from_dict dp None
        = Ok (NumberedPage.mk (PyList l') (NumberedPage.page_number p)
                (NumberedPage.page_size p) (NumberedPage.total_elements p)
                (NumberedPage.has_next p))
     /\ (NumberedPage.items p = PyList l ->
         Forall (fun item => to_dict_method E item = None) l ->
         NumberedPage.from_dict dp None = Ok p))
  /\ (exists (l l' : list pyvalue),
        py_iter (CursorPage.items q) = Ok l
        /\ traverse (call_to_dict E remove_nones) l = Ok l'
        /\ CursorPage.from_dict dq None
           = Ok (CursorPage.mk (PyList l') (CursorPage.response_metadata q))).
Proof.
  intros Hp Hq. split; [|by apply cursor_round_trip].
  destruct (numbered_round_trip E remove_nones p dp Hp) as (l & l' & Hl & Hl' & Hfrom).
  exists l, l'. split; [exact Hl|]. split; [exact Hl'|]. split; [exact Hfrom|].
  intros Hitems Hraw. rewrite Hfrom.
  rewrite traverse_id_on_raw in Hl'.
  - injection Hl' as <-. destruct p. cbn in *. by rewrite Hitems.
  - eapply Forall_impl; [exact Hraw|]. intros x Hx.
    unfold NumberedPage.item_to_dict. by rewrite Hx.
Qed.

(** A numbered page of one [Report] and a cursor page of one [Report]: the
    metadata come back, the items come back as dictionaries. *)
Lemma C8_witness :
  exists (dp dq : gmap string pyvalue) (l' m' : list pyvalue),
    NumberedPage.from_dict dp None
    = Ok (NumberedPage.mk (PyList l') (PyInt 0) (PyInt 25) (PyInt 1) PyNone)
    /\ CursorPage.from_dict dq None
       = Ok (CursorPage.mk (PyList m') (PyDict (<["nextCursor" := PyStr ""]> ∅))).
Proof.
  edestruct (C8_round_trip Examples.env false Examples.page_of_reports
               Examples.cursor_page_of_reports)
    as [(l & l' & _ & _ & Hn & _) (m & m' & _ & _ & Hc)];
    [reflexivity | reflexivity |].
  eexists _, _, l', m'. split; [exact Hn | exact Hc].
Defined.

(** ** get_next_to_time *)

Lemma traverse_last {A B : Type} (f : A -> result B) (l : list A) (ys : list B) :
  traverse f l = Ok ys ->
  length ys = length l
  /\ forall x, last l = Some x -> exists y, f x = Ok y /\ last ys = Some y.
Proof.
  revert ys. induction l as [|a l IH]; intros ys H; cbn [traverse] in H.
  - injection H as <-. split; [reflexivity|]. intros x Hx. discriminate.
  - destruct (f a) as [b|] eqn:Hb; [|discriminate]. cbn [mbind result_bind] in H.
    destruct (traverse f l) as [ys'|]; [|discriminate].
    cbn [mbind result_bind] in H. injection H as <-.
    destruct (IH ys' eq_refl) as [Hlen Hlast]. split; [cbn; by rewrite Hlen|].
    intros x Hx. destruct l as [|a' l'].
    + cbn in Hx. injection Hx as <-. destruct ys'; [|discriminate].
      by exists b.
    + destruct ys' as [|y' ys'']; [discriminate|].
      change (last (a :: a' :: l')) with (last (a' :: l')) in Hx.
      change (last (b :: y' :: ys'')) with (last (y' :: ys'')). by apply Hlast.
Qed.

(** [get_next_to_time] on a page of reports: one millisecond before the
    [updated] of the last report, one day before [to_time] on an empty
    page. *)
Lemma get_next_to_time_timestamps (page : NumberedPage.t) (to_time : Z) (ts : list Z) :
  timestamps page = Some ts ->
  ReportClient.get_next_to_time page to_time
  = Ok (match last ts with Some u => u - 1 | None => to_time - Utils.DAY end).
Proof.
  unfold timestamps, ReportClient.get_next_to_time.
  destruct (NumberedPage.items page) as [| | | |l| |]; try discriminate.
  destruct (traverse updated_time l) as [ts'|] eqn:Ht; [|discriminate].
  intros [= <-]. destruct (traverse_last _ _ _ Ht) as [Hlen Hlast].
  cbn [py_len mbind result_bind].
  destruct l as [|a l].
  - destruct ts'; [reflexivity|discriminate].
  - cbn [length Nat.ltb Nat.leb py_last].
    destruct (last (a :: l)) as [x|] eqn:Hx.
    + destruct (Hlast x eq_refl) as (u & Hu & ->).
      unfold updated_time in Hu. cbn [mbind result_bind].
      destruct (py_getattr x "updated") as [v|]; [|discriminate].
      cbn [mbind result_bind] in Hu |- *. rewrite Hu. reflexivity.
    + apply last_None in Hx. discriminate.
Qed.

Lemma earliest_None (ts : list Z) : earliest ts = None -> ts = [].
Proof.
  destruct ts as [|t ts]; [reflexivity|]. cbn [earliest].
  destruct (earliest ts); discriminate.
Qed.

Lemma earliest_is_minimum (ts : list Z) (e : Z) :
  earliest ts = Some e -> e ∈ ts /\ Forall (fun t => e <= t) ts.
Proof.
  revert e. induction ts as [|t ts IH]; intros e He; [discriminate|].
  cbn [earliest] in He. destruct (earliest ts) as [e'|] eqn:Hets.
  - destruct (IH e' eq_refl) as [Hin Hle]. injection He as <-. split.
    + destruct (Z.min_spec t e') as [[_ ->]|[_ ->]]; [left | by right].
    + constructor; [lia|]. eapply Forall_impl; [exact Hle|]. cbn. lia.
  - injection He as <-. apply earliest_None in Hets. subst ts. split; [left|].
    constructor; [lia|constructor].
Qed.

Lemma last_is_earliest (ts : list Z) (u : Z) :
  StronglySorted Z.ge ts -> last ts = Some u ->
  earliest ts = Some u /\ Forall (fun t => u <= t) ts.
Proof.
  induction 1 as [|t ts Hs IH Hall]; [discriminate|].
  intros Hlast. destruct ts as [|t' ts'].
  - cbn in Hlast. injection Hlast as <-. split; [reflexivity|].
    constructor; [lia|constructor].
  - change (last (t :: t' :: ts')) with (last (t' :: ts')) in Hlast.
    destruct (IH Hlast) as [He Hle].
    assert (u <= t) as Hut.
    { assert (u ∈ t' :: ts') as Hin.
      { apply list_elem_of_lookup. exists (length ts').
        rewrite <- Hlast. by rewrite last_lookup. }
      rewrite Forall_forall in Hall. apply Hall in Hin. lia. }
    split; [|by constructor].
    change (earliest (t :: t' :: ts'))
      with (match earliest (t' :: ts') with
            | Some e => Some (Z.min t e) | None => Some t end).
    rewrite He. f_equal. lia.
Qed.




(** ** The time window of the reports generator *)

Section ReportsWindow.
Context {W : Type}.
Variable get_page : option Z -> Z -> W -> result NumberedPage.t * W.
Variable from_time : option Z.

(** The endpoint returns the reports of the window it is asked for. *)
Hypothesis get_page_in_window :
  forall (f : option Z) (t : Z) (w w' : W) (p : NumberedPage.t),
    get_page f t w = (Ok p, w') -> in_window p t.

Lemma get_next_to_time_decreases (page : NumberedPage.t) (to_time : Z) :
  in_window page to_time ->
  exists t' : Z,
    ReportClient.get_next_to_time page to_time = Ok t'
    /\ t' < to_time
    /\ (timestamps page = Some [] -> t' = to_time - Utils.DAY)
    /\ (newest_first page ->
        forall ts u, timestamps page = Some ts -> u ∈ ts -> t' < u).
Proof.
  intros (ts & Hts & Hlt).
  rewrite (get_next_to_time_timestamps page to_time ts Hts).
  eexists. split; [reflexivity|]. destruct (last ts) as [u|] eqn:Hlast.
  - split; [|split].
    + assert (u ∈ ts) as Hin.
      { apply list_elem_of_lookup. exists (pred (length ts)).
        by rewrite <- last_lookup. }
      rewrite Forall_forall in Hlt. apply Hlt in Hin. lia.
    + intros Hnil. rewrite Hnil in Hts. injection Hts as <-. discriminate.
    + intros (ts' & Hts' & Hs) ts'' u' Hts'' Hu'.
      rewrite Hts in Hts', Hts''. injection Hts' as <-. injection Hts'' as <-.
      destruct (last_is_earliest ts u Hs Hlast) as [_ Hle].
      rewrite Forall_forall in Hle. apply Hle in Hu'. lia.
  - apply last_None in Hlast. subst ts. split; [|split].
    + unfold Utils.DAY. lia.
    + reflexivity.
    + intros _ ts'' u' Hts'' Hu'. rewrite Hts in Hts''. injection Hts'' as <-.
      by apply elem_of_nil in Hu'.
Qed.

Lemma resume_finished (n : nat) (w : W) :
  resume (ReportClient.next get_page from_time) n Utils.Finished w
  = (Utils.Finished, w).
Proof. induction n as [|n IH]; [reflexivity|]. cbn. exact IH. Qed.

(** From one yield to any later one, the upper bound of the window has
    gone below the bound [get_next_to_time] computed at the first. *)
Lemma later_window_below (k : nat) :
  forall (p : NumberedPage.t) (t : Z) (w : W) (p' : NumberedPage.t) (t' : Z) (w' : W),
    in_window p t ->
    resume (ReportClient.next get_page from_time) (S k) (Utils.AtYield p t) w
    = (Utils.AtYield p' t', w') ->
    in_window p' t'
    /\ exists t1 : Z,
         ReportClient.get_next_to_time p t = Ok t1 /\ t' <= t1 /\ t1 < t.
Proof using get_page_in_window.
  induction k as [|k IH]; intros p t w p' t' w' Hin Hrun.
  - destruct (get_next_to_time_decreases p t Hin) as (t1 & Ht1 & Hlt & _).
    cbn in Hrun. unfold ReportClient.next, Utils.next in Hrun.
    rewrite Ht1 in Hrun. unfold Utils.loop in Hrun.
    destruct (Utils.window_open from_time t1); [|discriminate].
    destruct (get_page from_time t1 w) as [[q|e] w1] eqn:Hf; [|discriminate].
    injection Hrun as -> -> ->.
    split; [by eapply get_page_in_window|]. exists t'. split; [done|]. lia.
  - destruct (get_next_to_time_decreases p t Hin) as (t1 & Ht1 & Hlt & _).
    change (resume ?nx (S (S k)) ?g w)
      with (let '(_, g', w1) := nx g w in resume nx (S k) g' w1) in Hrun.
    unfold ReportClient.next at 1, Utils.next at 1 in Hrun.
    rewrite Ht1 in Hrun. unfold Utils.loop in Hrun.
    destruct (Utils.window_open from_time t1).
    + destruct (get_page from_time t1 w) as [[q|e] w1] eqn:Hf.
      * destruct (IH q t1 w1 p' t' w') as (Hin' & t2 & Ht2 & Hle & Hlt2);
          [by eapply get_page_in_window|exact Hrun|].
        split; [exact Hin'|]. exists t1. split; [done|]. lia.
      * rewrite resume_finished in Hrun. discriminate.
    + rewrite resume_finished in Hrun. discriminate.
Qed.

End ReportsWindow.

Lemma oldest_first_server_in_window (f : option Z) (t : Z) (w w' : nat)
    (p : NumberedPage.t) :
  Examples.oldest_first_server f t w = (Ok p, w') -> in_window p t.
Proof.
  unfold Examples.oldest_first_server.
  destruct (4500 <? t) eqn:H1; [|destruct (3000 <? t) eqn:H2]; intros [= <- <-].
  - apply Z.ltb_lt in H1. exists [3000; 4500]. split; [reflexivity|].
    repeat constructor; lia.
  - apply Z.ltb_lt in H2. exists [3000]. split; [reflexivity|].
    repeat constructor; lia.
  - exists []. split; [reflexivity|]. constructor.
Qed.



Lemma newest_first_server_in_window (f : option Z) (t : Z) (w w' : nat)
    (p : NumberedPage.t) :
  Examples.newest_first_server f t w = (Ok p, w') -> in_window p t.
Proof.
  unfold Examples.newest_first_server.
  destruct (4500 <? t) eqn:H1; [|destruct (4000 <? t) eqn:H2]; intros [= <- <-].
  - apply Z.ltb_lt in H1. exists [4500; 4000]. split; [reflexivity|].
    repeat constructor; lia.
  - apply Z.ltb_lt in H2. exists [4000]. split; [reflexivity|].
    repeat constructor; lia.
  - exists []. split; [reflexivity|]. constructor.
Qed.


(** * Further properties of the pagination code *)

(** ** get_total_pages and has_more_pages *)

Lemma Qceiling_inject_Z_div (a b : Z) :
  0 < b -> Qceiling (inject_Z a / inject_Z b) = (a + b - 1) / b.
Proof.
  intros Hb. destruct b as [|p|p]; try lia.
  unfold Qceiling, Qfloor, Qdiv, Qmult, Qinv, Qopp, inject_Z. cbn [Qnum Qden].
  rewrite Z.mul_1_r, Pos.mul_1_l.
  apply Z.div_unique with (r := Z.pos p - 1 - (- a) mod Z.pos p).
  - left. pose proof (Z.mod_pos_bound (- a) (Z.pos p) ltac:(lia)). lia.
  - pose proof (Z.div_mod (- a) (Z.pos p) ltac:(lia)). lia.
Qed.





(** ** Runs of get_page_generator *)

Section NumberedRuns.
Context {W : Type}.
Variable E : pyenv.
Variable func : Z -> option Z -> W -> result NumberedPage.t * W.
Variable page_size : option Z.

(** What a run that resumes after yielding [q], fetched as page [n], has
    done when the consumer leaves it. *)
Lemma drain_after_yield_sound (fuel : nat) :
  forall (n : Z) (q : NumberedPage.t) (w : W)
         (pages : list NumberedPage.t) (e : ending) (w' : W),
    drain (NumberedPage.next E func page_size) fuel (NumberedPage.AtYield q n) w
    = (pages, e, w') ->
    (forall (i : nat) (p : NumberedPage.t), pages !! i = Some p ->
       exists w0 w1, func (n + 1 + Z.of_nat i) page_size w0 = (Ok p, w1))
    /\ (forall (i : nat) (p : NumberedPage.t),
          (S i < length (q :: pages))%nat -> (q :: pages) !! i = Some p ->
          exists v, NumberedPage.has_more_pages E p = Ok v /\ py_truthy v = true)
    /\ (e = Exhausted ->
        exists p v, last (q :: pages) = Some p
                    /\ NumberedPage.has_more_pages E p = Ok v /\ py_truthy v = false)
    /\ (forall x, e = Failed x ->
        (exists w0, func (n + 1 + Z.of_nat (length pages)) page_size w0 = (Raise x, w'))
        \/ (exists p, last (q :: pages) = Some p
                      /\ NumberedPage.has_more_pages E p = Raise x)).
Proof.
  induction fuel as [|fuel IH]; intros n q w pages e w' Hrun.
  - cbn in Hrun. injection Hrun as <- <- <-.
    split; [intros i p Hp; by rewrite lookup_nil in Hp|].
    split; [intros i p Hi; cbn in Hi; lia|].
    split; [discriminate|]. discriminate.
  - rewrite drain_S in Hrun. cbn [NumberedPage.next] in Hrun.
    destruct (NumberedPage.has_more_pages E q) as [v|x] eqn:Hq.
    + unfold NumberedPage.loop in Hrun. destruct (py_truthy v) eqn:Hv.
      * destruct (func (n + 1) page_size w) as [[p|x] w1] eqn:Hf.
        -- destruct (drain _ fuel (NumberedPage.AtYield p (n + 1)) w1)
             as [[ys e1] w2] eqn:Hd.
           injection Hrun as <- <- <-.
           destruct (IH _ _ _ _ _ _ Hd) as (Hfetch & Hmore & Hstop & Hfail).
           split; [|split; [|split]].
           ++ intros [|i] p' Hp'.
              ** cbn in Hp'. injection Hp' as <-. exists w, w1.
                 by replace (n + 1 + Z.of_nat 0) with (n + 1) by lia.
              ** cbn in Hp'. destruct (Hfetch i p' Hp') as (w0 & w3 & Hf').
                 exists w0, w3.
                 by replace (n + 1 + Z.of_nat (S i)) with (n + 1 + 1 + Z.of_nat i) by lia.
           ++ intros [|i] p' Hi Hp'.
              ** cbn in Hp'. injection Hp' as <-. by exists v.
              ** cbn in Hp'. apply (Hmore i p'); [cbn in Hi |- *; lia|exact Hp'].
           ++ intros He. destruct (Hstop He) as (p' & v' & Hl & Hm & Ht).
              exists p', v'. split; [|done].
              change (last (q :: p :: ys)) with (last (p :: ys)). exact Hl.
           ++ intros x He. destruct (Hfail x He) as [(w0 & Hf')|(p' & Hl & Hm)].
              ** left. exists w0.
                 by replace (n + 1 + Z.of_nat (length (p :: ys)))
                   with (n + 1 + 1 + Z.of_nat (length ys)) by (cbn [length]; lia).
              ** right. exists p'. split; [|done].
                 change (last (q :: p :: ys)) with (last (p :: ys)). exact Hl.
        -- injection Hrun as <- <- <-.
           split; [intros i p Hp; by rewrite lookup_nil in Hp|].
           split; [intros i p Hi; cbn in Hi; lia|].
           split; [discriminate|].
           intros x' [= <-]. left. exists w.
           by replace (n + 1 + Z.of_nat (length (@nil NumberedPage.t))) with (n + 1)
             by (cbn; lia).
      * injection Hrun as <- <- <-.
        split; [intros i p Hp; by rewrite lookup_nil in Hp|].
        split; [intros i p Hi; cbn in Hi; lia|].
        split; [intros _; by exists q, v|]. discriminate.
    + injection Hrun as <- <- <-.
      split; [intros i p Hp; by rewrite lookup_nil in Hp|].
      split; [intros i p Hi; cbn in Hi; lia|].
      split; [discriminate|].
      intros x' [= <-]. right. by exists q.
Qed.

End NumberedRuns.

Lemma drain_numbered_start {W : Type} (E : pyenv)
    (func : Z -> option Z -> W -> result NumberedPage.t * W)
    (page_size : option Z) (start_page : Z) (fuel : nat) (w : W) :
  drain (NumberedPage.next E func page_size) (S fuel)
    (NumberedPage.get_page_generator start_page) w
  = match func start_page page_size w with
    | (Ok p, w1) =>
        let '(ys, e, w2) :=
          drain (NumberedPage.next E func page_size) fuel
            (NumberedPage.AtYield p start_page) w1 in
        (p :: ys, e, w2)
    | (Raise x, w1) => ([], Failed x, w1)
    end.
Proof.
  rewrite drain_S. cbn [NumberedPage.next NumberedPage.get_page_generator].
  unfold NumberedPage.loop. cbn [py_truthy].
  by destruct (func start_page page_size w) as [[p|x] w1].
Qed.

(** X3.  The pages [get_page_generator] yields are, in order, the pages the
    fetch function returned for the page numbers [start_page],
    [start_page + 1], [start_page + 2], ...: the generator counts the
    requests itself and does not take the number from the pages. *)
Theorem X3_requests_consecutive_pages (W : Type) (E : pyenv)
    (func : Z -> option Z -> W -> result NumberedPage.t * W)
    (page_size : option Z) (start_page : Z) (fuel : nat) (w w' : W)
    (pages : list NumberedPage.t) (e : ending) (i : nat) (p : NumberedPage.t) :
  drain (NumberedPage.next E func page_size) fuel
    (NumberedPage.get_page_generator start_page) w = (pages, e, w') ->
  pages !! i = Some p ->
  exists w0 w1, func (start_page + Z.of_nat i) page_size w0 = (Ok p, w1).
Proof.
  destruct fuel as [|fuel]; [intros [= <- <- <-] Hp; by rewrite lookup_nil in Hp|].
  rewrite drain_numbered_start.
  destruct (func start_page page_size w) as [[q|x] w1] eqn:Hf.
  - destruct (drain _ fuel _ w1) as [[ys e1] w2] eqn:Hd. intros [= <- <- <-] Hp.
    destruct (drain_after_yield_sound E func page_size fuel _ _ _ _ _ _ Hd)
      as (Hfetch & _).
    destruct i as [|i].
    + cbn in Hp. injection Hp as <-. exists w, w1.
      by replace (start_page + Z.of_nat 0) with start_page by lia.
    + cbn in Hp. destruct (Hfetch i p Hp) as (w0 & w3 & Hf'). exists w0, w3.
      by replace (start_page + Z.of_nat (S i)) with (start_page + 1 + Z.of_nat i) by lia.
  - intros [= <- <- <-] Hp. by rewrite lookup_nil in Hp.
Qed.

(** Started at page 2 over 95 elements in pages of 10, the second page
    yielded is page 3. *)
Lemma X3_witness :
  exists w0 w1,
    Examples.fixed_dataset 95 10 (2 + Z.of_nat 1) None w0
    = (Ok (NumberedPage.mk (PyList []) (PyInt 3) (PyInt 10) (PyInt 95) PyNone), w1).
Proof.
  eapply (X3_requests_consecutive_pages nat Examples.env (Examples.fixed_dataset 95 10)
            None 2 20 O); reflexivity.
Defined.

(** X4.  [get_page_generator] returns only after a page whose
    [has_more_pages] is false ([False], [None], ...): when the generator is
    exhausted it has yielded at least one page, the last page yielded said
    that no more pages exist, and every page before it said that more
    exist. *)
Theorem X4_stops_at_first_page_without_successor (W : Type) (E : pyenv)
    (func : Z -> option Z -> W -> result NumberedPage.t * W)
    (page_size : option Z) (start_page : Z) (fuel : nat) (w w' : W)
    (pages : list NumberedPage.t) :
  drain (NumberedPage.next E func page_size) fuel
    (NumberedPage.get_page_generator start_page) w = (pages, Exhausted, w') ->
  (exists p v, last pages = Some p
               /\ NumberedPage.has_more_pages E p = Ok v /\ py_truthy v = false)
  /\ forall (i : nat) (q : NumberedPage.t),
       (S i < length pages)%nat -> pages !! i = Some q ->
       exists v, NumberedPage.has_more_pages E q = Ok v /\ py_truthy v = true.
Proof.
  destruct fuel as [|fuel]; [discriminate|].
  rewrite drain_numbered_start.
  destruct (func start_page page_size w) as [[q|x] w1] eqn:Hf; [|discriminate].
  destruct (drain _ fuel _ w1) as [[ys e1] w2] eqn:Hd. intros [= <- -> <-].
  destruct (drain_after_yield_sound E func page_size fuel _ _ _ _ _ _ Hd)
    as (_ & Hmore & Hstop & _).
  split; [by apply Hstop | exact Hmore].
Qed.

Lemma X4_witness :
  (exists p v,
      last [NumberedPage.mk (PyList []) (PyInt 0) (PyInt 10) (PyInt 15) PyNone;
            NumberedPage.mk (PyList []) (PyInt 1) (PyInt 10) (PyInt 15) PyNone] = Some p
      /\ NumberedPage.has_more_pages Examples.env p = Ok v /\ py_truthy v = false)
  /\ forall (i : nat) (q : NumberedPage.t),
       (S i < 2)%nat ->
       [NumberedPage.mk (PyList []) (PyInt 0) (PyInt 10) (PyInt 15) PyNone;
        NumberedPage.mk (PyList []) (PyInt 1) (PyInt 10) (PyInt 15) PyNone] !! i = Some q ->
       exists v, NumberedPage.has_more_pages Examples.env q = Ok v /\ py_truthy v = true.
Proof.
  apply (X4_stops_at_first_page_without_successor nat Examples.env
           (Examples.fixed_dataset 15 10) None 0 5 O 2%nat).
  reflexivity.
Defined.

(** X5.  [get_page_generator] adds no error of its own and hides none: when
    an exception ends the generator, it is the exception the fetch function
    raised for the next page number, or the exception [has_more_pages]
    raised on the last page yielded; the pages fetched before are
    delivered. *)
Theorem X5_errors_come_from_fetch_or_has_more_pages (W : Type) (E : pyenv)
    (func : Z -> option Z -> W -> result NumberedPage.t * W)
    (page_size : option Z) (start_page : Z) (fuel : nat) (w w' : W)
    (pages : list NumberedPage.t) (x : exn) :
  drain (NumberedPage.next E func page_size) fuel
    (NumberedPage.get_page_generator start_page) w = (pages, Failed x, w') ->
  (exists w0,
      func (start_page + Z.of_nat (length pages)) page_size w0 = (Raise x, w'))
  \/ (exists p, last pages = Some p /\ NumberedPage.has_more_pages E p = Raise x).
Proof.
  destruct fuel as [|fuel]; [discriminate|].
  rewrite drain_numbered_start.
  destruct (func start_page page_size w) as [[q|x'] w1] eqn:Hf.
  - destruct (drain _ fuel _ w1) as [[ys e1] w2] eqn:Hd. intros [= <- -> <-].
    destruct (drain_after_yield_sound E func page_size fuel _ _ _ _ _ _ Hd)
      as (_ & _ & _ & Hfail).
    destruct (Hfail x eq_refl) as [(w0 & Hf')|Hlast]; [left|by right].
    exists w0.
    by replace (start_page + Z.of_nat (length (q :: ys)))
      with (start_page + 1 + Z.of_nat (length ys)) by (cbn [length]; lia).
  - intros [= <- <- <-]. left. exists w.
    by replace (start_page + Z.of_nat (length (@nil NumberedPage.t))) with start_page
      by (cbn; lia).
Qed.

Lemma X5_witness :
  (exists w0,
      MoreExamples.fails_at_page_one (0 + Z.of_nat 1) None w0
      = (Raise (FetchError "503 Service Unavailable"), 2%nat))
  \/ (exists p,
        last [NumberedPage.mk (PyList []) (PyInt 0) PyNone PyNone (PyBool true)] = Some p
        /\ NumberedPage.has_more_pages Examples.env p
           = Raise (FetchError "503 Service Unavailable")).
Proof.
  apply (X5_errors_come_from_fetch_or_has_more_pages nat Examples.env
           MoreExamples.fails_at_page_one None 0 5 O 2%nat
           [NumberedPage.mk (PyList []) (PyInt 0) PyNone PyNone (PyBool true)]).
  reflexivity.
Defined.

Lemma drain_never_returns {W : Type} (E : pyenv)
    (func : Z -> option Z -> W -> result NumberedPage.t * W) (page_size : option Z) :
  (forall n w, exists p w' v,
      func n page_size w = (Ok p, w')
      /\ NumberedPage.has_more_pages E p = Ok v /\ py_truthy v = true) ->
  forall (fuel : nat) (n : Z) (q : NumberedPage.t) (v : pyvalue) (w : W),
    NumberedPage.has_more_pages E q = Ok v -> py_truthy v = true ->
    exists pages w',
      drain (NumberedPage.next E func page_size) fuel (NumberedPage.AtYield q n) w
      = (pages, StillRunning, w')
      /\ length pages = fuel.
Proof.
  intros Hall. induction fuel as [|fuel IH]; intros n q v w Hq Hv.
  - by exists [], w.
  - destruct (Hall (n + 1) w) as (p & w1 & v1 & Hf & Hp & Hv1).
    destruct (IH (n + 1) p v1 w1 Hp Hv1) as (pages & w' & Hd & Hlen).
    exists (p :: pages), w'. rewrite drain_S. cbn [NumberedPage.next].
    rewrite Hq. unfold NumberedPage.loop. rewrite Hv, Hf, Hd.
    split; [reflexivity|]. cbn. by rewrite Hlen.
Qed.

(** X6.  [get_page_generator] has no limit of its own: when every page the
    fetch function returns says that more pages exist, the generator yields
    a page at every resumption and never returns. *)
Theorem X6_no_limit_on_pages (W : Type) (E : pyenv)
    (func : Z -> option Z -> W -> result NumberedPage.t * W)
    (page_size : option Z) (start_page : Z) (fuel : nat) (w : W) :
  (forall n w, exists p w' v,
      func n page_size w = (Ok p, w')
      /\ NumberedPage.has_more_pages E p = Ok v /\ py_truthy v = true) ->
  exists pages w',
    drain (NumberedPage.next E func page_size) fuel
      (NumberedPage.get_page_generator start_page) w
    = (pages, StillRunning, w')
    /\ length pages = fuel.
Proof.
  intros Hall. destruct fuel as [|fuel]; [by exists [], w|].
  destruct (Hall start_page w) as (p & w1 & v & Hf & Hp & Hv).
  destruct (drain_never_returns E func page_size Hall fuel start_page p v w1 Hp Hv)
    as (pages & w' & Hd & Hlen).
  exists (p :: pages), w'. rewrite drain_numbered_start, Hf, Hd.
  split; [reflexivity|]. cbn. by rewrite Hlen.
Qed.

Lemma X6_witness :
  exists pages w',
    drain (NumberedPage.next Examples.env MoreExamples.always_has_next None) 50
      (NumberedPage.get_page_generator 0) O
    = (pages, StillRunning, w')
    /\ length pages = 50%nat.
Proof.
  apply (X6_no_limit_on_pages nat Examples.env MoreExamples.always_has_next None 0 50 O).
  intros n w. by exists (NumberedPage.mk (PyList []) (PyInt n) PyNone PyNone (PyBool true)),
    (S w), (PyBool true).
Defined.

(** ** from_dict with a content type, to_dict *)

Lemma traverse_Forall2 {A B : Type} (f : A -> result B) (l : list A) (l' : list B) :
  traverse f l = Ok l' <-> Forall2 (fun x y => f x = Ok y) l l'.
Proof.
  revert l'. induction l as [|x l IH]; intros l'; cbn [traverse].
  - split; [intros [= <-]; constructor|]. intros H. by inversion H.
  - split.
    + destruct (f x) as [y|] eqn:Hx; [|discriminate]. cbn [mbind result_bind].
      destruct (traverse f l) as [ys|] eqn:Hl; [|discriminate].
      cbn [mbind result_bind]. intros [= <-]. constructor; [exact Hx|by apply IH].
    + intros H. inversion H as [|x' y l0 ys Hx Hl]; subst.
      rewrite Hx. cbn [mbind result_bind]. apply IH in Hl. rewrite Hl. reflexivity.
Qed.

Lemma traverse_first_failure {A B : Type} (f : A -> result B)
    (l1 : list A) (x : A) (l2 : list A) (l1' : list B) (e : exn) :
  traverse f l1 = Ok l1' -> f x = Raise e -> traverse f (l1 ++ x :: l2) = Raise e.
Proof.
  revert l1'. induction l1 as [|a l1 IH]; intros l1' H1 Hx; cbn [traverse app].
  - by rewrite Hx.
  - cbn [traverse] in H1. destruct (f a) as [b|]; [|discriminate].
    cbn [mbind result_bind] in H1 |- *.
    destruct (traverse f l1) as [bs|] eqn:Hl1; [|discriminate].
    by rewrite (IH bs eq_refl Hx).
Qed.

Lemma traverse_call_from_dict (name : string) (is_model : bool)
    (cls_from_dict : pyvalue -> result pyvalue) (l : list pyvalue) :
  traverse (call_from_dict (PyClass name is_model cls_from_dict)) l
  = traverse cls_from_dict l.
Proof. induction l as [|x l IH]; [reflexivity|]. cbn. by rewrite IH. Qed.

(** X7.  [from_dict] with a [content_type] that is a subclass of
    [ModelBase], on a body whose [items] is a list: the page has one item
    per raw item, in the same order, each the result of
    [content_type.from_dict], and the metadata are the values of the body
    (a missing key gives [None]); when the conversion of an item raises,
    [from_dict] raises that exception and returns no page.  The same holds
    for [NumberedPage] and [CursorPage]. *)
Theorem X7_from_dict_converts_items_in_order (page : gmap string pyvalue)
    (name : string) (cls_from_dict : pyvalue -> result pyvalue) (l : list pyvalue) :
  page !! "items" = Some (PyList l) ->
  (forall l', Forall2 (fun x y => cls_from_dict x = Ok y) l l' <->
     NumberedPage.from_dict page (Some (PyClass name true cls_from_dict))
     = Ok (NumberedPage.mk (PyList l') (dict_get page "pageNumber")
             (dict_get page "pageSize") (dict_get page "totalElements")
             (dict_get page "hasNext")))
  /\ (forall l', Forall2 (fun x y => cls_from_dict x = Ok y) l l' <->
        CursorPage.from_dict page (Some (PyClass name true cls_from_dict))
        = Ok (CursorPage.mk (PyList l') (dict_get page "responseMetadata")))
  /\ (forall l1 x l2 l1' e,
        l = l1 ++ x :: l2 ->
        Forall2 (fun x y => cls_from_dict x = Ok y) l1 l1' ->
        cls_from_dict x = Raise e ->
        NumberedPage.from_dict page (Some (PyClass name true cls_from_dict)) = Raise e
        /\ CursorPage.from_dict page (Some (PyClass name true cls_from_dict)) = Raise e).
Proof.
  intros Hitems.
  assert (dict_get page "items" = PyList l) as Hget by (unfold dict_get; by rewrite Hitems).
  split; [|split].
  - intros l'. rewrite <- traverse_Forall2.
    unfold NumberedPage.from_dict, NumberedPage.__init__, Page.__init__.
    rewrite Hget. cbn. rewrite traverse_call_from_dict.
    destruct (traverse cls_from_dict l) as [ys|e]; cbn; split; congruence.
  - intros l'. rewrite <- traverse_Forall2.
    unfold CursorPage.from_dict, CursorPage.__init__, Page.__init__.
    rewrite Hget. cbn. rewrite traverse_call_from_dict.
    destruct (traverse cls_from_dict l) as [ys|e]; cbn; split; congruence.
  - intros l1 x l2 l1' e -> H1 Hx. apply traverse_Forall2 in H1.
    unfold NumberedPage.from_dict, NumberedPage.__init__,
      CursorPage.from_dict, CursorPage.__init__, Page.__init__.
    rewrite Hget. cbn. rewrite traverse_call_from_dict.
    by rewrite (traverse_first_failure cls_from_dict l1 x l2 l1' e H1 Hx).
Qed.

Lemma X7_witness :
  NumberedPage.from_dict MoreExamples.sources_body
    (Some MoreExamples.class_IntelligenceSource)
  = Ok (NumberedPage.mk
          (PyList [IntelligenceSource.__init__ (PyStr "virustotal") (PyStr "VirusTotal")])
          (PyInt 0) PyNone (PyInt 1) PyNone).
Proof.
  destruct (X7_from_dict_converts_items_in_order MoreExamples.sources_body
              "IntelligenceSource" IntelligenceSource.from_dict
              [MoreExamples.raw_source]) as [H _]; [reflexivity|].
  apply (H [IntelligenceSource.__init__ (PyStr "virustotal") (PyStr "VirusTotal")]).
  repeat constructor.
Defined.

(** X8.  The dictionary [to_dict] returns has exactly the keys of the wire
    format ([items], [pageNumber], [pageSize], [totalElements], [hasNext]
    for a [NumberedPage]; [items], [responseMetadata] for a [CursorPage]),
    each metadata key with the value of the page, [None] included:
    [remove_nones] is handed to the items and does not remove a metadata
    key. *)
Theorem X8_to_dict_keys (E : pyenv) (remove_nones : bool)
    (p : NumberedPage.t) (q : CursorPage.t) (dp dq : gmap string pyvalue) :
  NumberedPage.to_dict E remove_nones p = Ok dp ->
  CursorPage.to_dict E remove_nones q = Ok dq ->
  (dom dp = {[ "items"; "pageNumber"; "pageSize"; "totalElements"; "hasNext" ]}
   /\ dp !! "pageNumber" = Some (NumberedPage.page_number p)
   /\ dp !! "pageSize" = Some (NumberedPage.page_size p)
   /\ dp !! "totalElements" = Some (NumberedPage.total_elements p)
   /\ dp !! "hasNext" = Some (NumberedPage.has_next p))
  /\ (dom dq = {[ "items"; "responseMetadata" ]}
      /\ dq !! "responseMetadata" = Some (CursorPage.response_metadata q)).
Proof.
  unfold NumberedPage.to_dict, CursorPage.to_dict. intros Hp Hq.
  destruct (py_iter (NumberedPage.items p)) as [l|]; [|discriminate].
  cbn [mbind result_bind] in Hp.
  destruct (traverse _ l) as [l'|]; [|discriminate].
  cbn [mbind result_bind] in Hp. injection Hp as <-.
  destruct (py_iter (CursorPage.items q)) as [m|]; [|discriminate].
  cbn [mbind result_bind] in Hq.
  destruct (traverse _ m) as [m'|]; [|discriminate].
  cbn [mbind result_bind] in Hq. injection Hq as <-.
  split.
  - split; [rewrite !dom_insert_L, dom_empty_L; set_solver|].
    repeat split;
      repeat (rewrite ?lookup_insert_eq; rewrite ?lookup_insert_ne by discriminate);
      reflexivity.
  - split; [rewrite !dom_insert_L, dom_empty_L; set_solver|].
    repeat (rewrite ?lookup_insert_eq; rewrite ?lookup_insert_ne by discriminate).
    reflexivity.
Qed.

(** A first page that knows neither its size nor the total: the keys are
    there, with [None]. *)
Lemma X8_witness :
  exists dp dq : gmap string pyvalue,
    NumberedPage.to_dict Examples.env true
      (NumberedPage.mk (PyList []) (PyInt 0) PyNone PyNone PyNone) = Ok dp
    /\ dp !! "pageSize" = Some PyNone
    /\ dom dq = {[ "items"; "responseMetadata" ]}.
Proof.
  edestruct (X8_to_dict_keys Examples.env true
               (NumberedPage.mk (PyList []) (PyInt 0) PyNone PyNone PyNone)
               (CursorPage.mk (PyList []) PyNone))
    as [(_ & _ & Hsize & _) (Hdom & _)]; [reflexivity | reflexivity |].
  eexists _, _. split; [reflexivity|]. split; [exact Hsize | exact Hdom].
Defined.

Lemma traverse_inverse {A B : Type} (g : A -> result B) (f : B -> result A) (l : list A) :
  (forall x, x ∈ l -> exists d, g x = Ok d /\ f d = Ok x) ->
  exists l', traverse g l = Ok l' /\ traverse f l' = Ok l.
Proof.
  induction l as [|x l IH]; intros H; [by exists []|].
  destruct (H x) as (d & Hg & Hf); [by left|].
  destruct IH as (l' & Hl & Hl'); [intros y Hy; apply H; by right|].
  exists (d :: l'). cbn [traverse]. by rewrite Hg, Hl, Hf, Hl'.
Qed.

(** X9.  Round trip through the content type: when every item of a page has
    a dictionary form from which [content_type.from_dict] rebuilds the item,
    [from_dict(to_dict(p), content_type)] is [p] itself, items and metadata,
    for a [NumberedPage] and for a [CursorPage]. *)
Theorem X9_round_trip_with_content_type (E : pyenv) (remove_nones : bool)
    (p : NumberedPage.t) (q : CursorPage.t) (l m : list pyvalue)
    (name : string) (cls_from_dict : pyvalue -> result pyvalue) :
  NumberedPage.items p = PyList l ->
  CursorPage.items q = PyList m ->
  (forall x, x ∈ l ->
     exists d, NumberedPage.item_to_dict E remove_nones x = Ok d /\ cls_from_dict d = Ok x) ->
  (forall x, x ∈ m ->
     exists d, call_to_dict E remove_nones x = Ok d /\ cls_from_dict d = Ok x) ->
  (exists dp, NumberedPage.to_dict E remove_nones p = Ok dp
              /\ NumberedPage.from_dict dp (Some (PyClass name true cls_from_dict)) = Ok p)
  /\ (exists dq, CursorPage.to_dict E remove_nones q = Ok dq
                 /\ CursorPage.from_dict dq (Some (PyClass name true cls_from_dict)) = Ok q).
Proof.
  intros Hp Hq Hl Hm.
  destruct (traverse_inverse _ _ l Hl) as (l' & Hl1 & Hl2).
  destruct (traverse_inverse _ _ m Hm) as (m' & Hm1 & Hm2).
  split.
  - eexists. unfold NumberedPage.to_dict. rewrite Hp. cbn [py_iter mbind result_bind].
    rewrite Hl1. cbn [mbind result_bind]. split; [reflexivity|].
    unfold NumberedPage.from_dict, NumberedPage.__init__, Page.__init__, dict_get.
    repeat (rewrite ?lookup_insert_eq; rewrite ?lookup_insert_ne by discriminate).
    cbn. rewrite traverse_call_from_dict, Hl2. cbn.
    destruct p. cbn in *. by rewrite Hp.
  - eexists. unfold CursorPage.to_dict. rewrite Hq. cbn [py_iter mbind result_bind].
    rewrite Hm1. cbn [mbind result_bind]. split; [reflexivity|].
    unfold CursorPage.from_dict, CursorPage.__init__, Page.__init__, dict_get.
    repeat (rewrite ?lookup_insert_eq; rewrite ?lookup_insert_ne by discriminate).
    cbn. rewrite traverse_call_from_dict, Hm2. cbn.
    destruct q. cbn in *. by rewrite Hq.
Qed.

Lemma X9_witness :
  (exists dp,
      NumberedPage.to_dict MoreExamples.models_env false MoreExamples.page_of_sources = Ok dp
      /\ NumberedPage.from_dict dp (Some MoreExamples.class_IntelligenceSource)
         = Ok MoreExamples.page_of_sources)
  /\ (exists dq,
        CursorPage.to_dict MoreExamples.models_env false MoreExamples.cursor_page_of_sources
        = Ok dq
        /\ CursorPage.from_dict dq (Some MoreExamples.class_IntelligenceSource)
           = Ok MoreExamples.cursor_page_of_sources).
Proof.
  apply (X9_round_trip_with_content_type MoreExamples.models_env false
           MoreExamples.page_of_sources MoreExamples.cursor_page_of_sources
           [IntelligenceSource.__init__ (PyStr "virustotal") (PyStr "VirusTotal")]
           [IntelligenceSource.__init__ (PyStr "virustotal") (PyStr "VirusTotal")]
           "IntelligenceSource" IntelligenceSource.from_dict);
    try reflexivity.
  - intros x Hx. apply list_elem_of_singleton in Hx. subst x. eexists. split; reflexivity.
  - intros x Hx. apply list_elem_of_singleton in Hx. subst x. eexists. split; reflexivity.
Defined.

(** X10.  Decoding then encoding a raw body: for a body whose [items] is a
    list of raw values, [to_dict(from_dict(body))] has the five keys of the
    wire format with the values of the body, a key the body lacks with
    [None]; it is the body itself when the body has exactly these keys. *)
Theorem X10_to_dict_of_from_dict (E : pyenv) (remove_nones : bool)
    (body : gmap string pyvalue) (l : list pyvalue) :
  body !! "items" = Some (PyList l) ->
  Forall (fun item => to_dict_method E item = None) l ->
  exists p,
    NumberedPage.from_dict body None = Ok p
    /\ NumberedPage.to_dict E remove_nones p
       = Ok (<["items" := PyList l]>
            (<["pageNumber" := dict_get body "pageNumber"]>
            (<["pageSize" := dict_get body "pageSize"]>
            (<["totalElements" := dict_get body "totalElements"]>
            (<["hasNext" := dict_get body "hasNext"]> ∅)))))
    /\ (dom body = {[ "items"; "pageNumber"; "pageSize"; "totalElements"; "hasNext" ]} ->
        NumberedPage.to_dict E remove_nones p = Ok body).
Proof.
  intros Hitems Hraw.
  assert (dict_get body "items" = PyList l) as Hget by (unfold dict_get; by rewrite Hitems).
  eexists. split; [reflexivity|].
  assert (NumberedPage.to_dict E remove_nones
            (NumberedPage.__init__ (dict_get body "items") (dict_get body "pageNumber")
               (dict_get body "pageSize") (dict_get body "totalElements")
               (dict_get body "hasNext"))
          = Ok (<["items" := PyList l]>
               (<["pageNumber" := dict_get body "pageNumber"]>
               (<["pageSize" := dict_get body "pageSize"]>
               (<["totalElements" := dict_get body "totalElements"]>
               (<["hasNext" := dict_get body "hasNext"]> ∅)))))) as Hto.
  { unfold NumberedPage.to_dict, NumberedPage.__init__, Page.__init__.
    rewrite Hget. cbn.
    rewrite traverse_id_on_raw; [reflexivity|].
    eapply Forall_impl; [exact Hraw|]. intros x Hx.
    unfold NumberedPage.item_to_dict. by rewrite Hx. }
  split; [exact Hto|].
  intros Hdom. rewrite Hto. f_equal. apply map_eq. intros k.
  assert (forall key, key ∈ dom body -> body !! key = Some (dict_get body key)) as Hin.
  { intros key Hkey. apply elem_of_dom in Hkey as [v Hv]. unfold dict_get. by rewrite Hv. }
  destruct (decide (k = "items")) as [->|H1];
    [by rewrite lookup_insert_eq, Hitems|rewrite lookup_insert_ne by done].
  destruct (decide (k = "pageNumber")) as [->|H2];
    [rewrite lookup_insert_eq, Hin; [done|rewrite Hdom; set_solver]
    |rewrite lookup_insert_ne by done].
  destruct (decide (k = "pageSize")) as [->|H3];
    [rewrite lookup_insert_eq, Hin; [done|rewrite Hdom; set_solver]
    |rewrite lookup_insert_ne by done].
  destruct (decide (k = "totalElements")) as [->|H4];
    [rewrite lookup_insert_eq, Hin; [done|rewrite Hdom; set_solver]
    |rewrite lookup_insert_ne by done].
  destruct (decide (k = "hasNext")) as [->|H5];
    [rewrite lookup_insert_eq, Hin; [done|rewrite Hdom; set_solver]
    |rewrite lookup_insert_ne by done].
  rewrite lookup_empty. symmetry. apply not_elem_of_dom.
  rewrite Hdom, !elem_of_union, !elem_of_singleton. tauto.
Qed.

(** The body of the examples has its five keys: it comes back as it is. *)
Lemma X10_witness :
  exists p,
    NumberedPage.from_dict Examples.raw_page None = Ok p
    /\ NumberedPage.to_dict Examples.env false p = Ok Examples.raw_page.
Proof.
  destruct (X10_to_dict_of_from_dict Examples.env false Examples.raw_page
              [PyDict (<["id" := PyStr "r1"]> ∅)]) as (p & Hfrom & _ & Hsame).
  - reflexivity.
  - repeat constructor.
  - exists p. split; [exact Hfrom|]. apply Hsame.
    unfold Examples.raw_page. rewrite !dom_insert_L, dom_empty_L. set_solver.
Defined.

(** ** CursorPage *)

(** X11.  A cursor page whose first item has no [to_dict] (a page decoded
    without a content type, with at least one item) cannot be serialised:
    [to_dict] raises [AttributeError], so does [get_next_cursor], and a
    generator that fetches such a page fails with [AttributeError] at that
    resumption without yielding the page. *)
Theorem X11_cursor_page_of_raw_items (E : pyenv) (q : CursorPage.t)
    (x : pyvalue) (l : list pyvalue) :
  CursorPage.items q = PyList (x :: l) ->
  to_dict_method E x = None ->
  (forall remove_nones, CursorPage.to_dict E remove_nones q = Raise AttributeError)
  /\ CursorPage.get_next_cursor E q = Raise AttributeError
  /\ forall (W : Type) (get_page : pyvalue -> W -> result CursorPage.t * W)
       (cursor : pyvalue) (w w' : W) (fuel : nat),
       get_page cursor w = (Ok q, w') ->
       drain (CursorPage.next E get_page) (S fuel)
         (CursorPage.get_cursor_based_page_generator cursor) w
       = ([], Failed AttributeError, w').
Proof.
  intros Hitems Hx.
  assert (forall rn, CursorPage.to_dict E rn q = Raise AttributeError) as Hto.
  { intros rn. unfold CursorPage.to_dict. rewrite Hitems. cbn [py_iter mbind result_bind].
    cbn [traverse]. unfold call_to_dict. rewrite Hx. reflexivity. }
  assert (CursorPage.get_next_cursor E q = Raise AttributeError) as Hnext.
  { unfold CursorPage.get_next_cursor. by rewrite Hto. }
  split; [exact Hto|]. split; [exact Hnext|].
  intros W get_page cursor w w' fuel Hf. rewrite drain_S.
  cbn [CursorPage.next CursorPage.get_cursor_based_page_generator negb].
  by rewrite Hf, Hnext.
Qed.

Lemma X11_witness :
  drain (CursorPage.next MoreExamples.models_env MoreExamples.raw_cursor_pages) 3
    (CursorPage.get_cursor_based_page_generator PyNone) O
  = ([], Failed AttributeError, 1%nat).
Proof.
  destruct (X11_cursor_page_of_raw_items MoreExamples.models_env
              (CursorPage.mk (PyList [MoreExamples.raw_source])
                 (PyDict (<["nextCursor" := PyStr ""]> ∅)))
              MoreExamples.raw_source []) as (_ & _ & H); [reflexivity | reflexivity |].
  apply (H nat MoreExamples.raw_cursor_pages PyNone O 1%nat 2%nat). reflexivity.
Defined.

Lemma cursor_drain_step {W : Type} (E : pyenv)
    (get_page : pyvalue -> W -> result CursorPage.t * W)
    (cursor : pyvalue) (fuel : nat) (w : W) :
  drain (CursorPage.next E get_page) (S fuel)
    (CursorPage.get_cursor_based_page_generator cursor) w
  = match get_page cursor w with
    | (Ok page, w1) =>
        match CursorPage.get_next_cursor E page with
        | Ok cursor' =>
            let '(ys, e, w2) :=
              drain (CursorPage.next E get_page) fuel
                (CursorPage.AtLoopTest cursor' (negb (py_truthy cursor'))) w1 in
            (page :: ys, e, w2)
        | Raise x => ([], Failed x, w1)
        end
    | (Raise x, w1) => ([], Failed x, w1)
    end.
Proof.
  rewrite drain_S.
  cbn [CursorPage.next CursorPage.get_cursor_based_page_generator negb].
  destruct (get_page cursor w) as [[page|x] w1]; [|reflexivity].
  by destruct (CursorPage.get_next_cursor E page).
Qed.

(** X12.  [get_cursor_based_page_generator] yields the chain of pages
    linked by their cursors and nothing else: it is exhausted after
    yielding [pages] exactly when [pages] is the chain that starts at the
    initial cursor, every page fetched with the cursor extracted from the
    page before it, up to and including the first page whose cursor is
    false. *)
Theorem X12_cursor_generator_follows_chain (W : Type) (E : pyenv)
    (get_page : pyvalue -> W -> result CursorPage.t * W)
    (cursor : pyvalue) (w w' : W) (pages : list CursorPage.t) :
  cursor_chain E get_page cursor w pages w' <->
  exists fuel,
    drain (CursorPage.next E get_page) fuel
      (CursorPage.get_cursor_based_page_generator cursor) w
    = (pages, Exhausted, w').
Proof.
  split.
  - induction 1 as [c w p w' c' Hf Hc Hv | c w p w1 c' ps w' Hf Hc Hv _ [fuel IH]].
    + exists 2%nat. rewrite cursor_drain_step, Hf, Hc, Hv. reflexivity.
    + exists (S fuel). rewrite cursor_drain_step, Hf, Hc, Hv.
      change (CursorPage.AtLoopTest c' (negb true))
        with (@CursorPage.get_cursor_based_page_generator c').
      by rewrite IH.
  - intros [fuel Hrun]. revert cursor w pages Hrun.
    induction fuel as [|fuel IH]; intros c w pages Hrun; [discriminate|].
    rewrite cursor_drain_step in Hrun.
    destruct (get_page c w) as [[p|x] w1] eqn:Hf; [|discriminate].
    destruct (CursorPage.get_next_cursor E p) as [c'|x] eqn:Hc; [|discriminate].
    destruct (py_truthy c') eqn:Hv.
    + destruct (drain _ fuel _ w1) as [[ys e] w2] eqn:Hd.
      injection Hrun as <- -> <-.
      eapply chain_next; [exact Hf|exact Hc|exact Hv|]. by apply IH.
    + destruct fuel as [|fuel]; [discriminate|].
      rewrite drain_S in Hrun. cbn in Hrun. injection Hrun as <- <-.
      by eapply chain_last.
Qed.

Lemma X12_witness :
  exists fuel,
    drain (CursorPage.next Examples.env Examples.two_pages) fuel
      (CursorPage.get_cursor_based_page_generator PyNone) O
    = ([Examples.cursor_page (PyStr "abc"); Examples.cursor_page (PyStr "")],
       Exhausted, 2%nat).
Proof.
  apply (proj1 (X12_cursor_generator_follows_chain nat Examples.env Examples.two_pages
                  PyNone O 2%nat _)).
  eapply (chain_next _ _ PyNone O _ 1%nat (PyStr "abc")); try reflexivity.
  eapply (chain_last _ _ (PyStr "abc") 1%nat _ 2%nat (PyStr "")); reflexivity.
Defined.

(** ** get_next_to_time *)

(** X13.  On a non-empty page [get_next_to_time] reads the last item only
    and ignores the current [to_time]: the result is that item's [updated]
    minus one.  It raises [AttributeError] when the last item is not an
    object (a page decoded without a content type), and [TypeError] when
    the last report has [updated = None]. *)
Theorem X13_next_to_time_reads_last_item (page : NumberedPage.t)
    (l : list pyvalue) (x : pyvalue) (to_time : Z) :
  NumberedPage.items page = PyList (l ++ [x]) ->
  ReportClient.get_next_to_time page to_time = (u ← updated_time x; Ok (u - 1))
  /\ ((forall cls attrs, x <> PyObj cls attrs) ->
      ReportClient.get_next_to_time page to_time = Raise AttributeError)
  /\ (forall cls attrs,
        x = PyObj cls attrs -> attrs !! "updated" = Some PyNone ->
        ReportClient.get_next_to_time page to_time = Raise TypeError).
Proof.
  intros Hitems.
  assert (ReportClient.get_next_to_time page to_time = (u ← updated_time x; Ok (u - 1)))
    as Heq.
  { unfold ReportClient.get_next_to_time. rewrite Hitems.
    cbn [py_len py_last mbind result_bind]. rewrite length_app, last_snoc.
    cbn [length]. replace (0 <? length l + 1)%nat with true
      by (symmetry; apply Nat.ltb_lt; lia).
    cbn [mbind result_bind]. unfold updated_time.
    destruct (py_getattr x "updated") as [v|]; [|reflexivity].
    cbn [mbind result_bind]. by destruct (py_int_operand v). }
  split; [exact Heq|]. split.
  - intros Hraw. rewrite Heq. unfold updated_time.
    destruct x; try reflexivity. by destruct (Hraw cls attrs).
  - intros cls attrs -> Hupd. rewrite Heq. unfold updated_time. cbn. by rewrite Hupd.
Qed.

Lemma X13_witness :
  ReportClient.get_next_to_time
    (NumberedPage.mk (PyList ([Examples.report "a" 3000] ++ [Examples.report "b" 4500]))
       PyNone PyNone PyNone PyNone) 10
  = (u ← updated_time (Examples.report "b" 4500); Ok (u - 1)).
Proof.
  apply (X13_next_to_time_reads_last_item
           (NumberedPage.mk (PyList ([Examples.report "a" 3000] ++ [Examples.report "b" 4500]))
              PyNone PyNone PyNone PyNone)
           [Examples.report "a" 3000] (Examples.report "b" 4500) 10).
  reflexivity.
Defined.

(** ** The model classes *)

(** X14.  [from_dict] inverts [to_dict] on the objects of [RedactedReport]
    (without [remove_nones]), [IntelligenceSource], [IndicatorScore] and
    [IndicatorAttribute] (with either value of [remove_nones]): the
    dictionary carries every attribute under its wire name, [None]
    included, since the [to_dict] of the last three classes ignores
    [remove_nones]. *)
Theorem X14_simple_models_round_trip
    (ModelBase_to_dict : gmap string pyvalue -> result (gmap string pyvalue))
    (remove_nones : bool) (a b c d : pyvalue) :
  (RedactedReport.to_dict ModelBase_to_dict false (self_of (RedactedReport.__init__ a b))
   = Ok (PyDict (<["title" := a]> (<["reportBody" := b]> ∅)))
   /\ RedactedReport.from_dict (PyDict (<["title" := a]> (<["reportBody" := b]> ∅)))
      = Ok (RedactedReport.__init__ a b))
  /\ (IntelligenceSource.to_dict remove_nones (self_of (IntelligenceSource.__init__ a b))
      = Ok (PyDict (<["key" := a]> (<["name" := b]> ∅)))
      /\ IntelligenceSource.from_dict (PyDict (<["key" := a]> (<["name" := b]> ∅)))
         = Ok (IntelligenceSource.__init__ a b))
  /\ (IndicatorScore.to_dict remove_nones (self_of (IndicatorScore.__init__ a b))
      = Ok (PyDict (<["name" := a]> (<["value" := b]> ∅)))
      /\ IndicatorScore.from_dict (PyDict (<["name" := a]> (<["value" := b]> ∅)))
         = Ok (IndicatorScore.__init__ a b))
  /\ (IndicatorAttribute.to_dict remove_nones (self_of (IndicatorAttribute.__init__ a b c d))
      = Ok (PyDict (<["name" := a]> (<["value" := b]>
                   (<["logicalType" := c]> (<["description" := d]> ∅)))))
      /\ IndicatorAttribute.from_dict
           (PyDict (<["name" := a]> (<["value" := b]>
                   (<["logicalType" := c]> (<["description" := d]> ∅)))))
         = Ok (IndicatorAttribute.__init__ a b c d)).
Proof. repeat split. Qed.

(** X15.  Decoding then encoding: [to_dict(from_dict(body))] of these four
    classes keeps exactly the keys of the class, each with the value of the
    body, a key the body lacks with [None] and any other key of the body
    dropped; [from_dict] of a value that is not a dictionary raises
    [AttributeError]. *)
Theorem X15_simple_models_normalise_body
    (ModelBase_to_dict : gmap string pyvalue -> result (gmap string pyvalue))
    (remove_nones : bool) (body : gmap string pyvalue) (v : pyvalue) :
  (obj ← RedactedReport.from_dict (PyDict body);
   RedactedReport.to_dict ModelBase_to_dict false (self_of obj))
  = Ok (PyDict (<["title" := dict_get body "title"]>
               (<["reportBody" := dict_get body "reportBody"]> ∅)))
  /\ (obj ← IntelligenceSource.from_dict (PyDict body);
      IntelligenceSource.to_dict remove_nones (self_of obj))
     = Ok (PyDict (<["key" := dict_get body "key"]>
                  (<["name" := dict_get body "name"]> ∅)))
  /\ (obj ← IndicatorScore.from_dict (PyDict body);
      IndicatorScore.to_dict remove_nones (self_of obj))
     = Ok (PyDict (<["name" := dict_get body "name"]>
                  (<["value" := dict_get body "value"]> ∅)))
  /\ (obj ← IndicatorAttribute.from_dict (PyDict body);
      IndicatorAttribute.to_dict remove_nones (self_of obj))
     = Ok (PyDict (<["name" := dict_get body "name"]>
                  (<["value" := dict_get body "value"]>
                  (<["logicalType" := dict_get body "logicalType"]>
                  (<["description" := dict_get body "description"]> ∅)))))
  /\ ((forall d, v <> PyDict d) ->
      RedactedReport.from_dict v = Raise AttributeError
      /\ IntelligenceSource.from_dict v = Raise AttributeError
      /\ IndicatorScore.from_dict v = Raise AttributeError
      /\ IndicatorAttribute.from_dict v = Raise AttributeError).
Proof.
  split; [reflexivity|]. split; [reflexivity|]. split; [reflexivity|].
  split; [reflexivity|].
  intros Hv. destruct v; try (repeat split; reflexivity). by destruct (Hv d).
Qed.

Lemma X15_witness :
  RedactedReport.from_dict PyNone = Raise AttributeError
  /\ IntelligenceSource.from_dict PyNone = Raise AttributeError
  /\ IndicatorScore.from_dict PyNone = Raise AttributeError
  /\ IndicatorAttribute.from_dict PyNone = Raise AttributeError.
Proof.
  destruct (X15_simple_models_normalise_body (fun _ => Raise AttributeError) false ∅ PyNone)
    as (_ & _ & _ & _ & H).
  apply H. discriminate.
Defined.

(** ** IndicatorSummary *)

Lemma summary_to_dict_init (E : pyenv)
    (ModelBase_to_dict : gmap string pyvalue -> result (gmap string pyvalue))
    (value indicator_type report_id enclave_id source score created updated
       description attributes severity_level : pyvalue) :
  IndicatorSummary.to_dict E ModelBase_to_dict false
    (self_of (IndicatorSummary.__init__ value indicator_type report_id enclave_id
                source score created updated description attributes severity_level))
  = (source' ← (if negb (is_None source) then call_to_dict E false source else Ok PyNone);
     score' ← (if negb (is_None score) then call_to_dict E false score else Ok PyNone);
     attributes' ← (if negb (is_None attributes) then
                      its ← py_iter attributes;
                      ds ← traverse (call_to_dict E false) its;
                      Ok (PyList ds)
                    else Ok PyNone);
     Ok (PyDict (<["value" := value]>
                (<["type" := indicator_type]>
                (<["reportId" := report_id]>
                (<["enclaveId" := enclave_id]>
                (<["source" := source']>
                (<["score" := score']>
                (<["created" := created]>
                (<["updated" := updated]>
                (<["description" := description]>
                (<["attributes" := attributes']>
                (<["severityLevel" := severity_level]> ∅))))))))))))).
Proof. reflexivity. Qed.

Lemma summary_from_dict_body
    (value indicator_type report_id enclave_id source score created updated
       description attributes severity_level : pyvalue) :
  IndicatorSummary.from_dict
    (PyDict (<["value" := value]>
            (<["type" := indicator_type]>
            (<["reportId" := report_id]>
            (<["enclaveId" := enclave_id]>
            (<["source" := source]>
            (<["score" := score]>
            (<["created" := created]>
            (<["updated" := updated]>
            (<["description" := description]>
            (<["attributes" := attributes]>
            (<["severityLevel" := severity_level]> ∅))))))))))))
  = (its ← py_iter attributes;
     attributes' ← traverse IndicatorAttribute.from_dict its;
     source' ← (if py_truthy source then IntelligenceSource.from_dict source
                else Ok source);
     score' ← (if py_truthy score then IndicatorScore.from_dict score else Ok score);
     Ok (IndicatorSummary.__init__ value indicator_type report_id enclave_id
           source' score' created updated description (PyList attributes')
           severity_level)).
Proof.
  unfold IndicatorSummary.from_dict. cbn [call_get_default call_get mbind result_bind].
  unfold dict_get.
  repeat (rewrite ?lookup_insert_eq; rewrite ?lookup_insert_ne by discriminate).
  cbn [from_option id mbind result_bind].
  destruct (py_iter attributes) as [its|]; [|reflexivity]. cbn [mbind result_bind].
  destruct (traverse IndicatorAttribute.from_dict its); [|reflexivity].
  cbn [mbind result_bind].
  destruct (py_truthy source), (py_truthy score); cbn [mbind result_bind];
    try destruct (IntelligenceSource.from_dict source);
    try destruct (IndicatorScore.from_dict score); reflexivity.
Qed.

(** X16.  Round trip of an indicator summary: for a summary whose [source]
    is [None] or an [IntelligenceSource], whose [score] is [None] or an
    [IndicatorScore] and whose [attributes] is a list of
    [IndicatorAttribute] objects, [from_dict(to_dict(s))] is [s]. *)
Theorem X16_indicator_summary_round_trip (E : pyenv)
    (ModelBase_to_dict : gmap string pyvalue -> result (gmap string pyvalue))
    (value indicator_type report_id enclave_id source score created updated
       description severity_level : pyvalue) (attributes : list pyvalue) :
  knows_indicator_classes E ->
  (source = PyNone \/ exists k n, source = IntelligenceSource.__init__ k n) ->
  (score = PyNone \/ exists n v, score = IndicatorScore.__init__ n v) ->
  Forall (fun a => exists n v t d, a = IndicatorAttribute.__init__ n v t d) attributes ->
  exists body,
    IndicatorSummary.to_dict E ModelBase_to_dict false
      (self_of (IndicatorSummary.__init__ value indicator_type report_id enclave_id
                  source score created updated description (PyList attributes)
                  severity_level))
    = Ok body
    /\ IndicatorSummary.from_dict body
       = Ok (IndicatorSummary.__init__ value indicator_type report_id enclave_id
               source score created updated description (PyList attributes)
               severity_level).
Proof.
  intros (Hsrc & Hscore & Hattr) Hsource Hsc Hall.
  assert (exists sd, (if negb (is_None source) then call_to_dict E false source
                      else Ok PyNone) = Ok sd
                     /\ (if py_truthy sd then IntelligenceSource.from_dict sd else Ok sd)
                        = Ok source) as (sd & Hsd1 & Hsd2).
  { destruct Hsource as [->|(k & n & ->)].
    - by exists PyNone.
    - eexists. unfold call_to_dict, to_dict_method, IntelligenceSource.__init__.
      rewrite Hsrc. split; reflexivity. }
  assert (exists cd, (if negb (is_None score) then call_to_dict E false score
                      else Ok PyNone) = Ok cd
                     /\ (if py_truthy cd then IndicatorScore.from_dict cd else Ok cd)
                        = Ok score) as (cd & Hcd1 & Hcd2).
  { destruct Hsc as [->|(n & v & ->)].
    - by exists PyNone.
    - eexists. unfold call_to_dict, to_dict_method, IndicatorScore.__init__.
      rewrite Hscore. split; reflexivity. }
  destruct (traverse_inverse (call_to_dict E false) IndicatorAttribute.from_dict attributes)
    as (ds & Hds1 & Hds2).
  { intros a Ha. rewrite Forall_forall in Hall.
    destruct (Hall a Ha) as (n & v & t & d & ->).
    eexists. unfold call_to_dict, to_dict_method, IndicatorAttribute.__init__.
    rewrite Hattr. split; reflexivity. }
  eexists. rewrite summary_to_dict_init, Hsd1, Hcd1.
  cbn [is_None negb py_iter mbind result_bind]. rewrite Hds1.
  cbn [mbind result_bind]. split; [reflexivity|].
  rewrite summary_from_dict_body. cbn [py_iter mbind result_bind].
  rewrite Hds2, Hsd2, Hcd2. reflexivity.
Qed.

Lemma models_env_knows : knows_indicator_classes MoreExamples.models_env.
Proof. repeat split. Qed.

Lemma X16_witness :
  exists body,
    IndicatorSummary.to_dict MoreExamples.models_env (fun _ => Raise AttributeError) false
      (self_of MoreExamples.summary) = Ok body
    /\ IndicatorSummary.from_dict body = Ok MoreExamples.summary.
Proof.
  apply (X16_indicator_summary_round_trip MoreExamples.models_env
           (fun _ => Raise AttributeError)
           (PyStr "evil.com") (PyStr "URL") (PyStr "r1") (PyStr "e1")
           (IntelligenceSource.__init__ (PyStr "virustotal") (PyStr "VirusTotal"))
           PyNone (PyInt 1000) (PyInt 2000) PyNone (PyInt 3)
           [IndicatorAttribute.__init__ (PyStr "Actors") (PyStr "unknown") PyNone PyNone]).
  - exact models_env_knows.
  - right. by eexists _, _.
  - by left.
  - repeat constructor. by eexists _, _, _, _.
Defined.

Lemma summary_from_dict_inv (body : gmap string pyvalue) (obj : pyvalue) :
  IndicatorSummary.from_dict (PyDict body) = Ok obj ->
  exists attributes source score,
    obj = IndicatorSummary.__init__ (dict_get body "value") (dict_get body "type")
            (dict_get body "reportId") (dict_get body "enclaveId") source score
            (dict_get body "created") (dict_get body "updated")
            (dict_get body "description") (PyList attributes)
            (dict_get body "severityLevel")
    /\ (body !! "attributes" = None -> attributes = [])
    /\ (py_truthy (dict_get body "source") = false -> source = dict_get body "source")
    /\ (py_truthy (dict_get body "score") = false -> score = dict_get body "score").
Proof.
  unfold IndicatorSummary.from_dict. cbn [call_get_default call_get mbind result_bind].
  intros H.
  destruct (py_iter _) as [its|] eqn:Hits; [|discriminate]. cbn [mbind result_bind] in H.
  destruct (traverse IndicatorAttribute.from_dict its) as [attrs|] eqn:Ha; [|discriminate].
  cbn [mbind result_bind] in H.
  destruct (py_truthy (dict_get body "source")) eqn:Hs.
  - cbn [mbind result_bind] in H.
    destruct (IntelligenceSource.from_dict (dict_get body "source")) as [src|];
      [|discriminate].
    cbn [mbind result_bind] in H.
    destruct (py_truthy (dict_get body "score")) eqn:Hc.
    + cbn [mbind result_bind] in H.
      destruct (IndicatorScore.from_dict (dict_get body "score")) as [sc|]; [|discriminate].
      cbn [mbind result_bind] in H. injection H as <-.
      exists attrs, src, sc. split; [reflexivity|]. split; [|split; discriminate].
      intros Hnone. rewrite Hnone in Hits. cbn in Hits. injection Hits as <-.
      cbn in Ha. by injection Ha as <-.
    + cbn [mbind result_bind] in H. injection H as <-.
      exists attrs, src, (dict_get body "score").
      split; [reflexivity|]. split; [|split; [discriminate|done]].
      intros Hnone. rewrite Hnone in Hits. cbn in Hits. injection Hits as <-.
      cbn in Ha. by injection Ha as <-.
  - cbn [mbind result_bind] in H.
    destruct (py_truthy (dict_get body "score")) eqn:Hc.
    + cbn [mbind result_bind] in H.
      destruct (IndicatorScore.from_dict (dict_get body "score")) as [sc|]; [|discriminate].
      cbn [mbind result_bind] in H. injection H as <-.
      exists attrs, (dict_get body "source"), sc.
      split; [reflexivity|]. split; [|split; [done|discriminate]].
      intros Hnone. rewrite Hnone in Hits. cbn in Hits. injection Hits as <-.
      cbn in Ha. by injection Ha as <-.
    + cbn [mbind result_bind] in H. injection H as <-.
      exists attrs, (dict_get body "source"), (dict_get body "score").
      split; [reflexivity|]. split; [|split; done].
      intros Hnone. rewrite Hnone in Hits. cbn in Hits. injection Hits as <-.
      cbn in Ha. by injection Ha as <-.
Qed.

(** X17.  The [attributes] of an indicator summary: [from_dict] of a body
    without the key gives the summary an empty list, and [from_dict] of a
    body whose [attributes] is [null] raises [TypeError].  A summary whose
    [attributes] is [None], the default of the constructor, is written by
    [to_dict] with [attributes = None], so that [from_dict(to_dict(s))]
    raises [TypeError]. *)
Theorem X17_summary_attributes (E : pyenv)
    (ModelBase_to_dict : gmap string pyvalue -> result (gmap string pyvalue))
    (body : gmap string pyvalue) :
  (body !! "attributes" = None ->
   forall obj, IndicatorSummary.from_dict (PyDict body) = Ok obj ->
               py_getattr obj "attributes" = Ok (PyList []))
  /\ (body !! "attributes" = Some PyNone ->
      IndicatorSummary.from_dict (PyDict body) = Raise TypeError)
  /\ (forall value indicator_type report_id enclave_id source score created updated
             description severity_level written,
        IndicatorSummary.to_dict E ModelBase_to_dict false
          (self_of (IndicatorSummary.__init__ value indicator_type report_id enclave_id
                      source score created updated description PyNone severity_level))
        = Ok written ->
        IndicatorSummary.from_dict written = Raise TypeError).
Proof.
  split; [|split].
  - intros Hnone obj Hobj.
    destruct (summary_from_dict_inv body obj Hobj) as (attrs & src & sc & -> & Hatt & _).
    by rewrite (Hatt Hnone).
  - intros Hnull. unfold IndicatorSummary.from_dict.
    cbn [call_get_default mbind result_bind]. by rewrite Hnull.
  - intros value indicator_type report_id enclave_id source score created updated
      description severity_level written.
    rewrite summary_to_dict_init.
    destruct (if negb (is_None source) then _ else _) as [sd|]; [|discriminate].
    cbn [mbind result_bind].
    destruct (if negb (is_None score) then _ else _) as [cd|]; [|discriminate].
    cbn [is_None negb mbind result_bind]. intros [= <-].
    by rewrite summary_from_dict_body.
Qed.

(** A summary built with the defaults of the constructor. *)
Lemma X17_witness :
  IndicatorSummary.from_dict
    (PyDict (<["value" := PyStr "evil.com"]> (<["attributes" := PyNone]> ∅)))
  = Raise TypeError.
Proof.
  destruct (X17_summary_attributes MoreExamples.models_env (fun _ => Raise AttributeError)
              (<["value" := PyStr "evil.com"]> (<["attributes" := PyNone]> ∅)))
    as (_ & H & _).
  apply H. reflexivity.
Defined.

(** X18.  [IndicatorSummary.from_dict] converts a [source] only when it is
    true: a body whose [source] is false without being [null] (an empty
    object, an empty string, 0, [false]) is accepted and the raw value is
    kept as the [source] of the summary, but the summary cannot be
    serialised: [to_dict] calls [to_dict] on the raw value and raises
    [AttributeError]. *)
Theorem X18_summary_with_false_source (E : pyenv)
    (ModelBase_to_dict : gmap string pyvalue -> result (gmap string pyvalue))
    (body : gmap string pyvalue) (source obj : pyvalue) :
  body !! "source" = Some source ->
  py_truthy source = false ->
  source <> PyNone ->
  IndicatorSummary.from_dict (PyDict body) = Ok obj ->
  py_getattr obj "source" = Ok source
  /\ IndicatorSummary.to_dict E ModelBase_to_dict false (self_of obj)
     = Raise AttributeError.
Proof.
  intros Hsrc Hfalse Hnn Hobj.
  assert (dict_get body "source" = source) as Hget by (unfold dict_get; by rewrite Hsrc).
  destruct (summary_from_dict_inv body obj Hobj) as (attrs & src & sc & -> & _ & Hs & _).
  rewrite Hget in Hs. rewrite (Hs Hfalse). split; [reflexivity|].
  rewrite summary_to_dict_init.
  destruct source; try discriminate; try (by destruct Hnn); reflexivity.
Qed.

Lemma X18_witness :
  exists obj,
    IndicatorSummary.from_dict (PyDict (<["source" := PyDict ∅]> ∅)) = Ok obj
    /\ py_getattr obj "source" = Ok (PyDict ∅)
    /\ IndicatorSummary.to_dict MoreExamples.models_env (fun _ => Raise AttributeError)
         false (self_of obj)
       = Raise AttributeError.
Proof.
  eexists. split; [reflexivity|].
  eapply (X18_summary_with_false_source MoreExamples.models_env
            (fun _ => Raise AttributeError) (<["source" := PyDict ∅]> ∅) (PyDict ∅));
    try reflexivity.
  discriminate.
Defined.

(** ** Report *)

(** X19.  Decoding a report and encoding it again.  A report decoded by
    [Report.from_dict] is an enclave report unless the [distributionType]
    of the body, upper-cased, is [COMMUNITY]: also when the body has no
    [distributionType].  [to_dict] of the decoded report gives back the
    [id], [title], [reportBody], [externalUrl], [externalTrackingId],
    [created] and [updated] of the body (a missing key as [None]), the
    normalised [timeBegan], [distributionType] as [ENCLAVE] or
    [COMMUNITY], and [enclaveIds] with a single string wrapped in a
    list. *)
Theorem X19_report_decode_encode (ENCLAVE COMMUNITY : pyvalue)
    (ModelBase_to_dict : gmap string pyvalue -> result (gmap string pyvalue))
    (normalize_timestamp : pyvalue -> result pyvalue) (upper : string -> string)
    (body : gmap string pyvalue) (time_began : pyvalue) :
  (body !! "distributionType" = None \/ body !! "distributionType" = Some PyNone
   \/ exists s, body !! "distributionType" = Some (PyStr s)) ->
  normalize_timestamp (dict_get body "timeBegan") = Ok time_began ->
  let is_enclave :=
    match body !! "distributionType" with
    | Some (PyStr s) => Report.str_ne (upper s) COMMUNITY
    | _ => true
    end in
  exists obj,
    Report.from_dict COMMUNITY normalize_timestamp upper (PyDict body) = Ok obj
    /\ py_getattr obj "is_enclave" = Ok (PyBool is_enclave)
    /\ Report.to_dict ENCLAVE COMMUNITY ModelBase_to_dict false (self_of obj)
       = Ok (PyDict
               (<["id" := dict_get body "id"]>
               (<["title" := dict_get body "title"]>
               (<["reportBody" := dict_get body "reportBody"]>
               (<["timeBegan" := time_began]>
               (<["externalUrl" := dict_get body "externalUrl"]>
               (<["distributionType" := if is_enclave then ENCLAVE else COMMUNITY]>
               (<["externalTrackingId" := dict_get body "externalTrackingId"]>
               (<["enclaveIds" :=
                    match dict_get body "enclaveIds" with
                    | PyStr s => PyList [PyStr s]
                    | v => v
                    end]>
               (<["created" := dict_get body "created"]>
               (<["updated" := dict_get body "updated"]> ∅))))))))))).
Proof.
  intros Hdt Htb is_enclave. subst is_enclave.
  unfold Report.from_dict, Report.__init__.
  cbn [call_get mbind result_bind]. rewrite Htb. cbn [mbind result_bind].
  destruct Hdt as [Hdt|[Hdt|[s Hdt]]].
  - assert (dict_get body "distributionType" = PyNone) as ->
      by (unfold dict_get; by rewrite Hdt).
    rewrite Hdt. cbn [is_None negb mbind result_bind].
    eexists. split; [reflexivity|]. split; [reflexivity|].
    destruct (dict_get body "id"), (dict_get body "enclaveIds"); reflexivity.
  - assert (dict_get body "distributionType" = PyNone) as ->
      by (unfold dict_get; by rewrite Hdt).
    rewrite Hdt. cbn [is_None negb mbind result_bind].
    eexists. split; [reflexivity|]. split; [reflexivity|].
    destruct (dict_get body "id"), (dict_get body "enclaveIds"); reflexivity.
  - assert (dict_get body "distributionType" = PyStr s) as ->
      by (unfold dict_get; by rewrite Hdt).
    rewrite Hdt. cbn [is_None negb mbind result_bind].
    eexists. split; [reflexivity|]. split; [reflexivity|].
    destruct (Report.str_ne (upper s) COMMUNITY), (dict_get body "id"),
      (dict_get body "enclaveIds"); reflexivity.
Qed.

Lemma X19_witness :
  exists obj,
    Report.from_dict (PyStr "COMMUNITY") (fun t => Ok t) MoreExamples.ascii_upper
      (PyDict MoreExamples.community_body) = Ok obj
    /\ py_getattr obj "is_enclave" = Ok (PyBool false)
    /\ py_getattr obj "enclave_ids" = Ok (PyList [PyStr "e1"]).
Proof.
  destruct (X19_report_decode_encode (PyStr "ENCLAVE") (PyStr "COMMUNITY")
              (fun _ => Raise AttributeError) (fun t => Ok t) MoreExamples.ascii_upper
              MoreExamples.community_body (PyInt 5)) as (obj & Hobj & Hie & _).
  - right. right. by exists "community".
  - reflexivity.
  - exists obj. split; [exact Hobj|]. split; [exact Hie|].
    cbn in Hobj. injection Hobj as <-. reflexivity.
Defined.

(** ** The methods that call the API *)

Section ActionInversion.
Context {W : Type}.

Lemma bind_Return {A B : Type} (m : @ReportClientApi.action W A)
    (k : A -> @ReportClientApi.action W B) r w b r' w' :
  ReportClientApi.bind m k r w = (Return b, r', w') ->
  exists a r1 w1, m r w = (Return a, r1, w1) /\ k a r1 w1 = (Return b, r', w').
Proof.
  unfold ReportClientApi.bind. destruct (m r w) as [[[a|e] r1] w1]; [|discriminate].
  intros H. by exists a, r1, w1.
Qed.

Lemma bind_Throw {A B : Type} (m : @ReportClientApi.action W A)
    (k : A -> @ReportClientApi.action W B) r w e r' w' :
  ReportClientApi.bind m k r w = (Throw e, r', w') ->
  m r w = (Throw e, r', w')
  \/ exists a r1 w1, m r w = (Return a, r1, w1) /\ k a r1 w1 = (Throw e, r', w').
Proof.
  unfold ReportClientApi.bind. destruct (m r w) as [[[a|e1] r1] w1].
  - intros H. right. by exists a, r1, w1.
  - intros [= <- <- <-]. by left.
Qed.

Lemma getattr_Return (name : string) r (w : W) v r' w' :
  ReportClientApi.getattr name r w = (Return v, r', w') ->
  r' = r /\ w' = w /\ r !! name = Some v.
Proof.
  unfold ReportClientApi.getattr, Report.attr.
  destruct (r !! name); cbn; [|discriminate]. by intros [= <- <- <-].
Qed.

Lemma getattr_Throw (name : string) r (w : W) e r' w' :
  ReportClientApi.getattr name r w = (Throw e, r', w') -> exists x, e = Error x.
Proof.
  unfold ReportClientApi.getattr, Report.attr.
  destruct (r !! name); cbn; [discriminate|]. intros [= <- <- <-]. by eexists.
Qed.

Lemma lift_Return {A : Type} (x : result A) r (w : W) a r' w' :
  ReportClientApi.lift x r w = (Return a, r', w') -> r' = r /\ w' = w /\ x = Ok a.
Proof. destruct x; cbn; [|discriminate]. by intros [= <- <- <-]. Qed.

Lemma lift_Throw {A : Type} (x : result A) r (w : W) e r' w' :
  ReportClientApi.lift x r w = (@Throw A e, r', w') -> exists y, e = Error y.
Proof. destruct x; cbn; [discriminate|]. intros [= <- <- <-]. by eexists. Qed.

End ActionInversion.

Section SubmitReport.
Context {W : Type}.
Variables ENCLAVE COMMUNITY : pyvalue.
Variable ModelBase_to_dict : gmap string pyvalue -> result (gmap string pyvalue).
Variable dumps : pyvalue -> result string.
Variable client : request -> W -> result response * W.
Variable self_enclave_ids : pyvalue.
Variable normalized_now : result pyvalue.

(** The first statements of [submit_report], up to the test that refuses
    an enclave report without enclaves: they leave the world alone and give
    [is_enclave] and [enclave_ids] their defaults. *)
Lemma submit_report_defaults (k : bool -> @ReportClientApi.action W unit)
    (report : gmap string pyvalue) (w : W) (o : outcome unit)
    (report' : gmap string pyvalue) (w' : W) :
  ReportClientApi.bind (ReportClientApi.getattr "is_enclave") (fun is_enclave =>
  ReportClientApi.bind
    (if is_None is_enclave then ReportClientApi.setattr "is_enclave" (PyBool true)
     else ReportClientApi.ret tt) (fun _ =>
  ReportClientApi.bind (ReportClientApi.getattr "enclave_ids") (fun enclave_ids =>
  ReportClientApi.bind
    (if is_None enclave_ids then
       ReportClientApi.bind (ReportClientApi.getattr "is_enclave") (fun is_enclave =>
         if py_truthy is_enclave
         then ReportClientApi.setattr "enclave_ids" self_enclave_ids
         else ReportClientApi.setattr "enclave_ids" (PyList []))
     else ReportClientApi.ret tt) (fun _ =>
  ReportClientApi.bind (ReportClientApi.getattr "is_enclave") (fun is_enclave =>
  ReportClientApi.bind
    (if py_truthy is_enclave then
       ReportClientApi.bind (ReportClientApi.getattr "enclave_ids") (fun enclave_ids =>
       ReportClientApi.bind (ReportClientApi.lift (py_len enclave_ids)) (fun n =>
       ReportClientApi.ret (Nat.eqb n 0)))
     else ReportClientApi.ret false) k))))) report w
  = (o, report', w') ->
  (exists x, o = Throw (Error x))
  \/ exists (r1 : gmap string pyvalue) (is_enclave enclave_ids : pyvalue) (b : bool),
       k b r1 w = (o, report', w')
       /\ r1 !! "is_enclave" = Some is_enclave /\ is_enclave <> PyNone
       /\ r1 !! "enclave_ids" = Some enclave_ids
       /\ (py_truthy is_enclave = true -> exists n, py_len enclave_ids = Ok n
                                                    /\ b = Nat.eqb n 0)
       /\ (py_truthy is_enclave = false -> b = false /\ enclave_ids <> PyNone)
       /\ (forall name, name <> "is_enclave" -> name <> "enclave_ids" ->
           r1 !! name = report !! name).
Proof.
  unfold ReportClientApi.bind at 1, ReportClientApi.getattr at 1, Report.attr.
  destruct (report !! "is_enclave") as [ie|] eqn:Hie; cbn [ReportClientApi.lift ReportClientApi.ret ReportClientApi.throw];
    [|intros [= <- <- <-]; left; by eexists].
  set (r0 := if is_None ie then <["is_enclave" := PyBool true]> report else report).
  set (ie0 := if is_None ie then PyBool true else ie).
  assert (r0 !! "is_enclave" = Some ie0) as Hie0.
  { subst r0 ie0. destruct (is_None ie); [by rewrite lookup_insert_eq|done]. }
  assert (ie0 <> PyNone) as Hnn.
  { subst ie0. destruct ie; cbn; discriminate. }
  assert (forall name, name <> "is_enclave" -> r0 !! name = report !! name) as Hr0.
  { intros name Hn. subst r0. destruct (is_None ie); [by rewrite lookup_insert_ne|done]. }
  unfold ReportClientApi.bind at 1.
  replace ((if is_None ie then ReportClientApi.setattr "is_enclave" (PyBool true)
            else ReportClientApi.ret tt) report w)
    with (@Return unit tt, r0, w)
    by (subst r0; by destruct (is_None ie)).
  unfold ReportClientApi.bind at 1, ReportClientApi.getattr at 1, Report.attr.
  destruct (r0 !! "enclave_ids") as [ids|] eqn:Hids; cbn [ReportClientApi.lift ReportClientApi.ret ReportClientApi.throw];
    [|intros [= <- <- <-]; left; by eexists].
  set (ids1 := if is_None ids
               then (if py_truthy ie0 then self_enclave_ids else PyList [])
               else ids).
  set (r1 := if is_None ids then <["enclave_ids" := ids1]> r0 else r0).
  assert (r1 !! "enclave_ids" = Some ids1) as Hids1.
  { subst r1 ids1. destruct (is_None ids); [by rewrite lookup_insert_eq|done]. }
  assert (r1 !! "is_enclave" = Some ie0) as Hie1.
  { subst r1. destruct (is_None ids); [by rewrite lookup_insert_ne|done]. }
  assert (forall name, name <> "is_enclave" -> name <> "enclave_ids" ->
                       r1 !! name = report !! name) as Hr1.
  { intros name Hn1 Hn2. subst r1.
    destruct (is_None ids); [rewrite lookup_insert_ne by done|]; by apply Hr0. }
  unfold ReportClientApi.bind at 1.
  replace ((if is_None ids
            then ReportClientApi.bind (ReportClientApi.getattr "is_enclave")
                   (fun is_enclave =>
                      if py_truthy is_enclave
                      then ReportClientApi.setattr "enclave_ids" self_enclave_ids
                      else ReportClientApi.setattr "enclave_ids" (PyList []))
            else ReportClientApi.ret tt) r0 w)
    with (@Return unit tt, r1, w).
  2:{ subst r1 ids1. destruct (is_None ids); [|reflexivity].
      unfold ReportClientApi.bind, ReportClientApi.getattr, Report.attr.
      rewrite Hie0. cbn. by destruct (py_truthy ie0). }
  unfold ReportClientApi.bind at 1, ReportClientApi.getattr at 1, Report.attr.
  rewrite Hie1. cbn [ReportClientApi.lift ReportClientApi.ret].
  unfold ReportClientApi.bind at 1.
  destruct (py_truthy ie0) eqn:Htruthy.
  - unfold ReportClientApi.bind at 1, ReportClientApi.getattr at 1, Report.attr.
    rewrite Hids1. cbn [ReportClientApi.lift ReportClientApi.ret].
    unfold ReportClientApi.bind at 1.
    destruct (py_len ids1) as [n|x] eqn:Hlen;
      cbn [ReportClientApi.lift ReportClientApi.ret ReportClientApi.throw].
    + intros Hk. right. exists r1, ie0, ids1, (Nat.eqb n 0).
      split; [exact Hk|]. split; [exact Hie1|]. split; [exact Hnn|].
      split; [exact Hids1|]. split; [intros _; by exists n|].
      split; [intros ?; congruence|exact Hr1].
    + intros [= <- <- <-]. left. by eexists.
  - cbn [ReportClientApi.ret]. intros Hk. right. exists r1, ie0, ids1, false.
    split; [exact Hk|]. split; [exact Hie1|]. split; [exact Hnn|].
    split; [exact Hids1|]. split; [intros ?; congruence|].
    split; [|exact Hr1]. intros _. split; [reflexivity|].
    subst ids1. destruct ids; cbn; discriminate.
Qed.

Lemma call_Return (req : request) r (w : W) resp r' w' :
  ReportClientApi.call client req r w = (Return resp, r', w') ->
  r' = r /\ client req w = (Ok resp, w').
Proof.
  unfold ReportClientApi.call. destruct (client req w) as [[x|e] w1]; [|discriminate].
  by intros [= <- <- <-].
Qed.

Lemma call_Throw (req : request) r (w : W) e r' w' :
  ReportClientApi.call client req r w = (Throw e, r', w') -> exists x, e = Error x.
Proof.
  unfold ReportClientApi.call. destruct (client req w) as [[x|e1] w1]; [discriminate|].
  intros [= <- <- <-]. by eexists.
Qed.

Lemma submit_report_send_Throw r (w : W) e r' w' :
  ReportClientApi.submit_report_send ENCLAVE COMMUNITY ModelBase_to_dict dumps client
    normalized_now r w = (Throw e, r', w') ->
  exists x, e = Error x.
Proof.
  unfold ReportClientApi.submit_report_send. intros H.
  apply bind_Throw in H as [H|(tb & r1 & w1 & _ & H)]; [by apply getattr_Throw in H|].
  apply bind_Throw in H as [H|([] & r2 & w2 & _ & H)].
  { destruct (is_None tb); [|discriminate].
    apply bind_Throw in H as [H|(now & r2 & w2 & _ & H)]; [by apply lift_Throw in H|].
    discriminate. }
  apply bind_Throw in H as [H|(d & r3 & w3 & _ & H)].
  { unfold ReportClientApi.report_to_dict in H. by apply lift_Throw in H. }
  apply bind_Throw in H as [H|(text & r4 & w4 & _ & H)]; [by apply lift_Throw in H|].
  apply bind_Throw in H as [H|(resp & r5 & w5 & _ & H)]; [by apply call_Throw in H|].
  discriminate.
Qed.

Lemma submit_report_send_Return r (w : W) r' w' :
  ReportClientApi.submit_report_send ENCLAVE COMMUNITY ModelBase_to_dict dumps client
    normalized_now r w = (Return tt, r', w') ->
  exists (sent : gmap string pyvalue) (report_dict : pyvalue) (text : string)
         (resp : response),
    (forall name, name <> "time_began" -> sent !! name = r !! name)
    /\ (exists time_began, sent !! "time_began" = Some time_began
                           /\ (r !! "time_began" = Some PyNone ->
                               normalized_now = Ok time_began)
                           /\ (r !! "time_began" <> Some PyNone ->
                               r !! "time_began" = Some time_began))
    /\ Report.to_dict ENCLAVE COMMUNITY ModelBase_to_dict false sent = Ok report_dict
    /\ dumps report_dict = Ok text
    /\ client (mk_request "POST" "reports" PyNone (Some text) (Some 60)) w = (Ok resp, w')
    /\ r' = <["id" := content resp]> sent.
Proof.
  unfold ReportClientApi.submit_report_send. intros H.
  apply bind_Return in H as (tb & r1 & w1 & H1 & H).
  apply getattr_Return in H1 as (-> & -> & Htb).
  apply bind_Return in H as ([] & r2 & w2 & H2 & H).
  apply bind_Return in H as (d & r3 & w3 & H3 & H).
  unfold ReportClientApi.report_to_dict in H3. apply lift_Return in H3 as (-> & -> & Hd).
  apply bind_Return in H as (text & r4 & w4 & H4 & H).
  apply lift_Return in H4 as (-> & -> & Htext).
  apply bind_Return in H as (resp & r5 & w5 & H5 & H).
  apply call_Return in H5 as (-> & Hcall).
  unfold ReportClientApi.setattr in H. injection H as <- <-.
  exists r2, d, text, resp.
  destruct (is_None tb) eqn:Hnone.
  - apply bind_Return in H2 as (now & r6 & w6 & H6 & H2).
    apply lift_Return in H6 as (-> & -> & Hnow).
    unfold ReportClientApi.setattr in H2. injection H2 as <- <-.
    destruct tb; try discriminate.
    split; [intros name Hn; by rewrite lookup_insert_ne|].
    split; [|done].
    exists now. split; [by rewrite lookup_insert_eq|]. split; [done|].
    intros Hne. by destruct Hne.
  - unfold ReportClientApi.ret in H2. injection H2 as <- <-.
    split; [done|]. split; [|done].
    exists tb. split; [exact Htb|]. split; [|done].
    intros Hn. rewrite Hn in Htb. injection Htb as <-. discriminate.
Qed.

End SubmitReport.

(** X20.  [submit_report] refuses an enclave report without enclaves before
    it contacts the API: when it raises its own [Exception], no request has
    been made, the report (with the defaults the method has already
    assigned) is an enclave report and its list of enclaves is empty. *)
Theorem X20_submit_report_refuses_without_request (W : Type)
    (ENCLAVE COMMUNITY : pyvalue)
    (ModelBase_to_dict : gmap string pyvalue -> result (gmap string pyvalue))
    (dumps : pyvalue -> result string)
    (client : request -> W -> result response * W)
    (self_enclave_ids : pyvalue) (normalized_now : result pyvalue)
    (report report' : gmap string pyvalue) (w w' : W) (msg : string) :
  ReportClientApi.submit_report ENCLAVE COMMUNITY ModelBase_to_dict dumps client
    self_enclave_ids normalized_now report w = (Throw (Exception msg), report', w') ->
  w' = w
  /\ msg = "Cannot submit a report of distribution type 'ENCLAVE' with an empty set of enclaves."
  /\ exists is_enclave enclave_ids,
       report' !! "is_enclave" = Some is_enclave /\ py_truthy is_enclave = true
       /\ report' !! "enclave_ids" = Some enclave_ids /\ py_len enclave_ids = Ok O.
Proof.
  unfold ReportClientApi.submit_report. intros H.
  apply submit_report_defaults in H
    as [[x Hx]|(r1 & ie & ids & b & Hk & Hie & Hnn & Hids & Htrue & Hfalse & _)];
    [discriminate|].
  destruct b.
  - unfold ReportClientApi.throw in Hk. injection Hk as <- <- <-.
    split; [reflexivity|]. split; [reflexivity|].
    exists ie, ids. destruct (py_truthy ie) eqn:Ht.
    + destruct (Htrue eq_refl) as (n & Hlen & Hn).
      symmetry in Hn. apply Nat.eqb_eq in Hn. subst n. done.
    + by destruct (Hfalse eq_refl).
  - apply submit_report_send_Throw in Hk as [x Hx]. discriminate.
Qed.

(** X21.  A report that [submit_report] has submitted: the method made one
    request, a POST to [reports] with a timeout of 60 whose body is the
    serialised [to_dict] of the report with its defaults assigned;
    afterwards [is_enclave] and [enclave_ids] are not [None], an enclave
    report has at least one enclave, and [id] is the content of the
    response. *)
Theorem X21_submitted_report (W : Type) (ENCLAVE COMMUNITY : pyvalue)
    (ModelBase_to_dict : gmap string pyvalue -> result (gmap string pyvalue))
    (dumps : pyvalue -> result string)
    (client : request -> W -> result response * W)
    (self_enclave_ids : pyvalue) (normalized_now : result pyvalue)
    (report report' : gmap string pyvalue) (w w' : W) :
  ReportClientApi.submit_report ENCLAVE COMMUNITY ModelBase_to_dict dumps client
    self_enclave_ids normalized_now report w = (Return tt, report', w') ->
  exists (sent : gmap string pyvalue) (report_dict : pyvalue) (text : string)
         (resp : response) (is_enclave enclave_ids : pyvalue),
    Report.to_dict ENCLAVE COMMUNITY ModelBase_to_dict false sent = Ok report_dict
    /\ dumps report_dict = Ok text
    /\ client (mk_request "POST" "reports" PyNone (Some text) (Some 60)) w = (Ok resp, w')
    /\ report' = <["id" := content resp]> sent
    /\ report' !! "is_enclave" = Some is_enclave /\ is_enclave <> PyNone
    /\ report' !! "enclave_ids" = Some enclave_ids /\ enclave_ids <> PyNone
    /\ (py_truthy is_enclave = true -> exists n, py_len enclave_ids = Ok (S n)).
Proof.
  unfold ReportClientApi.submit_report. intros H.
  apply submit_report_defaults in H
    as [[x Hx]|(r1 & ie & ids & b & Hk & Hie & Hnn & Hids & Htrue & Hfalse & _)];
    [discriminate|].
  destruct b; [discriminate|].
  apply submit_report_send_Return in Hk
    as (sent & d & text & resp & Hsame & _ & Hd & Htext & Hcall & ->).
  exists sent, d, text, resp, ie, ids.
  split; [exact Hd|]. split; [exact Htext|]. split; [exact Hcall|]. split; [reflexivity|].
  rewrite !lookup_insert_ne by discriminate. rewrite !Hsame by discriminate.
  split; [exact Hie|]. split; [exact Hnn|]. split; [exact Hids|].
  destruct (py_truthy ie) eqn:Ht.
  - destruct (Htrue eq_refl) as (n & Hlen & Hn). split.
    + intros ->. by destruct n.
    + intros _. destruct n; [discriminate|]. by exists n.
  - destruct (Hfalse eq_refl) as [_ Hne]. split; [exact Hne|discriminate].
Qed.

(** A client configured without enclaves refuses a new enclave report. *)
Lemma X20_witness :
  ReportClientApi.submit_report (PyStr "ENCLAVE") (PyStr "COMMUNITY")
    (fun _ => Raise AttributeError) MoreExamples.dumps_title MoreExamples.api
    (PyList []) (Ok (PyInt 1000)) MoreExamples.new_report []
  = (Throw (Exception
       "Cannot submit a report of distribution type 'ENCLAVE' with an empty set of enclaves."),
     <["enclave_ids" := PyList []]> MoreExamples.new_report, [])
  /\ exists is_enclave enclave_ids,
       (<["enclave_ids" := PyList []]> MoreExamples.new_report) !! "is_enclave"
       = Some is_enclave
       /\ py_truthy is_enclave = true
       /\ (<["enclave_ids" := PyList []]> MoreExamples.new_report) !! "enclave_ids"
          = Some enclave_ids
       /\ py_len enclave_ids = Ok O.
Proof.
  split; [reflexivity|].
  apply (X20_submit_report_refuses_without_request (list request)
           (PyStr "ENCLAVE") (PyStr "COMMUNITY")
           (fun _ => Raise AttributeError) MoreExamples.dumps_title MoreExamples.api
           (PyList []) (Ok (PyInt 1000)) MoreExamples.new_report
           (<["enclave_ids" := PyList []]> MoreExamples.new_report) [] []
           "Cannot submit a report of distribution type 'ENCLAVE' with an empty set of enclaves.").
  reflexivity.
Defined.

(** A client configured with one enclave submits it. *)
Lemma X21_witness :
  exists (sent : gmap string pyvalue) (report_dict : pyvalue) (text : string)
         (resp : response),
    MoreExamples.dumps_title report_dict = Ok text
    /\ MoreExamples.api (mk_request "POST" "reports" PyNone (Some text) (Some 60)) []
       = (Ok resp, [mk_request "POST" "reports" PyNone (Some "Suspicious Activity") (Some 60)])
    /\ <["id" := PyStr "new-id"]>
         (<["time_began" := PyInt 1000]>
         (<["enclave_ids" := PyList [PyStr "e1"]]> MoreExamples.new_report))
       = <["id" := content resp]> sent.
Proof.
  destruct (X21_submitted_report (list request)
              (PyStr "ENCLAVE") (PyStr "COMMUNITY")
              (fun _ => Raise AttributeError) MoreExamples.dumps_title MoreExamples.api
              (PyList [PyStr "e1"]) (Ok (PyInt 1000)) MoreExamples.new_report
              (<["id" := PyStr "new-id"]>
                 (<["time_began" := PyInt 1000]>
                 (<["enclave_ids" := PyList [PyStr "e1"]]> MoreExamples.new_report)))
              []
              [mk_request "POST" "reports" PyNone (Some "Suspicious Activity") (Some 60)])
    as (sent & d & text & resp & ie & ids & _ & Hd & Hcall & Hr & _); [reflexivity|].
  by exists sent, d, text, resp.
Defined.

Lemma update_report_unfold {W : Type} (ENCLAVE COMMUNITY INTERNAL EXTERNAL : pyvalue)
    (ModelBase_to_dict : gmap string pyvalue -> result (gmap string pyvalue))
    (dumps : pyvalue -> result string) (str_of : pyvalue -> string)
    (client : request -> W -> result response * W)
    (report : gmap string pyvalue) (w : W) :
  ReportClientApi.update_report ENCLAVE COMMUNITY INTERNAL EXTERNAL ModelBase_to_dict
    dumps str_of client report w
  = match report !! "id" with
    | None => (Throw (Error AttributeError), report, w)
    | Some id =>
        let send id_type report_id :=
          match Report.to_dict ENCLAVE COMMUNITY ModelBase_to_dict false report with
          | Raise e => (Throw (Error e), report, w)
          | Ok report_dict =>
              match dumps report_dict with
              | Raise e => (Throw (Error e), report, w)
              | Ok text =>
                  match client (mk_request "PUT" ("reports/" ++ str_of report_id)
                                  (PyDict (<["idType" := id_type]> ∅)) (Some text) None) w
                  with
                  | (Ok _, w') => (Return tt, report, w')
                  | (Raise e, w') => (Throw (Error e), report, w')
                  end
              end
          end in
        if negb (is_None id) then send INTERNAL id
        else
          match report !! "external_id" with
          | None => (Throw (Error AttributeError), report, w)
          | Some external_id =>
              if negb (is_None external_id) then send EXTERNAL external_id
              else (Throw (Exception
                      "Cannot update report without either an ID or an external ID."),
                    report, w)
          end
    end.
Proof.
  cbv beta iota zeta delta [ReportClientApi.update_report ReportClientApi.bind
    ReportClientApi.getattr ReportClientApi.report_to_dict ReportClientApi.call
    ReportClientApi.lift ReportClientApi.ret ReportClientApi.throw Report.attr].
  destruct (report !! "id") as [id|]; [|reflexivity].
  destruct (negb (is_None id)).
  - destruct (Report.to_dict _ _ _ false report) as [d|] eqn:Hd; [|reflexivity].
    cbv beta iota. rewrite Hd.
    destruct (dumps d) as [text|]; [|reflexivity].
    by destruct (client _ w) as [[resp|e] w'].
  - destruct (report !! "external_id") as [ext|]; [|reflexivity].
    destruct (negb (is_None ext)); [|reflexivity].
    destruct (Report.to_dict _ _ _ false report) as [d|] eqn:Hd; [|reflexivity].
    cbv beta iota. rewrite Hd.
    destruct (dumps d) as [text|]; [|reflexivity].
    by destruct (client _ w) as [[resp|e] w'].
Qed.

(** X22.  [update_report] never changes the report it is given.  It raises
    its own [Exception] exactly when [id] and [external_id] are both
    [None], and then makes no request.  When it returns, it has made one
    PUT request whose body is the serialised [to_dict] of the report: to
    [reports/<id>] with [idType = INTERNAL] when [id] is not [None], whether
    or not an external id is set, and to [reports/<external_id>] with
    [idType = EXTERNAL] otherwise. *)
Theorem X22_update_report_target (W : Type) (ENCLAVE COMMUNITY INTERNAL EXTERNAL : pyvalue)
    (ModelBase_to_dict : gmap string pyvalue -> result (gmap string pyvalue))
    (dumps : pyvalue -> result string) (str_of : pyvalue -> string)
    (client : request -> W -> result response * W)
    (report report' : gmap string pyvalue) (w w' : W) (o : outcome unit) :
  ReportClientApi.update_report ENCLAVE COMMUNITY INTERNAL EXTERNAL ModelBase_to_dict
    dumps str_of client report w = (o, report', w') ->
  report' = report
  /\ ((exists msg, o = Throw (Exception msg)) <->
      report !! "id" = Some PyNone /\ report !! "external_id" = Some PyNone)
  /\ ((exists msg, o = Throw (Exception msg)) -> w' = w)
  /\ (o = Return tt ->
      exists id_type report_id report_dict text resp,
        Report.to_dict ENCLAVE COMMUNITY ModelBase_to_dict false report = Ok report_dict
        /\ dumps report_dict = Ok text
        /\ client (mk_request "PUT" ("reports/" ++ str_of report_id)
                     (PyDict (<["idType" := id_type]> ∅)) (Some text) None) w
           = (Ok resp, w')
        /\ ((report !! "id" = Some report_id /\ report_id <> PyNone
             /\ id_type = INTERNAL)
            \/ (report !! "id" = Some PyNone
                /\ report !! "external_id" = Some report_id /\ report_id <> PyNone
                /\ id_type = EXTERNAL))).
Proof.
  rewrite update_report_unfold. cbv zeta.
  destruct (report !! "id") as [id|] eqn:Hid.
  2:{ intros [= <- <- <-]. split; [done|]. split; [|split; [|discriminate]].
      - split; [intros [msg [=]]|intros [[=] _]].
      - intros [msg [=]]. }
  destruct (is_None id) eqn:Hnone; cbn [negb].
  - destruct id; try discriminate.
    destruct (report !! "external_id") as [ext|] eqn:Hext.
    2:{ intros [= <- <- <-]. split; [done|]. split; [|split; [|discriminate]].
        - split; [intros [msg [=]]|intros [_ [=]]].
        - intros [msg [=]]. }
    destruct (is_None ext) eqn:Hnone'; cbn [negb].
    + destruct ext; try discriminate. intros [= <- <- <-].
      split; [done|]. split; [|split; [done|discriminate]].
      split; [done|]. intros _. by eexists.
    + destruct (Report.to_dict _ _ _ false report) as [d|] eqn:Hd.
      2:{ intros [= <- <- <-]. split; [done|]. split; [|split; [|discriminate]].
          - split; [intros [msg [=]]|]. intros [_ [= ->]]. discriminate.
          - intros [msg [=]]. }
      destruct (dumps d) as [text|] eqn:Htext.
      2:{ intros [= <- <- <-]. split; [done|]. split; [|split; [|discriminate]].
          - split; [intros [msg [=]]|]. intros [_ [= ->]]. discriminate.
          - intros [msg [=]]. }
      destruct (client _ w) as [[resp|e] w1] eqn:Hcall; intros [= <- <- <-].
      * split; [done|]. split; [|split].
        -- split; [intros [msg [=]]|]. intros [_ [= ->]]. discriminate.
        -- intros [msg [=]].
        -- intros _. exists EXTERNAL, ext, d, text, resp.
           split; [done|]. split; [done|]. split; [exact Hcall|]. right.
           split; [done|]. split; [done|]. split; [|done].
           intros ->. discriminate.
      * split; [done|]. split; [|split; [|discriminate]].
        -- split; [intros [msg [=]]|]. intros [_ [= ->]]. discriminate.
        -- intros [msg [=]].
  - destruct (Report.to_dict _ _ _ false report) as [d|] eqn:Hd.
    2:{ intros [= <- <- <-]. split; [done|]. split; [|split; [|discriminate]].
        - split; [intros [msg [=]]|]. intros [[= ->] _]. discriminate.
        - intros [msg [=]]. }
    destruct (dumps d) as [text|] eqn:Htext.
    2:{ intros [= <- <- <-]. split; [done|]. split; [|split; [|discriminate]].
        - split; [intros [msg [=]]|]. intros [[= ->] _]. discriminate.
        - intros [msg [=]]. }
    destruct (client _ w) as [[resp|e] w1] eqn:Hcall; intros [= <- <- <-].
    + split; [done|]. split; [|split].
      * split; [intros [msg [=]]|]. intros [[= ->] _]. discriminate.
      * intros [msg [=]].
      * intros _. exists INTERNAL, id, d, text, resp.
        split; [done|]. split; [done|]. split; [exact Hcall|]. left.
        split; [done|]. split; [|done]. intros ->. discriminate.
    + split; [done|]. split; [|split; [|discriminate]].
      * split; [intros [msg [=]]|]. intros [[= ->] _]. discriminate.
      * intros [msg [=]].
Qed.

(** A report with both ids is updated under its internal id. *)
Lemma X22_witness :
  exists id_type report_id report_dict text resp,
    Report.to_dict (PyStr "ENCLAVE") (PyStr "COMMUNITY") (fun _ => Raise AttributeError)
      false MoreExamples.known_report = Ok report_dict
    /\ MoreExamples.dumps_title report_dict = Ok text
    /\ MoreExamples.api
         (mk_request "PUT" ("reports/" ++ MoreExamples.str_of_value report_id)
            (PyDict (<["idType" := id_type]> ∅)) (Some text) None) []
       = (Ok resp,
          [mk_request "PUT" "reports/r1" (PyDict (<["idType" := PyStr "internal"]> ∅))
             (Some "Suspicious Activity") None])
    /\ ((MoreExamples.known_report !! "id" = Some report_id /\ report_id <> PyNone
         /\ id_type = PyStr "internal")
        \/ (MoreExamples.known_report !! "id" = Some PyNone
            /\ MoreExamples.known_report !! "external_id" = Some report_id
            /\ report_id <> PyNone /\ id_type = PyStr "external")).
Proof.
  destruct (X22_update_report_target (list request)
              (PyStr "ENCLAVE") (PyStr "COMMUNITY") (PyStr "internal") (PyStr "external")
              (fun _ => Raise AttributeError) MoreExamples.dumps_title
              MoreExamples.str_of_value MoreExamples.api
              MoreExamples.known_report MoreExamples.known_report []
              [mk_request "PUT" "reports/r1" (PyDict (<["idType" := PyStr "internal"]> ∅))
                 (Some "Suspicious Activity") None]
              (Return tt)) as (_ & _ & _ & H); [reflexivity|].
  by apply H.
Defined.

(** X23.  [copy_report] without [from_provided_submission] ignores
    [report] and [tags] and sends the serialised [None] as the body.  With
    [from_provided_submission] it raises its own [Exception], without a
    request, exactly when [report] or [tags] is false ([None], empty); when
    it returns, the body it has sent is the serialised [to_dict] of the
    report with the key [tags] set, and the result is the [id] of the
    response. *)
Theorem X23_copy_report_body (W : Type) (dumps : pyvalue -> result string)
    (str_of : pyvalue -> string) (client : request -> W -> result response * W)
    (E : pyenv)
    (src_report_id dest_enclave_id from_provided_submission report tags : pyvalue)
    (w : W) :
  (py_truthy from_provided_submission = false ->
   forall report2 tags2,
     ReportClientApi.copy_report dumps str_of client E src_report_id dest_enclave_id
       from_provided_submission report tags w
     = ReportClientApi.copy_report dumps str_of client E src_report_id dest_enclave_id
         from_provided_submission report2 tags2 w)
  /\ (forall o w',
        ReportClientApi.copy_report dumps str_of client E src_report_id dest_enclave_id
          from_provided_submission report tags w = (o, w') ->
        ((exists msg, o = Throw (Exception msg)) <->
         py_truthy from_provided_submission = true
         /\ (py_truthy report = false \/ py_truthy tags = false))
        /\ ((exists msg, o = Throw (Exception msg)) -> w' = w)
        /\ (forall id, o = Return id ->
            exists body text resp j,
              (if py_truthy from_provided_submission
               then exists d, call_to_dict E false report = Ok (PyDict d)
                              /\ body = PyDict (<["tags" := tags]> d)
               else body = PyNone)
              /\ dumps body = Ok text
              /\ client (mk_request "POST" ("reports/copy/" ++ str_of src_report_id)
                           (PyDict (<["destEnclaveId" := dest_enclave_id]>
                                   (<["copyFromProvidedSubmission" :=
                                        from_provided_submission]> ∅)))
                           (Some text) None) w
                 = (Ok resp, w')
              /\ json resp = Ok j /\ call_get j "id" = Ok id)).
Proof.
  split.
  - intros Hf report2 tags2. unfold ReportClientApi.copy_report. by rewrite Hf.
  - intros o w'. unfold ReportClientApi.copy_report.
    destruct (py_truthy from_provided_submission) eqn:Hf.
    + destruct (py_truthy report) eqn:Hr; cbn [negb].
      2:{ intros [= <- <-]. split; [|split; [done|discriminate]].
          split; [intros _; split; [done|by left]|]. intros _. by eexists. }
      destruct (py_truthy tags) eqn:Ht; cbn [negb].
      2:{ intros [= <- <-]. split; [|split; [done|discriminate]].
          split; [intros _; split; [done|by right]|]. intros _. by eexists. }
      assert (forall P : Prop, (true = true /\ (true = false \/ true = false)) -> P)
        as Habs by (intros P [_ [?|?]]; discriminate).
      destruct (call_to_dict E false report) as [[| | | | |d|]|e] eqn:Hd;
        try (intros [= <- <-]; split; [|split; [|discriminate]];
             [split; [intros [msg [=]]|apply Habs]|intros [msg [=]]]).
      destruct (dumps _) as [text|e] eqn:Htext.
      2:{ intros [= <- <-]. split; [|split; [|discriminate]];
            [split; [intros [msg [=]]|apply Habs]|intros [msg [=]]]. }
      destruct (client _ w) as [[resp|e] w1] eqn:Hcall.
      2:{ intros [= <- <-]. split; [|split; [|discriminate]];
            [split; [intros [msg [=]]|apply Habs]|intros [msg [=]]]. }
      destruct (json resp) as [j|e] eqn:Hj; cbn [mbind result_bind].
      2:{ intros [= <- <-]. split; [|split; [|discriminate]];
            [split; [intros [msg [=]]|apply Habs]|intros [msg [=]]]. }
      destruct (call_get j "id") as [id|e] eqn:Hid; intros [= <- <-].
      * split; [|split]; [split; [intros [msg [=]]|apply Habs]|intros [msg [=]]|].
        intros id' [= <-]. exists (PyDict (<["tags" := tags]> d)), text, resp, j.
        split; [by exists d|done].
      * split; [|split; [|discriminate]];
          [split; [intros [msg [=]]|apply Habs]|intros [msg [=]]].
    + assert (forall P : Prop, (false = true /\ (py_truthy report = false
                                                \/ py_truthy tags = false)) -> P)
        as Habs by (intros P [? _]; discriminate).
      destruct (dumps PyNone) as [text|e] eqn:Htext.
      2:{ intros [= <- <-]. split; [|split; [|discriminate]];
            [split; [intros [msg [=]]|apply Habs]|intros [msg [=]]]. }
      destruct (client _ w) as [[resp|e] w1] eqn:Hcall.
      2:{ intros [= <- <-]. split; [|split; [|discriminate]];
            [split; [intros [msg [=]]|apply Habs]|intros [msg [=]]]. }
      destruct (json resp) as [j|e] eqn:Hj; cbn [mbind result_bind].
      2:{ intros [= <- <-]. split; [|split; [|discriminate]];
            [split; [intros [msg [=]]|apply Habs]|intros [msg [=]]]. }
      destruct (call_get j "id") as [id|e] eqn:Hid; intros [= <- <-].
      * split; [|split]; [split; [intros [msg [=]]|apply Habs]|intros [msg [=]]|].
        intros id' [= <-]. by exists PyNone, text, resp, j.
      * split; [|split; [|discriminate]];
          [split; [intros [msg [=]]|apply Habs]|intros [msg [=]]].
Qed.

(** Without [from_provided_submission] the report and the tags do not
    matter. *)
Lemma X23_witness :
  ReportClientApi.copy_report MoreExamples.dumps_title MoreExamples.str_of_value
    MoreExamples.api MoreExamples.models_env (PyStr "r1") (PyStr "e2") (PyBool false)
    (PyInt 7) (PyList [PyStr "malware"]) []
  = ReportClientApi.copy_report MoreExamples.dumps_title MoreExamples.str_of_value
      MoreExamples.api MoreExamples.models_env (PyStr "r1") (PyStr "e2") (PyBool false)
      PyNone PyNone [].
Proof.
  destruct (X23_copy_report_body (list request) MoreExamples.dumps_title
              MoreExamples.str_of_value MoreExamples.api MoreExamples.models_env
              (PyStr "r1") (PyStr "e2") (PyBool false) (PyInt 7)
              (PyList [PyStr "malware"]) []) as [H _].
  apply H. reflexivity.
Defined.

(** ** The page methods and their generators *)

Lemma numbered_pages_are_fetched {W : Type} (E : pyenv)
    (func : Z -> option Z -> W -> result NumberedPage.t * W)
    (page_size : option Z) (start_page : Z) (fuel : nat) (w w' : W)
    (pages : list NumberedPage.t) (e : ending) (i : nat) (p : NumberedPage.t) :
  drain (NumberedPage.next E func page_size) fuel
    (NumberedPage.get_page_generator start_page) w = (pages, e, w') ->
  pages !! i = Some p ->
  exists w0 w1, func (start_page + Z.of_nat i) page_size w0 = (Ok p, w1).
Proof.
  destruct fuel as [|fuel]; [intros [= <- <- <-] Hp; by rewrite lookup_nil in Hp|].
  rewrite drain_numbered_start.
  destruct (func start_page page_size w) as [[q|x] w1] eqn:Hf.
  - destruct (drain _ fuel _ w1) as [[ys e1] w2] eqn:Hd. intros [= <- <- <-] Hp.
    destruct (drain_after_yield_sound E func page_size fuel _ _ _ _ _ _ Hd)
      as (Hfetch & _).
    destruct i as [|i].
    + cbn in Hp. injection Hp as <-. exists w, w1.
      by replace (start_page + Z.of_nat 0) with start_page by lia.
    + cbn in Hp. destruct (Hfetch i p Hp) as (w0 & w3 & Hf'). exists w0, w3.
      by replace (start_page + Z.of_nat (S i)) with (start_page + 1 + Z.of_nat i) by lia.
  - intros [= <- <- <-] Hp. by rewrite lookup_nil in Hp.
Qed.

Lemma fetch_page_Ok {W : Type} (COMMUNITY : pyvalue)
    (normalize_timestamp : pyvalue -> result pyvalue) (upper : string -> string)
    (client : request -> W -> result response * W) (req : request) (w w' : W)
    (p : NumberedPage.t) :
  ReportClientApi.fetch_page COMMUNITY normalize_timestamp upper client req w = (Ok p, w') ->
  exists resp, client req w = (Ok resp, w')
               /\ ReportClientApi.page_of_response COMMUNITY normalize_timestamp upper resp
                  = Ok p.
Proof.
  unfold ReportClientApi.fetch_page.
  destruct (client req w) as [[resp|e] w1]; [|discriminate].
  intros [= H <-]. by exists resp.
Qed.

(** X24.  The pages of the search generator and of the correlated-reports
    generator: the page at position [i] is the page decoded, with [Report]
    as the content type, from the response to the request for page
    [start_page + i]: a POST to [reports/search], a GET to
    [reports/correlated], with the filters and the page size the generator
    was built with. *)
Theorem X24_generators_request_consecutive_pages (W : Type) (E : pyenv)
    (ENCLAVE COMMUNITY : pyvalue)
    (normalize_timestamp : pyvalue -> result pyvalue) (upper : string -> string)
    (dumps : pyvalue -> result string) (client : request -> W -> result response * W)
    (search_term enclave_ids from_time to_time tags excluded_tags
       indicators is_enclave : pyvalue)
    (page_size : option Z) (start_page : Z) (fuel : nat) (w w' : W)
    (pages : list NumberedPage.t) (e : ending) (i : nat) (p : NumberedPage.t) :
  pages !! i = Some p ->
  (drain (NumberedPage.next E
            (ReportClientApi.search_get_page COMMUNITY normalize_timestamp upper dumps
               client search_term enclave_ids from_time to_time tags excluded_tags)
            page_size) fuel
     (ReportClientApi._search_reports_page_generator start_page) w = (pages, e, w') ->
   exists text resp w0 w1,
     dumps (PyDict (<["searchTerm" := search_term]> ∅)) = Ok text
     /\ client (mk_request "POST" "reports/search"
                  (PyDict (<["enclaveIds" := enclave_ids]>
                          (<["from" := from_time]>
                          (<["to" := to_time]>
                          (<["tags" := tags]>
                          (<["excludedTags" := excluded_tags]>
                          (<["pageSize" := ReportClientApi.page_size_arg page_size]>
                          (<["pageNumber" := PyInt (start_page + Z.of_nat i)]> ∅))))))))
                  (Some text) None) w0 = (Ok resp, w1)
     /\ ReportClientApi.page_of_response COMMUNITY normalize_timestamp upper resp = Ok p)
  /\ (drain (NumberedPage.next E
               (ReportClientApi.correlated_get_page ENCLAVE COMMUNITY normalize_timestamp
                  upper client indicators enclave_ids is_enclave)
               page_size) fuel
        (ReportClientApi._get_correlated_reports_page_generator start_page) w
      = (pages, e, w') ->
      exists resp w0 w1,
        client (mk_request "GET" "reports/correlated"
                  (PyDict (<["indicators" := indicators]>
                          (<["enclaveIds" := enclave_ids]>
                          (<["distributionType" :=
                               if py_truthy is_enclave then ENCLAVE else COMMUNITY]>
                          (<["pageNumber" := PyInt (start_page + Z.of_nat i)]>
                          (<["pageSize" := ReportClientApi.page_size_arg page_size]> ∅))))))
                  None None) w0 = (Ok resp, w1)
        /\ ReportClientApi.page_of_response COMMUNITY normalize_timestamp upper resp = Ok p).
Proof.
  intros Hp. split; intros Hrun.
  - destruct (numbered_pages_are_fetched _ _ _ _ _ _ _ _ _ _ _ Hrun Hp) as (w0 & w1 & Hf).
    unfold ReportClientApi.search_get_page, ReportClientApi.search_reports_page in Hf.
    destruct (dumps _) as [text|] eqn:Htext; [|discriminate].
    apply fetch_page_Ok in Hf as (resp & Hcall & Hpage).
    by exists text, resp, w0, w1.
  - destruct (numbered_pages_are_fetched _ _ _ _ _ _ _ _ _ _ _ Hrun Hp) as (w0 & w1 & Hf).
    unfold ReportClientApi.correlated_get_page,
      ReportClientApi.get_correlated_reports_page in Hf.
    apply fetch_page_Ok in Hf as (resp & Hcall & Hpage).
    by exists resp, w0, w1.
Qed.

(** The search generator over the example API: one page, decoded from the
    response to the request for page 0. *)
Lemma X24_witness :
  exists text resp w0 w1,
    MoreExamples.dumps_title (PyDict (<["searchTerm" := PyStr "evil.com"]> ∅)) = Ok text
    /\ MoreExamples.api
         (mk_request "POST" "reports/search"
            (PyDict (<["enclaveIds" := PyNone]>
                    (<["from" := PyNone]>
                    (<["to" := PyNone]>
                    (<["tags" := PyNone]>
                    (<["excludedTags" := PyNone]>
                    (<["pageSize" := ReportClientApi.page_size_arg (Some 25)]>
                    (<["pageNumber" := PyInt (0 + Z.of_nat 0)]> ∅))))))))
            (Some text) None) w0 = (Ok resp, w1)
    /\ ReportClientApi.page_of_response (PyStr "COMMUNITY") (fun v => Ok v)
         MoreExamples.ascii_upper resp = Ok MoreExamples.decoded_page.
Proof.
  destruct (X24_generators_request_consecutive_pages (list request)
              MoreExamples.models_env (PyStr "ENCLAVE") (PyStr "COMMUNITY")
              (fun v => Ok v) MoreExamples.ascii_upper MoreExamples.dumps_title
              MoreExamples.api (PyStr "evil.com") PyNone PyNone PyNone PyNone PyNone
              PyNone PyNone (Some 25) 0 3 [] [MoreExamples.search_request 0]
              [MoreExamples.decoded_page] Exhausted 0%nat MoreExamples.decoded_page)
    as [H _]; [reflexivity|].
  apply H. vm_compute. reflexivity.
Defined.

(** X25.  [get_reports_page] does not tell [is_enclave=None] from
    [is_enclave=False]: every false [is_enclave], the default [None]
    included, behaves as [False] and asks for the distribution type
    COMMUNITY, never for all reports; [enclave_ids=None] behaves as the
    enclave ids of the client.  A page returned for a false [is_enclave] is
    the page decoded from the response to a GET to [reports] whose
    [distributionType] is COMMUNITY. *)
Theorem X25_reports_page_is_enclave_None_is_False (W : Type)
    (ENCLAVE COMMUNITY : pyvalue)
    (normalize_timestamp : pyvalue -> result pyvalue) (upper : string -> string)
    (client : request -> W -> result response * W) (self_enclave_ids : pyvalue)
    (is_enclave enclave_ids tag excluded_tags from_time to_time : pyvalue) (w : W) :
  py_truthy is_enclave = false ->
  let get_reports_page :=
    ReportClientApi.get_reports_page ENCLAVE COMMUNITY normalize_timestamp upper client
      self_enclave_ids in
  get_reports_page is_enclave enclave_ids tag excluded_tags from_time to_time w
  = get_reports_page (PyBool false) enclave_ids tag excluded_tags from_time to_time w
  /\ get_reports_page is_enclave PyNone tag excluded_tags from_time to_time w
     = get_reports_page is_enclave self_enclave_ids tag excluded_tags from_time to_time w
  /\ forall p w',
       get_reports_page is_enclave enclave_ids tag excluded_tags from_time to_time w
       = (Ok p, w') ->
       exists resp ids,
         client (mk_request "GET" "reports"
                   (PyDict (<["from" := from_time]>
                           (<["to" := to_time]>
                           (<["distributionType" := COMMUNITY]>
                           (<["enclaveIds" := ids]>
                           (<["tags" := tag]>
                           (<["excludedTags" := excluded_tags]> ∅)))))))
                   None None) w = (Ok resp, w')
         /\ (ids = enclave_ids \/ enclave_ids = PyNone /\ ids = self_enclave_ids)
         /\ ReportClientApi.page_of_response COMMUNITY normalize_timestamp upper resp
            = Ok p.
Proof.
  intros Hfalse get_reports_page. subst get_reports_page.
  unfold ReportClientApi.get_reports_page, ReportClientApi.get_reports_page_request.
  rewrite Hfalse. cbn [py_truthy negb is_None]. split; [reflexivity|].
  split.
  { destruct (is_None self_enclave_ids) eqn:Hn; [|reflexivity].
    destruct self_enclave_ids; try discriminate. reflexivity. }
  intros p w' Hf. apply fetch_page_Ok in Hf as (resp & Hcall & Hpage).
  destruct (is_None enclave_ids) eqn:Hn.
  - exists resp, self_enclave_ids. repeat split; [exact Hcall| |exact Hpage].
    right. split; [|reflexivity]. destruct enclave_ids; try discriminate. reflexivity.
  - exists resp, enclave_ids. repeat split; [exact Hcall| |exact Hpage]. by left.
Qed.

(** With the default [is_enclave=None] the request asks for community
    reports. *)
Lemma X25_witness :
  ReportClientApi.get_reports_page (PyStr "ENCLAVE") (PyStr "COMMUNITY") (fun v => Ok v)
    MoreExamples.ascii_upper MoreExamples.api (PyList [PyStr "e1"])
    PyNone PyNone PyNone PyNone PyNone PyNone []
  = ReportClientApi.get_reports_page (PyStr "ENCLAVE") (PyStr "COMMUNITY") (fun v => Ok v)
      MoreExamples.ascii_upper MoreExamples.api (PyList [PyStr "e1"])
      (PyBool false) PyNone PyNone PyNone PyNone PyNone [].
Proof.
  destruct (X25_reports_page_is_enclave_None_is_False (list request)
              (PyStr "ENCLAVE") (PyStr "COMMUNITY") (fun v => Ok v)
              MoreExamples.ascii_upper MoreExamples.api (PyList [PyStr "e1"])
              PyNone PyNone PyNone PyNone PyNone PyNone []) as [H _]; [reflexivity|].
  exact H.
Defined.
